(** * printsnmp: a shallow embedding of the discovery, collection, delta and
      event pipeline, and the properties its specification states.

    The Go sources are embedded as Rocq functions.  Go [int], [int64] and
    [time.Duration] are [Z] with the two's complement wrap-around written
    out ([Go.wrap64]); Go strings are byte strings ([string], one [ascii]
    per byte); [map[string]interface{}] is a [gmap string _] over a small
    tagged union of the dynamic types the code inspects.  Calls that leave
    the process (SNMP, HTTP, the file system) take their answers from an
    explicit argument. *)

From Stdlib Require Import ZArith String Ascii List Lia QArith.
From Stdlib Require Strings.Byte.
From stdpp Require Import gmap strings list.

Local Open Scope Z_scope.

(* ===================================================================== *)
(** ** Go base types and the parts of [strings], [strconv] and [fmt] used *)
(* ===================================================================== *)

Module Go.

Definition int64_min : Z := - 2 ^ 63.
Definition int64_max : Z := 2 ^ 63 - 1.

Definition in_int64 (z : Z) : Prop := int64_min <= z <= int64_max.

(** Result of an [int64] operation whose mathematical value is [z]. *)
Definition wrap64 (z : Z) : Z := (z + 2 ^ 63) mod 2 ^ 64 - 2 ^ 63.

(** [byte(i)] for an [int]. *)
Definition to_byte (z : Z) : Z := z mod 256.

Definition byteval (c : ascii) : Z := Z.of_N (N_of_ascii c).
Definition char (z : Z) : ascii := ascii_of_N (Z.to_N z).

Definition chars (s : string) : list ascii := list_ascii_of_string s.
Definition str (l : list ascii) : string := string_of_list_ascii l.

Definition len (s : string) : Z := Z.of_nat (String.length s).

Definition is_digit (c : ascii) : bool :=
  (48 <=? byteval c) && (byteval c <=? 57).

(** ASCII white space, the part of [unicode.IsSpace] on single bytes. *)
Definition is_space (c : ascii) : bool :=
  let b := byteval c in
  (b =? 9) || (b =? 10) || (b =? 11) || (b =? 12) || (b =? 13) || (b =? 32).

(** The rest of [unicode.IsSpace], on the UTF-8 text of a rune: U+0085
    and U+00A0 take two bytes; U+1680, U+2000 to U+200A, U+2028, U+2029,
    U+202F, U+205F and U+3000 take three. *)
Definition is_space2 (c1 c2 : ascii) : bool :=
  (byteval c1 =? 0xC2) && ((byteval c2 =? 0x85) || (byteval c2 =? 0xA0)).

Definition is_space3 (c1 c2 c3 : ascii) : bool :=
  let b1 := byteval c1 in
  let b2 := byteval c2 in
  let b3 := byteval c3 in
  ((b1 =? 0xE1) && (b2 =? 0x9A) && (b3 =? 0x80))
  || ((b1 =? 0xE2) && (b2 =? 0x80)
      && (((0x80 <=? b3) && (b3 <=? 0x8A))
          || (b3 =? 0xA8) || (b3 =? 0xA9) || (b3 =? 0xAF)))
  || ((b1 =? 0xE2) && (b2 =? 0x81) && (b3 =? 0x9F))
  || ((b1 =? 0xE3) && (b2 =? 0x80) && (b3 =? 0x80)).

(** [strings.ToLower] and [strings.ToUpper] as they work on a string of
    ASCII bytes: the 26 letters change case.  Bytes of multi-byte runes
    are left as they are here; [Unicode.ToLower] below is the function on
    every string. *)
Definition lower_char (c : ascii) : ascii :=
  let b := byteval c in
  if (65 <=? b) && (b <=? 90) then char (b + 32) else c.

Definition upper_char (c : ascii) : ascii :=
  let b := byteval c in
  if (97 <=? b) && (b <=? 122) then char (b - 32) else c.

Fixpoint ToLower (s : string) : string :=
  match s with
  | EmptyString => EmptyString
  | String c s' => String (lower_char c) (ToLower s')
  end.

Fixpoint ToUpper (s : string) : string :=
  match s with
  | EmptyString => EmptyString
  | String c s' => String (upper_char c) (ToUpper s')
  end.

(** [strings.HasPrefix]. *)
Definition HasPrefix (s p : string) : bool := String.prefix p s.

Fixpoint skip (n : nat) (s : string) : string :=
  match n, s with
  | O, _ => s
  | S _, EmptyString => EmptyString
  | S n', String _ s' => skip n' s'
  end.

Fixpoint keep (n : nat) (s : string) : string :=
  match n, s with
  | O, _ => EmptyString
  | S _, EmptyString => EmptyString
  | S n', String c s' => String c (keep n' s')
  end.

(** [strings.TrimPrefix]. *)
Definition TrimPrefix (s p : string) : string :=
  if HasPrefix s p then skip (String.length p) s else s.

(** [strings.HasSuffix] and [strings.TrimSuffix]. *)
Definition HasSuffix (s p : string) : bool :=
  let n := String.length s in
  let k := String.length p in
  (k <=? n)%nat && String.eqb (skip (n - k) s) p.

Definition TrimSuffix (s p : string) : string :=
  if HasSuffix s p then keep (String.length s - String.length p) s else s.

(** [strings.Contains]. *)
Fixpoint Contains (s sub : string) : bool :=
  if HasPrefix s sub then true
  else match s with
       | EmptyString => false
       | String _ s' => Contains s' sub
       end.

(** [strings.Index]: [None] stands for -1. *)
Fixpoint Index (s sub : string) : option nat :=
  if HasPrefix s sub then Some O
  else match s with
       | EmptyString => None
       | String _ s' => option_map S (Index s' sub)
       end.

Fixpoint drop_while (p : ascii -> bool) (l : list ascii) : list ascii :=
  match l with
  | [] => []
  | c :: l' => if p c then drop_while p l' else l
  end.

Definition trim_right (p : ascii -> bool) (s : string) : string :=
  str (rev (drop_while p (rev (chars s)))).

(** The runes in white space at the head of a text are dropped: a
    single byte that [blank] accepts, or the two or three bytes of one of
    the other runes of [unicode.IsSpace].  Any other byte, also one that
    begins a rune or is not UTF-8 at all, ends the run. *)
Fixpoint drop_spaces (blank : ascii -> bool) (l : list ascii) : list ascii :=
  match l with
  | [] => []
  | c1 :: l1 =>
      if blank c1 then drop_spaces blank l1
      else
        match l1 with
        | [] => l
        | c2 :: l2 =>
            if is_space2 c1 c2 then drop_spaces blank l2
            else
              match l2 with
              | [] => l
              | c3 :: l3 =>
                  if is_space3 c1 c2 c3 then drop_spaces blank l3 else l
              end
        end
  end.

(** The same from the end of a text, given last byte first, as
    [utf8.DecodeLastRuneInString] reads it: the bytes of a rune in white
    space end the text exactly when that function decodes them. *)
Fixpoint drop_spaces_end (l : list ascii) : list ascii :=
  match l with
  | [] => []
  | c1 :: l1 =>
      if is_space c1 then drop_spaces_end l1
      else
        match l1 with
        | [] => l
        | c2 :: l2 =>
            if is_space2 c2 c1 then drop_spaces_end l2
            else
              match l2 with
              | [] => l
              | c3 :: l3 =>
                  if is_space3 c3 c2 c1 then drop_spaces_end l3 else l
              end
        end
  end.

(** [strings.TrimSpace]: the white space of [unicode.IsSpace] is taken
    from both ends, in ASCII and in the other runes alike. *)
Definition TrimSpace (s : string) : string :=
  str (rev (drop_spaces_end (rev (drop_spaces is_space (chars s))))).

(** [strings.TrimRight(s, "\x00")]. *)
Definition TrimRightNul (s : string) : string :=
  trim_right (fun c => byteval c =? 0) s.

(** [strings.ReplaceAll(s, old, new)] for a one-byte [old]. *)
Fixpoint ReplaceAll (s : string) (old : ascii) (new : string) : string :=
  match s with
  | EmptyString => EmptyString
  | String c s' =>
      if Ascii.eqb c old then String.append new (ReplaceAll s' old new)
      else String c (ReplaceAll s' old new)
  end.

(** [strings.Split(s, sep)] for a one-byte separator: the pieces between
    the separators, [n+1] pieces for [n] separators. *)
Fixpoint split_chars (sep : ascii) (cur : list ascii) (l : list ascii)
  : list string :=
  match l with
  | [] => [str (rev cur)]
  | c :: l' =>
      if Ascii.eqb c sep then str (rev cur) :: split_chars sep [] l'
      else split_chars sep (c :: cur) l'
  end.

Definition Split (s : string) (sep : ascii) : list string :=
  split_chars sep [] (chars s).

(** [strings.Fields]: the maximal runs of bytes outside the white space
    of [unicode.IsSpace]. *)
Fixpoint fields_chars (cur : list ascii) (l : list ascii) : list string :=
  let close (rest : list string) : list string :=
    match cur with
    | [] => rest
    | _ => str (rev cur) :: rest
    end in
  match l with
  | [] => close []
  | c1 :: l1 =>
      if is_space c1 then close (fields_chars [] l1)
      else
        match l1 with
        | [] => fields_chars (c1 :: cur) l1
        | c2 :: l2 =>
            if is_space2 c1 c2 then close (fields_chars [] l2)
            else
              match l2 with
              | [] => fields_chars (c1 :: cur) l1
              | c3 :: l3 =>
                  if is_space3 c1 c2 c3 then close (fields_chars [] l3)
                  else fields_chars (c1 :: cur) l1
              end
        end
  end.

Definition Fields (s : string) : list string := fields_chars [] (chars s).

(** [strings.Join]. *)
Fixpoint Join (l : list string) (sep : string) : string :=
  match l with
  | [] => EmptyString
  | [x] => x
  | x :: l' => String.append x (String.append sep (Join l' sep))
  end.

(** Value of a run of decimal digits, most significant first. *)
Fixpoint digits_value (acc : Z) (l : list ascii) : Z :=
  match l with
  | [] => acc
  | c :: l' => digits_value (acc * 10 + (byteval c - 48)) l'
  end.

Definition all_digits (l : list ascii) : bool :=
  match l with
  | [] => false
  | _ => forallb is_digit l
  end.

(** [strconv.ParseInt(s, 10, 64)]: an optional sign, then one or more
    decimal digits and nothing else; [None] is the error result, also for
    a value outside [int64]. *)
Definition ParseInt (s : string) : option Z :=
  let body neg l :=
    if all_digits l then
      let v := if neg : bool then - digits_value 0 l else digits_value 0 l in
      if (int64_min <=? v) && (v <=? int64_max) then Some v else None
    else None in
  match chars s with
  | [] => None
  | c :: l =>
      if byteval c =? 43 then body false l
      else if byteval c =? 45 then body true l
      else body false (c :: l)
  end.

(** [strconv.Atoi] on a platform with a 64-bit [int]. *)
Definition Atoi (s : string) : option Z := ParseInt s.

Fixpoint take_while (p : ascii -> bool) (l : list ascii) : list ascii :=
  match l with
  | [] => []
  | c :: l' => if p c then c :: take_while p l' else []
  end.

(** [fmt.Sscanf(s, "%d", &n)] for a 64-bit integer: leading white space
    other than a newline is skipped, then an optional sign and the longest
    run of decimal digits and underscores are read and given to
    [strconv.ParseInt], which refuses an underscore; what follows the run
    is left unread.  [None] is the error result. *)
Definition Sscanf_d (s : string) : option Z :=
  let blank c :=
    (byteval c =? 32) || (byteval c =? 9) || (byteval c =? 11)
    || (byteval c =? 12) || (byteval c =? 13) in
  let body neg l :=
    let tok := take_while (fun c => is_digit c || (byteval c =? 95)) l in
    if all_digits tok then
      let v := if neg : bool then - digits_value 0 tok else digits_value 0 tok in
      if (int64_min <=? v) && (v <=? int64_max) then Some v else None
    else None in
  match drop_spaces blank (chars s) with
  | [] => None
  | c :: l =>
      if byteval c =? 43 then body false l
      else if byteval c =? 45 then body true l
      else body false (c :: l)
  end.

(** Decimal digits of a natural number, as [fmt.Sprintf("%d", n)] prints
    them. *)
Fixpoint nat_digits (fuel : nat) (n : Z) (acc : list ascii) : list ascii :=
  match fuel with
  | O => acc
  | S fuel' =>
      let acc' := char (48 + n mod 10) :: acc in
      if n / 10 =? 0 then acc' else nat_digits fuel' (n / 10) acc'
  end.

Definition itoa (n : Z) : string :=
  if n <? 0 then String "-" (str (nat_digits 20 (- n) []))
  else str (nat_digits 20 n []).

End Go.

(** [strings.ToLower] on every string.  The function looks for a byte
    outside ASCII first: without one it lowers the 26 letters, with one it
    returns [strings.Map(unicode.ToLower, s)], which follows the case
    tables of the [unicode] package (the Kelvin sign U+212A becomes k, and
    bytes that are not UTF-8 become U+FFFD).  The tables are not part of
    the program: [lowerRunes] stands for that second branch. *)
Module Unicode.

Definition isASCII (s : string) : bool :=
  forallb (fun c => Go.byteval c <? 128) (Go.chars s).

Definition ToLower (lowerRunes : string -> string) (s : string) : string :=
  if isASCII s then Go.ToLower s else lowerRunes s.

End Unicode.

(** A Go [(value, error)] pair in which exactly one side is set. *)
Inductive result (E A : Type) : Type :=
| Ok (a : A)
| Err (e : E).
Arguments Ok {E A} a.
Arguments Err {E A} e.

(* ===================================================================== *)
(** ** pkg/collector/state.go: the per-printer state store               *)
(* ===================================================================== *)

Module State.

(** [CountersInfo]: the absolute counters, all [int64]. *)
Record CountersInfo : Type := mkCountersInfo {
  TotalPages : Z;
  MonoPages : Z;
  ColorPages : Z;
  ScanPages : Z;
  CopyPages : Z;
  FaxPages : Z
}.

(** [CountersDiff]: the same six fields, holding differences. *)
Record CountersDiff : Type := mkCountersDiff {
  dTotalPages : Z;
  dMonoPages : Z;
  dColorPages : Z;
  dScanPages : Z;
  dCopyPages : Z;
  dFaxPages : Z
}.

(** [CountersSnapshot]: [Delta] is nil after a reset or on a first poll. *)
Record CountersSnapshot : Type := mkCountersSnapshot {
  Absolute : CountersInfo;
  Delta : option CountersDiff;
  ResetDetected : bool
}.

Record PrinterState : Type := mkPrinterState {
  LastPollAt : Z;
  Counters : CountersInfo
}.

(** What [ioutil.ReadFile] followed by [json.Unmarshal] finds at a path:
    a file that cannot be read, bytes that are not a JSON state, or the
    state a JSON document decodes to. *)
Inductive StateFile : Type :=
| Unreadable
| Malformed
| Saved (st : PrinterState).

Inductive LoadError : Type :=
| ReadFailed
| UnmarshalFailed.

(** What [ioutil.WriteFile] does at a path: it writes the file and
    returns nil, or it returns an error and leaves at the path what
    [remains] says (the file as it was when it could not be opened, a
    truncated one when the write broke off, none at all). *)
Inductive WriteOutcome : Type :=
| Written
| WriteRefused (remains : option StateFile).

Inductive SaveError : Type :=
| WriteFailed.

(** The manager and the directory it works in: an absent key of [files]
    is a file that does not exist, and [writeFile] tells for every path
    how a write to it ends. *)
Record StateManager : Type := mkStateManager {
  stateDir : string;
  files : gmap string StateFile;
  writeFile : string -> WriteOutcome
}.

(** [filepath.Join(stateDir, "printer_<ip>.json")], without the path
    cleaning [Join] also does. *)
Definition getStateFilename (sm : StateManager) (printerIP : string) : string :=
  let sanitized := printerIP in
  String.append (stateDir sm)
    (String.append "/printer_" (String.append sanitized ".json")).

Definition LoadState (sm : StateManager) (printerIP : string)
  : result LoadError (option PrinterState) :=
  let filename := getStateFilename sm printerIP in
  match files sm !! filename with
  | None => Ok None
  | Some Unreadable => Err ReadFailed
  | Some Malformed => Err UnmarshalFailed
  | Some (Saved st) => Ok (Some st)
  end.

(** [SaveState]: the store afterwards and the error returned.  A
    successful write replaces the file; [now] is [time.Now().UTC()].
    ([json.MarshalIndent] does not fail on a [PrinterState].) *)
Definition SaveState (sm : StateManager) (now : Z) (printerIP : string)
    (counters : CountersInfo) : StateManager * option SaveError :=
  let state := {| LastPollAt := now; Counters := counters |} in
  let filename := getStateFilename sm printerIP in
  match writeFile sm filename with
  | Written =>
      ({| stateDir := stateDir sm;
          files := <[filename := Saved state]> (files sm);
          writeFile := writeFile sm |}, None)
  | WriteRefused remains =>
      ({| stateDir := stateDir sm;
          files := partial_alter (fun _ => remains) filename (files sm);
          writeFile := writeFile sm |}, Some WriteFailed)
  end.

Definition CalculateDelta (sm : StateManager) (printerIP : string)
    (currentCounters : CountersInfo) : option CountersDiff * bool :=
  match LoadState sm printerIP with
  | Err _ => (None, false)
  | Ok None => (None, false)
  | Ok (Some previousState) =>
      if TotalPages currentCounters <? TotalPages (Counters previousState)
      then (None, true)
      else
        let prev := Counters previousState in
        (Some {| dTotalPages := Go.wrap64 (TotalPages currentCounters - TotalPages prev);
                 dMonoPages := Go.wrap64 (MonoPages currentCounters - MonoPages prev);
                 dColorPages := Go.wrap64 (ColorPages currentCounters - ColorPages prev);
                 dScanPages := Go.wrap64 (ScanPages currentCounters - ScanPages prev);
                 dCopyPages := Go.wrap64 (CopyPages currentCounters - CopyPages prev);
                 dFaxPages := Go.wrap64 (FaxPages currentCounters - FaxPages prev) |},
         false)
  end.

End State.

(* ===================================================================== *)
(** ** pkg/scanner/network.go: the range parser                          *)
(* ===================================================================== *)

Module Scanner.

Inductive ParseError : Type :=
| InvalidIP (s : string)             (* "formato de IP invalido" *)
| InvalidRangeFormat (s : string)    (* "formato de rango invalido" *)
| InvalidStartIP (s : string)        (* "IP inicial invalida" *)
| OnlyIPv4 (s : string)              (* "solo se soporta IPv4" *)
| InvalidEndOctet (s : string)       (* "octeto final invalido" *)
| OctetOutOfRange (n : Z).           (* "octeto fuera de rango (0-255)" *)

(** A [net.IP]: its bytes. *)
Definition IP : Type := list Z.

Section NetParseIP.

(** The IPv6 grammar of the [net] package, which [net.ParseIP] applies
    when the first separator of the text is a colon. *)
Variable parseIPv6 : string -> option IP.

(** One dotted-decimal field: decimal digits only, no leading zero on a
    field of several digits, value at most 255. *)
Definition parseIPv4Field (f : string) : option Z :=
  let l := Go.chars f in
  if Go.all_digits l then
    let leading_zero :=
      match l with
      | c :: _ :: _ => Go.byteval c =? 48
      | _ => false
      end in
    if leading_zero then None
    else if Go.digits_value 0 l <=? 255 then Some (Go.digits_value 0 l)
    else None
  else None.

(** [net.IPv4(a, b, c, d)]: the 16-byte IPv4-in-IPv6 form. *)
Definition IPv4 (a b c d : Z) : IP :=
  [0; 0; 0; 0; 0; 0; 0; 0; 0; 0; 255; 255; a; b; c; d].

Definition parseIPv4 (s : string) : option IP :=
  match Go.Split s "."%char with
  | [fa; fb; fc; fd] =>
      match parseIPv4Field fa, parseIPv4Field fb,
            parseIPv4Field fc, parseIPv4Field fd with
      | Some a, Some b, Some c, Some d => Some (IPv4 a b c d)
      | _, _, _, _ => None
      end
  | _ => None
  end.

(** [net.ParseIP]: the first of '.', ':' and '%' in the text selects the
    grammar; [None] is the nil IP. *)
Fixpoint parseIP_dispatch (whole : string) (l : list ascii) : option IP :=
  match l with
  | [] => None
  | c :: l' =>
      if Go.byteval c =? 46 then parseIPv4 whole
      else if Go.byteval c =? 58 then parseIPv6 whole
      else if Go.byteval c =? 37 then None
      else parseIP_dispatch whole l'
  end.

Definition ParseIP (s : string) : option IP :=
  parseIP_dispatch s (Go.chars s).

(** [IP.To4]. *)
Definition To4 (ip : IP) : option (Z * Z * Z * Z) :=
  match ip with
  | [a; b; c; d] => Some (a, b, c, d)
  | [z0; z1; z2; z3; z4; z5; z6; z7; z8; z9; f0; f1; a; b; c; d] =>
      if forallb (Z.eqb 0) [z0; z1; z2; z3; z4; z5; z6; z7; z8; z9]
         && (f0 =? 255) && (f1 =? 255)
      then Some (a, b, c, d) else None
  | _ => None
  end.

(** [net.IPv4(a, b, c, d).String()]. *)
Definition IPv4String (a b c d : Z) : string :=
  Go.Join [Go.itoa a; Go.itoa b; Go.itoa c; Go.itoa d] ".".

Definition parseRangeFormat (startIP endOctet : string)
  : result ParseError (list string) :=
  match ParseIP startIP with
  | None => Err (InvalidStartIP startIP)
  | Some ip =>
      match To4 ip with
      | None => Err (OnlyIPv4 startIP)
      | Some (a, b, c, d) =>
          match Go.Atoi endOctet with
          | None => Err (InvalidEndOctet endOctet)
          | Some endNum =>
              if (endNum <? 0) || (255 <? endNum)
              then Err (OctetOutOfRange endNum)
              else
                let startNum := d in
                (* for i := startNum; i <= endNum; i++ *)
                Ok ((fun i => IPv4String a b c (Go.to_byte i))
                      <$> seqZ startNum (endNum - startNum + 1))
          end
      end
  end.

Definition ParseIPRange (ipRange : string) : result ParseError (list string) :=
  match Go.Split ipRange "-"%char with
  | [startIP; endOctet] => parseRangeFormat startIP endOctet
  | [_] =>
      match ParseIP ipRange with
      | Some _ => Ok [ipRange]
      | None => Err (InvalidIP ipRange)
      end
  | _ => Err (InvalidRangeFormat ipRange)
  end.

End NetParseIP.

End Scanner.

(* ===================================================================== *)
(** ** pkg/sink/http_sink.go: the HTTP sink and its retry loop            *)
(* ===================================================================== *)

Module Sink.

(** What one POST meets: the request cannot be built, the transport
    fails, or the server answers with a status code. *)
Inductive Response : Type :=
| CannotBuildRequest
| TransportFailure
| Status (code : Z).

(** The error values [sendRequest] returns.  Only [ClientError] is a
    [*SinkError]; the others are plain [fmt.Errorf] errors. *)
Inductive SendError : Type :=
| CreateRequestFailed                (* "failed to create request" *)
| RequestFailed                      (* "http request failed" *)
| ClientError (code : Z)             (* "client error (HTTP %d)" *)
| ServerError (code : Z).            (* "server error (HTTP %d)" *)

Definition sendRequest (r : Response) : option SendError :=
  match r with
  | CannotBuildRequest => Some CreateRequestFailed
  | TransportFailure => Some RequestFailed
  | Status code =>
      if (200 <=? code) && (code <? 300) then None
      else if (400 <=? code) && (code <? 500) then Some (ClientError code)
      else Some (ServerError code)
  end.

Record HTTPSink : Type := mkHTTPSink {
  endpoint : string;
  authToken : string;
  timeout : Z;
  maxRetries : Z;
  initialWait : Z        (* a [time.Duration], in nanoseconds *)
}.

Record HTTPSinkConfig : Type := mkHTTPSinkConfig {
  Endpoint : string;
  AuthToken : string;
  Timeout : Z;
  MaxRetries : Z;
  InitialWait : Z
}.

Definition Second : Z := 1000000000.

Definition NewHTTPSink (config : HTTPSinkConfig) : HTTPSink :=
  {| endpoint := Endpoint config;
     authToken := AuthToken config;
     timeout := if Timeout config =? 0 then 10 * Second else Timeout config;
     maxRetries := if MaxRetries config =? 0 then 3 else MaxRetries config;
     initialWait := if InitialWait config =? 0 then 1 * Second
                    else InitialWait config |}.

(** The outside world during one [Write]: the answer to the request of
    each attempt, and whether the context is done when the wait before
    an attempt starts. *)
Record World : Type := mkWorld {
  reply : Z -> Response;
  ctxDone : Z -> bool
}.

(** What [Write] does that can be seen from outside, in order. *)
Inductive Event : Type :=
| Waited (d : Z)
| Sent (attempt : Z).

Inductive WriteError : Type :=
| EmptyData                                         (* "empty data for printer" *)
| ContextCancelled (attempt : Z)                    (* "context cancelled after n retries" *)
| FailedAfter (attempts : Z) (lastErr : SendError)  (* "failed after n attempts" *)
| LastError (lastErr : SendError).                  (* the bare lastErr *)

(** The body of the [for attempt := 0; attempt <= hs.maxRetries; attempt++]
    loop, [remaining] iterations before the loop condition fails. *)
Fixpoint attempts (hs : HTTPSink) (w : World) (remaining : nat)
    (attempt waitDuration : Z) (lastErr : option SendError)
  : list Event * option WriteError :=
  match remaining with
  | O =>
      (* the loop condition failed: return lastErr *)
      ([], LastError <$> lastErr)
  | S remaining' =>
      let send (pre : list Event) (waitDuration' : Z) :=
        match sendRequest (reply w attempt) with
        | None => (pre ++ [Sent attempt], None)
        | Some err =>
            if attempt =? maxRetries hs
            then (pre ++ [Sent attempt],
                  Some (FailedAfter (Go.wrap64 (maxRetries hs + 1)) err))
            else
              let '(tr, res) :=
                attempts hs w remaining' (attempt + 1) waitDuration' (Some err) in
              (pre ++ Sent attempt :: tr, res)
        end in
      if 0 <? attempt then
        if ctxDone w attempt
        then ([], Some (ContextCancelled attempt))
        else
          let doubled := Go.wrap64 (waitDuration * 2) in
          let next := if 60 * Second <? doubled then 60 * Second else doubled in
          send [Waited waitDuration] next
      else send [] waitDuration
  end.

(** [Write]: the events it causes and the error it returns ([None] is
    nil). *)
Definition Write (hs : HTTPSink) (w : World) (data : list Byte.byte)
    (printerID : string) : list Event * option WriteError :=
  match data with
  | [] => ([], Some EmptyData)
  | _ => attempts hs w (Z.to_nat (maxRetries hs + 1)) 0 (initialWait hs) None
  end.

Definition requests (tr : list Event) : list Z :=
  omap (fun e => match e with Sent a => Some a | Waited _ => None end) tr.

Definition waits (tr : list Event) : list Z :=
  omap (fun e => match e with Waited d => Some d | Sent _ => None end) tr.

End Sink.

(* ===================================================================== *)
(** ** pkg/snmp: coercion of PDU values                                  *)
(* ===================================================================== *)

Module Snmp.

(** The dynamic types of [gosnmp.SnmpPDU.Value] the coercion tells apart;
    [Other] carries what [fmt.Sprintf("%v", v)] prints. *)
Inductive PDUValue : Type :=
| Nil
| Str (s : string)
| Bytes (b : list Byte.byte)
| Int (n : Z)
| Uint (n : Z)
| Uint32 (n : Z)
| Uint64 (n : Z)
| Other (printed : string).

Definition bv (b : Byte.byte) : Z := Z.of_N (Byte.to_N b).

(** [string(v)] for a byte slice. *)
Definition string_of_bytes (b : list Byte.byte) : string :=
  string_of_list_byte b.

Definition hex_digit (n : Z) : ascii :=
  if n <? 10 then Go.char (48 + n) else Go.char (87 + n).

(** [hex.EncodeToString] of one byte. *)
Definition hex_byte (b : Byte.byte) : string :=
  String (hex_digit (bv b / 16)) (String (hex_digit (bv b mod 16)) EmptyString).

(** The six-byte branch: [hex.EncodeToString] cut in pairs and joined by
    colons. *)
Definition formatMAC (v : list Byte.byte) : string :=
  Go.Join (hex_byte <$> v) ":".

(** [isValidUTF8]: the lead byte fixes the length of each sequence and
    the bytes it announces must be there; continuation bytes are not
    inspected. *)
Fixpoint isValidUTF8 (b : list Byte.byte) : bool :=
  match b with
  | [] => true
  | c :: rest =>
      if bv c <? 128 then isValidUTF8 rest
      else if bv c <? 192 then false
      else if bv c <? 224 then
        match rest with
        | _ :: rest' => isValidUTF8 rest'
        | _ => false
        end
      else if bv c <? 240 then
        match rest with
        | _ :: _ :: rest' => isValidUTF8 rest'
        | _ => false
        end
      else if bv c <? 248 then
        match rest with
        | _ :: _ :: _ :: rest' => isValidUTF8 rest'
        | _ => false
        end
      else false
  end.

Definition printable (c : Byte.byte) : bool :=
  ((32 <=? bv c) && (bv c <=? 126))
  || (bv c =? 9) || (bv c =? 10) || (bv c =? 13).

Definition printableCount (b : list Byte.byte) : Z :=
  Z.of_nat (length (filter (fun c => printable c = true) b)).

(** [isLikelyText]: [float64(printableCount)/float64(len(b)) >= 0.8].
    For slices shorter than 2^50 bytes the rounded quotient is at least
    the rounded constant exactly when [printableCount/len >= 4/5], which
    is the integer comparison below. *)
Definition isLikelyText (b : list Byte.byte) : bool :=
  match b with
  | [] => false
  | _ => 4 * Z.of_nat (length b) <=? 5 * printableCount b
  end.

Definition isLikelyASCII (b : list Byte.byte) : bool :=
  match b with
  | [] => false
  | _ =>
      forallb (fun c =>
        negb ((bv c <? 32) && negb (bv c =? 9) && negb (bv c =? 10)
              && negb (bv c =? 13))
        && negb (126 <? bv c)) b
  end.

(** [ParseValue], the exported coercion the client of the agent calls. *)
Definition ParseValue (variable : PDUValue) : string :=
  match variable with
  | Nil => EmptyString
  | Str v => Go.TrimRightNul v
  | Bytes v =>
      if isValidUTF8 v && isLikelyText v
      then Go.TrimRightNul (string_of_bytes v)
      else if (Nat.eqb (length v) 6) && negb (isLikelyText v)
      then formatMAC v
      else if isLikelyASCII v
      then Go.TrimRightNul (string_of_bytes v)
      else EmptyString
  | Int v | Uint v | Uint32 v | Uint64 v => Go.itoa v
  | Other printed => printed
  end.

(** [parseValue], the unexported coercion of the second client in the
    package: the length test comes first. *)
Definition parseValue (variable : PDUValue) : string :=
  match variable with
  | Nil => EmptyString
  | Str v => Go.TrimRightNul v
  | Bytes v =>
      if Nat.eqb (length v) 6
      then formatMAC v
      else if isValidUTF8 v && isLikelyText v
      then Go.TrimRightNul (string_of_bytes v)
      else EmptyString
  | Int v | Uint v | Uint32 v | Uint64 v => Go.itoa v
  | Other printed => printed
  end.

End Snmp.

(* ===================================================================== *)
(** ** pkg/detector/brand.go                                             *)
(* ===================================================================== *)

Module Detector.

(** [matchesPatterns]. *)
Fixpoint matchesPatterns (descLower : string) (patterns : list string) : bool :=
  match patterns with
  | [] => false
  | pattern :: rest =>
      if Go.Contains descLower pattern then true
      else matchesPatterns descLower rest
  end.

Definition hpPatterns : list string :=
  ["hp"; "hewlett packard"; "laserjet"; "officejet"; "color laserjet"]%string.
Definition xeroxPatterns : list string :=
  ["xerox"; "docucentre"; "workcentre"; "docucolor"; "versalink"]%string.
Definition brotherPatterns : list string :=
  ["brother"; "hl-"; "mfc-"; "dcpl"]%string.
Definition ricohPatterns : list string :=
  ["ricoh"; "imagio"; "lanier"; "gestetner"]%string.
Definition canonPatterns : list string :=
  ["canon"; "imagerunner"; "ir-"]%string.
Definition konicaPatterns : list string :=
  ["konica"; "minolta"; "bizhub"; "accurio"]%string.
Definition okiPatterns : list string :=
  ["oki"; "okidata"; "c931"; "c941"]%string.
Definition kyoceraPatterns : list string :=
  ["kyocera"; "mita"; "taskalfa"; "km-"]%string.
Definition sharpPatterns : list string :=
  ["sharp"; "mx-"; "ar-"]%string.
Definition toshibaPatterns : list string :=
  ["toshiba"; "e-studio"]%string.
Definition samsungPatterns : list string :=
  ["samsung"; "ml-"; "sl-"; "clp-"]%string.

(** The patterns of the eight brands [DetectBrand] tries before Sharp. *)
Definition beforeSharp : list string :=
  hpPatterns ++ xeroxPatterns ++ brotherPatterns ++ ricohPatterns
  ++ canonPatterns ++ konicaPatterns ++ okiPatterns ++ kyoceraPatterns.

(** [DetectBrand]; [lowerRunes] is the part of [strings.ToLower] that
    reads the case tables. *)
Definition DetectBrand (lowerRunes : string -> string) (sysDescr : string)
  : string :=
  let descLower := Unicode.ToLower lowerRunes sysDescr in
  if matchesPatterns descLower hpPatterns then "HP"
  else if matchesPatterns descLower xeroxPatterns then "Xerox"
  else if matchesPatterns descLower brotherPatterns then "Brother"
  else if matchesPatterns descLower ricohPatterns then "Ricoh"
  else if matchesPatterns descLower canonPatterns then "Canon"
  else if matchesPatterns descLower konicaPatterns then "KonicaMinolta"
  else if matchesPatterns descLower okiPatterns then "OKI"
  else if matchesPatterns descLower kyoceraPatterns then "Kyocera"
  else if matchesPatterns descLower sharpPatterns then "Sharp"
  else if matchesPatterns descLower toshibaPatterns then "Toshiba"
  else if matchesPatterns descLower samsungPatterns then "Samsung"
  else "Generic".

End Detector.

(* ===================================================================== *)
(** ** Values of [interface{}] held in the collector's buckets            *)
(* ===================================================================== *)

Module Dyn.

(** The dynamic types the code tells apart with type assertions.  The
    only operation applied to a [float64] found in a bucket is the
    conversion to an integer, so a [float64] is carried by the result of
    that conversion. *)
Inductive Scalar : Type :=
| SNil
| SInt (n : Z)
| SInt64 (n : Z)
| SFloat64 (truncated : Z)
| SString (s : string)
| SOther.

(** A bucket entry: a scalar or a string-keyed map of scalars. *)
Inductive Any : Type :=
| Scal (s : Scalar)
| Map (m : gmap string Scalar).

Definition VNil : Any := Scal SNil.
Definition VInt (n : Z) : Any := Scal (SInt n).
Definition VInt64 (n : Z) : Any := Scal (SInt64 n).
Definition VString (s : string) : Any := Scal (SString s).

(** A Go [map[string]interface{}]. *)
Abbreviation Bucket := (gmap string Any).

(** [for k, v := range m]: Go leaves the order unspecified; the model
    visits the entries in the order of [map_to_list]. *)
Definition range {A} (m : gmap string A) : list (string * A) := map_to_list m.

End Dyn.

(* ===================================================================== *)
(** ** pkg/profile: the profile record and its store                     *)
(* ===================================================================== *)

Module Profile.

Record CapabilityMap : Type := mkCapabilityMap {
  Duplex : bool;
  Color : bool;
  Scanner : bool;
  Fax : bool;
  Supplies : bool;
  Counters : bool;
  Network : bool;
  Status : bool;
  Supported : list string;
  Failed : list string
}.

Record OIDMetadata : Type := mkOIDMetadata {
  OID : string;
  Category : string;
  MinValue : Dyn.Scalar;
  MaxValue : Dyn.Scalar;
  Unit : string;
  DataType : string;
  LastValue : Dyn.Scalar;
  Consistent : bool;
  MeanValue : Q
}.

(** [Profile].  Times are instants on an integer clock; [SuccessRate] is
    the rational a [float64] quotient of two integers stands for. *)
Record Profile : Type := mkProfile {
  PrinterID : string;
  IP : string;
  Brand : string;
  Model : string;
  OIDs : gmap string (list string);
  CounterMappings : gmap string string;
  OIDMetadataOf : gmap string OIDMetadata;
  OIDFriendlyNames : gmap string string;
  Capabilities : CapabilityMap;
  DiscoveredAt : Z;
  LastValidatedAt : Z;
  FirmwareVersion : string;
  SNMPVersion : string;
  DiscoveryAttempts : Z;
  LastError : string;
  ErrorCount : Z;
  SuccessRate : Q
}.

(** A [*Profile]. *)
Definition ptr : Type := positive.

(** What [os.ReadFile] and [json.Unmarshal] find at a path. *)
Inductive ProfileFile : Type :=
| Unreadable
| Malformed
| Json (p : Profile).

Inductive Error : Type :=
| InvalidProfile            (* "profile invalido para guardar" *)
| NotFound (id : string)    (* "profile no encontrado" *)
| ReadFailed
| ParseFailed               (* "error parseando perfil" *)
| MarshalFailed             (* "error serializando perfil" *)
| WriteFailed.              (* "error escribiendo perfil" *)

(** The manager, the records its pointers lead to, and the directory it
    writes to.  [writable] tells whether [os.WriteFile] succeeds. *)
Record Manager : Type := mkManager {
  profileDir : string;
  cache : gmap string ptr;
  heap : gmap ptr Profile;
  disk : gmap string ProfileFile;
  writable : bool
}.

(** Slash, backslash, colon, star, question mark, double quote, the two
    angle brackets and the bar, in the order the source lists them. *)
Definition unsafeChars : list ascii :=
  Go.char <$> [47; 92; 58; 42; 63; 34; 60; 62; 124].

Definition getFileName (printerID : string) : string :=
  let safeID :=
    fold_left (fun safeID ch => Go.ReplaceAll safeID ch "_") unsafeChars printerID in
  String.append safeID ".json".

(** [filepath.Join(dir, name)], without the path cleaning. *)
Definition filePath (m : Manager) (printerID : string) : string :=
  String.append (profileDir m) (String.append "/" (getFileName printerID)).

Section Store.

(** [json.MarshalIndent] followed by what [json.Unmarshal] makes of
    the bytes; [None] when the record cannot be marshalled. *)
Variable jsonImage : Profile -> option Profile.

Definition loadFromDisk (m : Manager) (printerID : string)
  : result Error Profile :=
  match disk m !! filePath m printerID with
  | None | Some Unreadable => Err ReadFailed
  | Some Malformed => Err ParseFailed
  | Some (Json p) => Ok p
  end.

Definition saveToDisk (m : Manager) (p : Profile) : Manager * option Error :=
  match jsonImage p with
  | None => (m, Some MarshalFailed)
  | Some q =>
      if writable m
      then ({| profileDir := profileDir m; cache := cache m; heap := heap m;
               disk := <[filePath m (PrinterID p) := Json q]> (disk m);
               writable := writable m |}, None)
      else (m, Some WriteFailed)
  end.

(** [GetOrDiscover]: [None] is the nil profile that asks for a
    discovery.  A record read from disk is a fresh allocation. *)
Definition GetOrDiscover (m : Manager) (printerID : string)
  : Manager * option ptr :=
  match cache m !! printerID with
  | Some p => (m, Some p)
  | None =>
      match loadFromDisk m printerID with
      | Ok p =>
          let l := fresh (dom (heap m)) in
          ({| profileDir := profileDir m;
              cache := <[printerID := l]> (cache m);
              heap := <[l := p]> (heap m);
              disk := disk m;
              writable := writable m |}, Some l)
      | Err _ => (m, None)
      end
  end.

(** [SaveProfile]; the argument is a possibly nil pointer. *)
Definition SaveProfile (m : Manager) (profile : option ptr)
  : Manager * option Error :=
  match profile with
  | None => (m, Some InvalidProfile)
  | Some l =>
      match heap m !! l with
      | None => (m, Some InvalidProfile)
      | Some p =>
          if String.eqb (PrinterID p) EmptyString then (m, Some InvalidProfile)
          else
            let m' := {| profileDir := profileDir m;
                         cache := <[PrinterID p := l]> (cache m);
                         heap := heap m;
                         disk := disk m;
                         writable := writable m |} in
            saveToDisk m' p
      end
  end.

Definition setValidation (p : Profile) (now attempts errors : Z)
    (lastError : string) (rate : Q) : Profile :=
  {| PrinterID := PrinterID p; IP := IP p; Brand := Brand p; Model := Model p;
     OIDs := OIDs p; CounterMappings := CounterMappings p;
     OIDMetadataOf := OIDMetadataOf p; OIDFriendlyNames := OIDFriendlyNames p;
     Capabilities := Capabilities p; DiscoveredAt := DiscoveredAt p;
     LastValidatedAt := now;
     FirmwareVersion := FirmwareVersion p; SNMPVersion := SNMPVersion p;
     DiscoveryAttempts := attempts;
     LastError := lastError;
     ErrorCount := errors;
     SuccessRate := rate |}.

(** The in-place update [UpdateValidation] makes through the cached
    pointer; [now] is [time.Now()]. *)
Definition validate (now : Z) (success : bool) (err : string) (p : Profile)
  : Profile :=
  let attempts := Go.wrap64 (DiscoveryAttempts p + 1) in
  if success then
    setValidation p now attempts 0 EmptyString (95 # 100)
  else
    let errors := Go.wrap64 (ErrorCount p + 1) in
    let rate :=
      if 0 <? attempts
      then (inject_Z (Go.wrap64 (attempts - errors)) / inject_Z attempts)%Q
      else SuccessRate p in
    setValidation p now attempts errors err rate.

Definition UpdateValidation (m : Manager) (now : Z) (printerID : string)
    (success : bool) (err : string) : Manager * option Error :=
  match cache m !! printerID with
  | None => (m, Some (NotFound printerID))
  | Some l =>
      match heap m !! l with
      | None => (m, Some (NotFound printerID))
      | Some p =>
          let p' := validate now success err p in
          let m' := {| profileDir := profileDir m; cache := cache m;
                       heap := <[l := p']> (heap m);
                       disk := disk m; writable := writable m |} in
          saveToDisk m' p'
      end
  end.

End Store.

End Profile.

(* ===================================================================== *)
(** ** pkg/collector/data.go: collection of status and counters          *)
(* ===================================================================== *)

Module Collector.
Import Dyn.

Local Open Scope string_scope.
Local Open Scope Z_scope.

(** [snmp.WalkResult]. *)
Record WalkResult : Type := mkWalkResult {
  OID : string;
  Value : string
}.

Inductive SNMPError : Type := SNMPFailed.

(** The client as the collector uses it: the answers of the device to a
    WALK of a subtree and to a GET of a list of OIDs.  The values are the
    strings [snmp.ParseValue] returns. *)
Record SNMPClient : Type := mkSNMPClient {
  Walk : string -> result SNMPError (list WalkResult);
  GetMultiple : list string -> result SNMPError (gmap string string)
}.

Record DeviceInfo : Type := mkDeviceInfo {
  devIP : string;
  devBrand : string;
  devBrandConfidence : Q;
  devSysDescr : string;
  devCommunity : string;
  devSNMPVersion : string
}.

Record PrinterData : Type := mkPrinterData {
  IP : string;
  Brand : string;
  Confidence : Q;
  Identification : Bucket;
  Status : Bucket;
  Supplies : Bucket;
  Counters : Bucket;
  NetworkInfo : Bucket;
  AdminInfo : Bucket;
  NormalizedCounters : Bucket;
  Errors : list string;
  MissingSections : list string;
  Timestamp : Z;
  ResponseTime : Z;
  ProbeAttempts : Z
}.

Definition with_Identification (d : PrinterData) (b : Bucket) : PrinterData :=
  mkPrinterData (IP d) (Brand d) (Confidence d) b (Status d) (Supplies d)
    (Counters d) (NetworkInfo d) (AdminInfo d) (NormalizedCounters d)
    (Errors d) (MissingSections d) (Timestamp d) (ResponseTime d) (ProbeAttempts d).

Definition with_Status (d : PrinterData) (b : Bucket) : PrinterData :=
  mkPrinterData (IP d) (Brand d) (Confidence d) (Identification d) b (Supplies d)
    (Counters d) (NetworkInfo d) (AdminInfo d) (NormalizedCounters d)
    (Errors d) (MissingSections d) (Timestamp d) (ResponseTime d) (ProbeAttempts d).

Definition with_Supplies (d : PrinterData) (b : Bucket) : PrinterData :=
  mkPrinterData (IP d) (Brand d) (Confidence d) (Identification d) (Status d) b
    (Counters d) (NetworkInfo d) (AdminInfo d) (NormalizedCounters d)
    (Errors d) (MissingSections d) (Timestamp d) (ResponseTime d) (ProbeAttempts d).

Definition with_Counters (d : PrinterData) (b : Bucket) : PrinterData :=
  mkPrinterData (IP d) (Brand d) (Confidence d) (Identification d) (Status d)
    (Supplies d) b (NetworkInfo d) (AdminInfo d) (NormalizedCounters d)
    (Errors d) (MissingSections d) (Timestamp d) (ResponseTime d) (ProbeAttempts d).

Definition with_NormalizedCounters (d : PrinterData) (b : Bucket) : PrinterData :=
  mkPrinterData (IP d) (Brand d) (Confidence d) (Identification d) (Status d)
    (Supplies d) (Counters d) (NetworkInfo d) (AdminInfo d) b
    (Errors d) (MissingSections d) (Timestamp d) (ResponseTime d) (ProbeAttempts d).

Definition with_MissingSections (d : PrinterData) (l : list string) : PrinterData :=
  mkPrinterData (IP d) (Brand d) (Confidence d) (Identification d) (Status d)
    (Supplies d) (Counters d) (NetworkInfo d) (AdminInfo d) (NormalizedCounters d)
    (Errors d) l (Timestamp d) (ResponseTime d) (ProbeAttempts d).

Definition with_ResponseTime (d : PrinterData) (t : Z) : PrinterData :=
  mkPrinterData (IP d) (Brand d) (Confidence d) (Identification d) (Status d)
    (Supplies d) (Counters d) (NetworkInfo d) (AdminInfo d) (NormalizedCounters d)
    (Errors d) (MissingSections d) (Timestamp d) t (ProbeAttempts d).

(** [len(m) == 0] for a map. *)
Definition is_empty {A} (m : gmap string A) : bool :=
  match map_to_list m with [] => true | _ => false end.

(** [_, ok := m[k]]. *)
Definition has_key {A} (m : gmap string A) (k : string) : bool :=
  match m !! k with Some _ => true | None => false end.

(** [toInt64]. *)
Definition toInt64 (val : Any) : Z :=
  match val with
  | Scal SNil => 0
  | Scal (SInt64 v) => v
  | Scal (SFloat64 v) => v
  | Scal (SInt v) => v
  | Scal (SString str) =>
      match Go.ParseInt str with
      | Some v => v
      | None => 0
      end
  | _ => 0
  end.

(** [getPageCountFromStatus]. *)
Definition getPageCountFromStatus (status : Bucket) : Z :=
  match status !! "page_count" with
  | Some pageCount => toInt64 pageCount
  | None => 0
  end.

Definition suspiciousValues : list Z :=
  [ 2147483647;  (* INT32_MAX *)
    4294967295;  (* UINT32_MAX *)
    9223372036;
    268435456;   (* 2^28 *)
    536870912;   (* 2^29 *)
    1073741824;  (* 2^30 *)
    2097151;     (* 2^21-1 *)
    4194303;     (* 2^22-1 *)
    8388607;     (* 2^23-1 *)
    16777215;    (* 2^24-1 *)
    33554431;    (* 2^25-1 *)
    27327487;
    18935871;
    2002943 ].

(** [isSuspiciousValue]. *)
Definition isSuspiciousValue (val : Z) : bool :=
  if existsb (Z.eqb val) suspiciousValues then true
  else if (1000 <? val) && (Z.land val (val - 1) =? 0) then true
  else false.

(* ------------------------------------------------------------------- *)
(** *** collectStatus *)

Definition statusOIDs : list string :=
  [ "1.3.6.1.2.1.25.3.2.1.5.1";
    "1.3.6.1.2.1.43.13.4.1.7.1.1";
    "1.3.6.1.2.1.43.8.2.1.13.1.1";
    "1.3.6.1.2.1.1.3.0" ].

(** [formatUptime]. *)
Definition formatUptime (seconds : Z) : string :=
  if seconds <=? 0 then EmptyString
  else
    let days := Z.quot seconds 86400 in
    let hours := Z.quot (Z.rem seconds 86400) 3600 in
    let minutes := Z.quot (Z.rem seconds 3600) 60 in
    if 0 <? days then
      Go.itoa days ++ "d " ++ Go.itoa hours ++ "h " ++ Go.itoa minutes ++ "m"
    else if 0 <? hours then
      Go.itoa hours ++ "h " ++ Go.itoa minutes ++ "m"
    else Go.itoa minutes ++ "m".

(** The body of the loop over the answers of the status GET. *)
Definition statusEntry (status : Bucket) (entry : string * string) : Bucket :=
  let '(oid, val) := entry in
  let valStr := Go.TrimSpace val in
  if String.eqb valStr EmptyString || String.eqb valStr "0" then status
  else if String.eqb oid "1.3.6.1.2.1.25.3.2.1.5.1" then
    let state :=
      if String.eqb valStr "1" then "idle"
      else if String.eqb valStr "2" then "offline"
      else if String.eqb valStr "3" then "testing"
      else "unknown" in
    <["device_status" := VString valStr]> (<["state" := VString state]> status)
  else if String.eqb oid "1.3.6.1.2.1.43.13.4.1.7.1.1" then
    <["printer_status" := VString valStr]> status
  else if String.eqb oid "1.3.6.1.2.1.43.8.2.1.13.1.1" then
    <["error_status" := VString valStr]> status
  else if String.eqb oid "1.3.6.1.2.1.1.3.0" then
    match Go.ParseInt valStr with
    | Some uptimeCentiseconds =>
        let uptimeSeconds := Z.quot uptimeCentiseconds 100 in
        <["system_uptime" := VString (formatUptime uptimeSeconds)]>
          (<["system_uptime_seconds" := VInt uptimeSeconds]> status)
    | None => status
    end
  else status.

Definition collectStatus (data : PrinterData) (client : SNMPClient) : PrinterData :=
  match GetMultiple client statusOIDs with
  | Err _ => data
  | Ok results =>
      let status := foldl statusEntry (Status data) (range results) in
      if has_key status "state" then with_Status data status
      else with_Status data (<["state" := VString "unknown"]> status)
  end.

(* ------------------------------------------------------------------- *)
(** *** collectCounters and its three mappings *)

Definition counterLimit : Z := 3000000000.

(** The body of the loop over the WALK results: the two maps it fills
    are [allCounters] and [data.Counters]. *)
Definition walkEntry (acc : gmap string Z * Bucket) (res : WalkResult)
  : gmap string Z * Bucket :=
  let '(allCounters, counters) := acc in
  if String.eqb (Value res) EmptyString then acc
  else
    let valStr := Go.TrimSpace (Value res) in
    if String.eqb valStr EmptyString then acc
    else
      match Go.ParseInt valStr with
      | Some parsed =>
          if (0 <? parsed) && (parsed <=? counterLimit) then
            let normalizedOID := Go.TrimPrefix (OID res) "." in
            (<[normalizedOID := parsed]> allCounters,
             <[normalizedOID := VInt64 parsed]> counters)
          else acc
      | None => acc
      end.

(** The running maximum and second maximum of [mapCountersFromWalk]. *)
Definition maxEntry (acc : Z * string * Z * string) (entry : string * Z)
  : Z * string * Z * string :=
  let '(maxVal, maxOID, secondMaxVal, secondMaxOID) := acc in
  let '(oid, val) := entry in
  if maxVal <? val then (val, oid, maxVal, maxOID)
  else if (secondMaxVal <? val) && negb (val =? maxVal)
  then (maxVal, maxOID, val, oid)
  else acc.

Definition mapCountersFromWalk (data : PrinterData) (allCounters : gmap string Z)
  : PrinterData :=
  let '(maxVal, _, secondMaxVal, _) :=
    foldl maxEntry (0, EmptyString, 0, EmptyString) (range allCounters) in
  let nc0 := NormalizedCounters data in
  let nc1 := if 0 <? maxVal then <["total_pages" := VInt64 maxVal]> nc0 else nc0 in
  let nc2 :=
    if (0 <? secondMaxVal) && negb (secondMaxVal =? maxVal)
    then <["color_pages" := VInt64 secondMaxVal]> nc1 else nc1 in
  let nc3 :=
    foldl (fun (nc : Bucket) (entry : string * Z) =>
             let '(oid, val) := entry in
             if (val =? maxVal) || (val =? secondMaxVal) then nc
             else if (0 <? val) && (val <? 10000) then
               <["counter_" ++ Go.ReplaceAll oid "."%char "_" := VInt64 val]> nc
             else nc)
          nc2 (range allCounters) in
  with_NormalizedCounters data nc3.

(** The exchange sort both vendor mappings use to order the values they
    kept, largest first. *)
Section SortDescending.
Context {A : Type} (value : A -> Z).

Definition exchange (a : list A) (i j : nat) : list A :=
  match a !! i, a !! j with
  | Some x, Some y =>
      if value x <? value y then <[j := x]> (<[i := y]> a) else a
  | _, _ => a
  end.

Fixpoint innerLoop (fuel i j : nat) (a : list A) : list A :=
  match fuel with
  | O => a
  | S fuel' =>
      if (j <? length a)%nat then innerLoop fuel' i (S j) (exchange a i j)
      else a
  end.

Fixpoint outerLoop (fuel i : nat) (a : list A) : list A :=
  match fuel with
  | O => a
  | S fuel' =>
      if (i <? length a)%nat
      then outerLoop fuel' (S i) (innerLoop (length a) i (S i) a)
      else a
  end.

Definition sortDescending (a : list A) : list A := outerLoop (length a) 0 a.
End SortDescending.

Definition counterNames : list string :=
  ["total_pages"; "mono_pages"; "color_pages"; "scan_pages"; "copy_pages"; "fax_pages"].

Record counterValue : Type := mkCounterValue {
  idx : nat;
  name : string;
  value : Z;
  oid : string
}.

(** [collectCountersFromProfile]; [vendorOIDs] is [prof.OIDs["counters"]]. *)
Definition collectCountersFromProfile (data : PrinterData) (client : SNMPClient)
    (prof : Profile.Profile) : PrinterData :=
  let vendorOIDs := default [] (Profile.OIDs prof !! "counters") in
  match vendorOIDs with
  | [] => data
  | _ =>
      match GetMultiple client vendorOIDs with
      | Err _ => data
      | Ok results =>
          let allValues :=
            omap (fun '(i, oid) =>
                    match results !! oid with
                    | None => None
                    | Some val =>
                        let valStr := Go.TrimSpace val in
                        match Go.ParseInt valStr with
                        | Some intVal =>
                            if (0 <? intVal) && (intVal <=? counterLimit) then
                              if isSuspiciousValue intVal then None
                              else Some (mkCounterValue i EmptyString intVal oid)
                            else None
                        | None => None
                        end
                    end)
                 (imap (fun i oid => (i, oid)) vendorOIDs) in
          let sorted := sortDescending value allValues in
          with_NormalizedCounters data
            (foldl (fun (nc : Bucket) '(cname, cv) => <[cname := VInt64 (value cv)]> nc)
                   (NormalizedCounters data) (zip counterNames sorted))
      end
  end.

Definition vendorOIDsOf (brand : string) : list string :=
  if String.eqb brand "Samsung" then
    [ "1.3.6.1.4.1.236.11.5.1.1.1.1";
      "1.3.6.1.4.1.236.11.5.1.1.1.4";
      "1.3.6.1.4.1.236.11.5.1.1.1.26";
      "1.3.6.1.4.1.236.11.5.1.1.1.30" ]
  else if String.eqb brand "HP" then
    [ "1.3.6.1.4.1.11.2.3.9.4.2.1.4.1.1";
      "1.3.6.1.4.1.11.2.3.9.4.2.1.4.1.2";
      "1.3.6.1.4.1.11.2.3.9.4.2.1.4.1.3" ]
  else if String.eqb brand "Xerox" then
    [ "1.3.6.1.4.1.253.8.53.3.2.1.1.1";
      "1.3.6.1.4.1.253.8.53.3.2.1.2.1";
      "1.3.6.1.4.1.253.8.53.3.2.1.3.1";
      "1.3.6.1.4.1.253.8.53.3.2.1.4.1";
      "1.3.6.1.4.1.253.8.53.3.2.1.5.1";
      "1.3.6.1.4.1.253.8.53.3.2.1.6.1" ]
  else [].

(** [collectCountersVendorSpecific]. *)
Definition collectCountersVendorSpecific (data : PrinterData) (client : SNMPClient)
  : PrinterData :=
  let vendorOIDs := vendorOIDsOf (Brand data) in
  match vendorOIDs with
  | [] => data
  | _ =>
      match GetMultiple client vendorOIDs with
      | Err _ => data
      | Ok results =>
          let validValues :=
            omap (fun '(i, (cname, oid)) =>
                    match results !! oid with
                    | None => None
                    | Some val =>
                        let valStr := Go.TrimSpace val in
                        if String.eqb valStr EmptyString || String.eqb valStr "0"
                        then None
                        else
                          match Go.ParseInt valStr with
                          | Some intVal =>
                              if 0 <? intVal then
                                if counterLimit <? intVal then None
                                else Some (mkCounterValue i cname intVal oid)
                              else None
                          | None => None
                          end
                    end)
                 (imap (fun i entry => (i, entry)) (zip counterNames vendorOIDs)) in
          let sorted := sortDescending value validValues in
          with_NormalizedCounters data
            (foldl (fun (nc : Bucket) '(i, cv) =>
                      match i with
                      | O => <["total_pages" := VInt64 (value cv)]> nc
                      | S O => <["color_pages" := VInt64 (value cv)]> nc
                      | _ => <[name cv := VInt64 (value cv)]> nc
                      end)
                   (NormalizedCounters data)
                   (imap (fun i cv => (i, cv)) sorted))
      end
  end.

(** The final step of [collectCounters]: [page_count] of the status
    section replaces a missing, nil or suspicious [total_pages]. *)
Definition pageCountFallback (data : PrinterData) : PrinterData :=
  let pageCount := getPageCountFromStatus (Status data) in
  let use :=
    match NormalizedCounters data !! "total_pages" with
    | None => true
    | Some totalPages =>
        match totalPages with
        | Scal SNil => true
        | _ => isSuspiciousValue (toInt64 totalPages)
        end
    end in
  if use && (0 <? pageCount)
  then with_NormalizedCounters data
         (<["total_pages" := VInt64 pageCount]> (NormalizedCounters data))
  else data.

(** [data.NormalizedCounters["total_pages"] == nil]. *)
Definition total_is_nil (nc : Bucket) : bool :=
  match nc !! "total_pages" with
  | None | Some (Scal SNil) => true
  | Some _ => false
  end.

(** The WALK [collectCounters] starts with: the counter subtree, and its
    parent when the first WALK fails or returns nothing. *)
Definition walkCounters (client : SNMPClient) : list WalkResult :=
  match Walk client "1.3.6.1.2.1.43.10.2" with
  | Ok (r :: rs) => r :: rs
  | _ =>
      match Walk client "1.3.6.1.2.1.43.10" with
      | Ok rs => rs
      | Err _ => []
      end
  end.

(** [collectCounters] up to its final fallback: the WALK, the mapping by
    profile or by value, and the vendor-specific GET. *)
Definition mapCounters (data : PrinterData) (client : SNMPClient)
    (prof : option Profile.Profile) : PrinterData :=
  let results := walkCounters client in
  let '(allCounters, counters) := foldl walkEntry (∅, Counters data) results in
  let data1 := with_Counters data counters in
  let use_profile :=
    match prof with
    | Some p =>
        match default [] (Profile.OIDs p !! "counters") with
        | [] => None
        | _ => Some p
        end
    | None => None
    end in
  let data2 :=
    match use_profile with
    | Some p => collectCountersFromProfile data1 client p
    | None => mapCountersFromWalk data1 allCounters
    end in
  if is_empty (NormalizedCounters data2) || total_is_nil (NormalizedCounters data2)
  then collectCountersVendorSpecific data2 client
  else data2.

Definition collectCounters (data : PrinterData) (client : SNMPClient)
    (prof : option Profile.Profile) : PrinterData :=
  let data3 := mapCounters data client prof in
  let data4 := pageCountFallback data3 in
  if is_empty (Counters data4)
  then with_MissingSections data4 (MissingSections data4 ++ ["counters"])%list
  else data4.

(* ------------------------------------------------------------------- *)
(** *** The steps after collectCounters *)

Section Printing.

(** [fmt.Sprintf("%v", v)] for the values whose rendering is not fixed
    by the model: floats, maps and values of other types. *)
Variable printOther : Any -> string.

Definition Sprint (val : Any) : string :=
  match val with
  | Scal (SString s) => s
  | Scal (SInt n) | Scal (SInt64 n) => Go.itoa n
  | Scal SNil => "<nil>"
  | _ => printOther val
  end.

Definition oidsToWalk : list (string * string) :=
  [ ("counters", "1.3.6.1.2.1.43.10");
    ("supplies", "1.3.6.1.2.1.43.11");
    ("status", "1.3.6.1.2.1.43.13") ].

(** The body of the inner loop of [discoverAdditionalData]. *)
Definition discoverEntry (groupName : string) (data : PrinterData)
    (res : WalkResult) : PrinterData :=
  if String.eqb (Value res) EmptyString || String.eqb (Value res) "0"
     || Go.HasPrefix (Value res) "-"
  then data
  else
    let oidTrimmed := Go.TrimPrefix (OID res) "." in
    let key := groupName ++ "_" ++ Go.ReplaceAll oidTrimmed "."%char "_" in
    let inID := has_key (Identification data) key in
    let inStatus := has_key (Status data) key in
    let inCounters := has_key (Counters data) key in
    let inSupplies := has_key (Supplies data) key in
    if negb inID && negb inStatus && negb inCounters && negb inSupplies then
      if Go.Contains key "counter" || Go.Contains key "page" then
        with_Counters data (<[key := VString (Value res)]> (Counters data))
      else if Go.Contains key "status" then
        with_Status data (<[key := VString (Value res)]> (Status data))
      else if Go.Contains key "supply" || Go.Contains key "consumable"
              || Go.Contains key "toner" then
        with_Supplies data (<[key := VString (Value res)]> (Supplies data))
      else
        with_Identification data
          (<[key := VString (Value res)]> (Identification data))
    else data.

Definition discoverAdditionalData (data : PrinterData) (client : SNMPClient)
  : PrinterData :=
  foldl (fun data '(groupName, basOID) =>
           match Walk client basOID with
           | Err _ => data
           | Ok results => foldl (discoverEntry groupName) data results
           end)
        data oidsToWalk.

Definition xeroxPageCounterOIDs : list (string * string) :=
  [ ("xeroxSupplies_1_3_6_1_4_1_253_8_53_13_2_1_2_1_20_29", "colorPages");
    ("xeroxSupplies_1_3_6_1_4_1_253_8_53_13_2_1_2_1_20_7", "monochromedPages");
    ("xeroxSupplies_1_3_6_1_4_1_253_8_53_13_2_1_2_1_20_1", "totalPages") ].

Definition samsungPageCounterOIDs : list (string * string) :=
  [ ("samsungSupplies_1_3_6_1_4_1_236_11_5_11_26_1_1_2_0", "totalPages");
    ("samsungSupplies_1_3_6_1_4_1_236_11_5_11_26_1_1_3_0", "colorPages") ].

(** The body of the two loops of [extractPageCountersFromSupplies]. *)
Definition promoteEntry (data : PrinterData) (entry : string * string)
  : PrinterData :=
  let '(oid, counterName) := entry in
  match Supplies data !! oid with
  | Some val =>
      let valStr := Sprint val in
      if negb (Go.HasPrefix valStr "-") && negb (String.eqb valStr "0")
      then with_Counters data (<[counterName := VString valStr]> (Counters data))
      else data
  | None => data
  end.

Definition extractPageCountersFromSupplies (data : PrinterData) : PrinterData :=
  foldl promoteEntry (foldl promoteEntry data xeroxPageCounterOIDs)
        samsungPageCounterOIDs.

(** The display names of [normalizeCounters]. *)
Definition displayNames : list (string * string) :=
  [ ("totalPages", "Páginas Totales");
    ("colorPages", "Páginas a Color");
    ("monochromedPages", "Páginas Monocromáticas");
    ("printedPages", "Páginas Impresas");
    ("copiedPages", "Páginas Copiadas");
    ("scannedPages", "Páginas Escaneadas");
    ("faxedPages", "Páginas Faxeadas") ].

Definition displayNameOf (key : string) : option string :=
  snd <$> List.find (fun entry => String.eqb (fst entry) key) displayNames.

(** [parseCounter]. *)
Definition parseCounter (val : string) : Z :=
  match Go.Sscanf_d (Go.TrimSpace val) with
  | Some num => if 0 <=? num then num else -1
  | None => -1
  end.

(** [normalizeCounters]. *)
Definition normalizeCounters (counters : Bucket) : Bucket :=
  foldl (fun (normalized : Bucket) '(key, val) =>
           let valStr := Sprint val in
           if Go.HasPrefix valStr "-" || String.eqb valStr "0" then normalized
           else
             match displayNameOf key with
             | Some displayName =>
                 let count := parseCounter valStr in
                 if 0 <=? count
                 then <[displayName := VInt64 count]> normalized
                 else normalized
             | None => normalized
             end)
        ∅ (range counters).

(** [normalizeData], for the counters; the readable rendering of the
    supplies it also computes is not part of the event. *)
Definition normalizeData (data : PrinterData) : PrinterData :=
  if is_empty (NormalizedCounters data)
  then with_NormalizedCounters data (normalizeCounters (Counters data))
  else data.

(** Steps 6 to 8 of [collectFromDevice] and its report of the empty
    sections. *)
Definition finishCollection (data : PrinterData) (client : SNMPClient)
    (elapsed : Z) : PrinterData :=
  let data := discoverAdditionalData data client in
  let data := extractPageCountersFromSupplies data in
  let data := normalizeData data in
  let data := with_ResponseTime data elapsed in
  let data :=
    if is_empty (Status data)
    then with_MissingSections data (MissingSections data ++ ["status"])%list
    else data in
  let data :=
    if is_empty (Supplies data)
    then with_MissingSections data (MissingSections data ++ ["supplies"])%list
    else data in
  if is_empty (Counters data)
  then with_MissingSections data (MissingSections data ++ ["counters"])%list
  else data.

(** [collectFromDevice].  The profile the manager hands over, and what
    the identification, network and supplies steps collect, are
    arguments: those steps write to their own buckets, to the errors and,
    the identification step, to the missing sections, where it puts its
    own name when it finds nothing.  [errors] and [missing] are what they
    leave in these two lists; [now] and [elapsed] are the two clock
    readings. *)
Definition collectFromDevice (client : SNMPClient) (devInfo : DeviceInfo)
    (prof : option Profile.Profile) (now elapsed : Z)
    (identification networkInfo consumibles : Bucket)
    (errors missing : list string)
  : PrinterData :=
  let data :=
    {| IP := devIP devInfo;
       Brand := devBrand devInfo;
       Confidence := devBrandConfidence devInfo;
       Identification := identification;
       Status := ∅;
       Supplies := ∅;
       Counters := ∅;
       NetworkInfo := networkInfo;
       AdminInfo := ∅;
       NormalizedCounters := ∅;
       Errors := errors;
       MissingSections := missing;
       Timestamp := now;
       ResponseTime := 0;
       ProbeAttempts := 1 |} in
  let data := collectStatus data client in
  let data :=
    with_Supplies data
      (foldl (fun (s : Bucket) '(k, v) => <[k := v]> s) (Supplies data)
             (range consumibles)) in
  let data := collectCounters data client prof in
  finishCollection data client elapsed.

End Printing.

End Collector.

(* ===================================================================== *)
(** ** pkg/telemetry: the event builder                                  *)
(* ===================================================================== *)

Module Telemetry.
Import Dyn.

Local Open Scope string_scope.
Local Open Scope Z_scope.

(** [SupplyInfo]. *)
Record SupplyInfo : Type := mkSupplyInfo {
  ID : string;
  Name : string;
  Type_ : string;
  Level : Z;
  MaxLevel : Z;
  Percentage : Z;
  Status : string;
  Model : string;
  SerialNumber : string;
  Brand : string;
  OEM : string;
  Description : string;
  ComponentType : string;
  PageCapacity : Z;
  PartNumber : string
}.

(** [extractCounter]. *)
Fixpoint extractCounter (counters : Bucket) (keys : list string) : Z :=
  match keys with
  | [] => 0
  | key :: rest =>
      match counters !! key with
      | Some (Scal (SInt intVal)) => intVal
      | Some (Scal (SInt64 int64Val)) => int64Val
      | Some (Scal (SFloat64 floatVal)) => floatVal
      | Some (Scal (SString strVal)) =>
          match Go.Atoi (Go.TrimSpace strVal) with
          | Some intVal => intVal
          | None => extractCounter counters rest
          end
      | _ => extractCounter counters rest
      end
  end.

(** [buildCounters]; [None] is the nil snapshot. *)
Definition buildCounters (data : Collector.PrinterData)
    (delta : option State.CountersDiff) (resetDetected : bool)
  : option State.CountersSnapshot :=
  let countersToUse :=
    if Collector.is_empty (Collector.NormalizedCounters data)
    then Collector.Counters data
    else Collector.NormalizedCounters data in
  if Collector.is_empty countersToUse then None
  else
    let absolute :=
      {| State.TotalPages := extractCounter countersToUse ["total_pages"];
         State.MonoPages := extractCounter countersToUse ["mono_pages"];
         State.ColorPages := extractCounter countersToUse ["color_pages"];
         State.ScanPages := extractCounter countersToUse ["scan_pages"];
         State.CopyPages := extractCounter countersToUse ["copy_pages"];
         State.FaxPages := extractCounter countersToUse ["fax_pages"] |} in
    Some {| State.Absolute := absolute;
            State.Delta := delta;
            State.ResetDetected := resetDetected |}.

(** [extractFieldAsString]. *)
Fixpoint extractFieldAsString (supply : Any) (keys : list string) : string :=
  match supply with
  | Map supplyMap =>
      match keys with
      | [] => EmptyString
      | key :: rest =>
          match supplyMap !! key with
          | Some (SString val) =>
              if String.eqb val EmptyString then extractFieldAsString supply rest
              else val
          | _ => extractFieldAsString supply rest
          end
      end
  | _ => EmptyString
  end.

(** [deduceSupplyStatus]. *)
Definition deduceSupplyStatus (percentage : Z) : string :=
  if percentage <=? 10 then "critical"
  else if percentage <=? 25 then "low"
  else if percentage <=? 75 then "ok"
  else "good".

(** The keyword table of [deduceSupplyType].  The source ranges over a
    map, whose order Go leaves open; the model tries the keywords in the
    order the source lists them, which decides the type of a name that
    holds two keywords and nothing else.  Names are lowered and raised
    letter by letter, as [strings.ToLower] and [strings.ToUpper] do for
    names of ASCII bytes. *)
Definition typeMap : list (string * string) :=
  [ ("toner", "toner"); ("drum", "drum"); ("cilindro", "drum");
    ("fuser", "fuser"); ("fusor", "fuser"); ("roller", "roller");
    ("rodillo", "roller"); ("cartridge", "cartridge");
    ("cartucho", "cartridge"); ("waste", "waste"); ("residuo", "waste");
    ("transfer", "transfer"); ("transferencia", "transfer");
    ("pickup", "pickup"); ("retirada", "pickup") ].

Definition deduceSupplyType (name : string) : string :=
  let lowerName := Go.ToLower name in
  match List.find (fun entry => Go.Contains lowerName (fst entry)) typeMap with
  | Some (_, supplyType) => supplyType
  | None => "consumable"
  end.

(** [normalizeToID]. *)
Definition normalizeToID (name : string) : string :=
  Go.ToLower (Go.ReplaceAll name " "%char "_").

(** [name[:idx]] at the first occurrence of [sep] in the upper-cased
    name, then [TrimSpace]; the name itself when [sep] does not occur. *)
Definition cutAtUpper (name sep : string) : string :=
  match Go.Index (Go.ToUpper name) sep with
  | Some idx => Go.TrimSpace (Go.keep idx name)
  | None => name
  end.

(** The loop of [cleanSupplyName] over its separators: cut at the first
    separator that occurs and stop. *)
Fixpoint cutAtFirstSeparator (name : string) (seps : list string) : string :=
  match seps with
  | [] => name
  | sep :: rest =>
      match Go.Index (Go.ToLower name) (Go.ToLower sep) with
      | Some idx => Go.TrimSpace (Go.keep idx name)
      | None => cutAtFirstSeparator name rest
      end
  end.

Definition nameSeparators : list string :=
  ["Serial"; "Part Number"; "PN "; "PN:"; "PN="; "P/N:"; "P/N "; "Model:"; "Version:"].

(** [cleanSupplyName]. *)
Definition cleanSupplyName (name : string) : string :=
  let name := Go.TrimSpace name in
  if String.eqb name EmptyString then EmptyString
  else
    let name := cutAtUpper name ";SN" in
    let name := cutAtUpper name "S/N:" in
    let name := cutAtFirstSeparator name nameSeparators in
    let name := Go.TrimSuffix (Go.TrimSpace name) "," in
    let name := Go.TrimSpace name in
    let name := Go.Join (Go.Fields name) " " in
    if Go.len name <? 3 then EmptyString else name.

(** [extractSerialFromDescription]. *)
Fixpoint serialByPattern (desc descUpper : string) (patterns : list string)
  : string :=
  match patterns with
  | [] => EmptyString
  | pattern :: rest =>
      match Go.Index descUpper (Go.ToUpper pattern) with
      | Some idx =>
          let serial := Go.TrimSpace (Go.skip (idx + String.length pattern) desc) in
          if negb (String.eqb serial EmptyString) && (2 <? Go.len serial)
          then serial
          else serialByPattern desc descUpper rest
      | None => serialByPattern desc descUpper rest
      end
  end.

Definition extractSerialFromDescription (desc : string) : string :=
  let descUpper := Go.ToUpper desc in
  let viaXerox :=
    match Go.Index descUpper ";SN" with
    | Some idx =>
        let serial := Go.TrimSpace (Go.skip (idx + 3) desc) in
        let serial := Go.TrimSpace (Go.TrimSuffix serial "unknown") in
        if negb (String.eqb serial EmptyString) && (2 <? Go.len serial)
        then Some serial else None
    | None => None
    end in
  match viaXerox with
  | Some serial => serial
  | None => serialByPattern desc descUpper ["S/N:"; "SN:"; "Serial:"; "serial:"]
  end.

(** [extractPartNumberFromDescription]. *)
Fixpoint cutAtFirstDelimiter (partNum : string) (delims : list string) : string :=
  match delims with
  | [] => partNum
  | delim :: rest =>
      match Go.Index (Go.ToUpper partNum) (Go.ToUpper delim) with
      | Some delimIdx => Go.keep delimIdx partNum
      | None => cutAtFirstDelimiter partNum rest
      end
  end.

Fixpoint partNumberByPattern (desc descUpper : string) (patterns : list string)
  : string :=
  match patterns with
  | [] => EmptyString
  | pattern :: rest =>
      match Go.Index descUpper (Go.ToUpper pattern) with
      | Some idx =>
          let partNum := Go.TrimSpace (Go.skip (idx + String.length pattern) desc) in
          let partNum :=
            cutAtFirstDelimiter partNum [";"; ","; " S/N"; " SN:"; "Serial"] in
          let partNum := Go.TrimSpace partNum in
          if negb (String.eqb partNum EmptyString) && (2 <? Go.len partNum)
             && negb (String.eqb partNum "unknown")
          then partNum
          else partNumberByPattern desc descUpper rest
      | None => partNumberByPattern desc descUpper rest
      end
  end.

Definition extractPartNumberFromDescription (desc : string) : string :=
  partNumberByPattern desc (Go.ToUpper desc)
    ["PN "; "PN:"; "P/N:"; "P/N "; "PartNumber:"; "Part Number:"].

Section Builder.

(** [fmt.Sscanf(s, "%f", &f)] followed by [int(f)]: the second attempt
    of [extractFieldAsInt] on a string; [None] when the scan fails. *)
Variable scanFloat : string -> option Z.

(** [extractFieldAsInt]. *)
Fixpoint extractFieldAsInt (supply : Any) (keys : list string) : Z :=
  match supply with
  | Map supplyMap =>
      match keys with
      | [] => 0
      | key :: rest =>
          match supplyMap !! key with
          | Some (SInt intVal) => intVal
          | Some (SInt64 int64Val) => int64Val
          | Some (SFloat64 floatVal) => floatVal
          | Some (SString strVal) =>
              if String.eqb strVal EmptyString then extractFieldAsInt supply rest
              else
                match Go.Sscanf_d strVal with
                | Some intResult => intResult
                | None =>
                    match scanFloat strVal with
                    | Some floatResult => floatResult
                    | None => extractFieldAsInt supply rest
                    end
                end
          | _ => extractFieldAsInt supply rest
          end
      end
  | _ => 0
  end.

(** Step 5 of the loop of [buildSupplies]: the percentage field when it
    is not zero, else [level*100/maxLevel] in [int64] when both are
    positive. *)
Definition calculatePercentage (percentage level maxLevel : Z) : Z :=
  if (percentage =? 0) && (0 <? maxLevel) && (0 <? level)
  then Z.quot (Go.wrap64 (level * 100)) maxLevel
  else percentage.

(** The body of the loop of [buildSupplies]: [None] when the entry is
    skipped. *)
Definition buildSupply (supply : Any) : option SupplyInfo :=
  let name := extractFieldAsString supply ["name"; "description"] in
  let level := extractFieldAsInt supply ["level"; "current"] in
  let maxLevel := extractFieldAsInt supply ["maxLevel"; "max"] in
  let percentage := extractFieldAsInt supply ["percentage"; "percent"] in
  if String.eqb name EmptyString || String.eqb name "unknown" then None
  else
    let name := Go.TrimSpace name in
    if String.eqb name EmptyString then None
    else
      let useless :=
        if (level =? 0) && (maxLevel =? 0) && (percentage =? 0) then
          let lowerName := Go.ToLower name in
          let hasInfo :=
            Go.Contains lowerName "s/n:" || Go.Contains lowerName "serial"
            || Go.Contains lowerName "part" || Go.Contains lowerName "model"
            || Go.Contains lowerName "firmware"
            || Go.Contains lowerName "version" || (50 <? Go.len name) in
          negb hasInfo
        else false in
      if useless then None
      else
        let cleanName := cleanSupplyName name in
        if String.eqb cleanName EmptyString then None
        else
          let calculatedPercentage :=
            calculatePercentage percentage level maxLevel in
          let model :=
            extractFieldAsString supply ["model"; "partnumber"; "part_number"] in
          let serialNumber :=
            extractFieldAsString supply ["serial_number"; "serial"; "sn"] in
          let description := extractFieldAsString supply ["description"; "desc"] in
          let componentType :=
            extractFieldAsString supply ["component_type"; "type_code"] in
          let oem := extractFieldAsString supply ["oem"; "brand"; "manufacturer"] in
          let pageCapacity :=
            extractFieldAsInt supply ["page_capacity"; "pages"; "capacity"] in
          let serialNumber :=
            if String.eqb serialNumber EmptyString
               && negb (String.eqb description EmptyString)
            then extractSerialFromDescription description else serialNumber in
          let model :=
            if String.eqb model EmptyString
               && negb (String.eqb description EmptyString)
            then extractPartNumberFromDescription description else model in
          Some {| ID := normalizeToID cleanName;
                  Name := cleanName;
                  Type_ := deduceSupplyType cleanName;
                  Level := level;
                  MaxLevel := maxLevel;
                  Percentage := calculatedPercentage;
                  Status := deduceSupplyStatus calculatedPercentage;
                  Model := model;
                  SerialNumber := serialNumber;
                  Brand := oem;
                  OEM := EmptyString;
                  Description := description;
                  ComponentType := componentType;
                  PageCapacity := pageCapacity;
                  PartNumber := EmptyString |}.

(** [buildSupplies]; [None] is the nil slice. *)
Definition buildSupplies (data : Collector.PrinterData)
  : option (list SupplyInfo) :=
  if Collector.is_empty (Collector.Supplies data) then None
  else
    match omap (fun entry => buildSupply (snd entry))
               (range (Collector.Supplies data)) with
    | [] => None
    | supplies => Some supplies
    end.

End Builder.

End Telemetry.

(* ===================================================================== *)
(** ** Concrete inputs                                                   *)
(* ===================================================================== *)

Module Examples.
Import Dyn.

Local Open Scope string_scope.
Local Open Scope Z_scope.

(** A state store holding one earlier poll of 10.0.0.5. *)
Definition storedCounters : State.CountersInfo :=
  State.mkCountersInfo 12000 9000 3000 40 30 0.

Definition laterCounters : State.CountersInfo :=
  State.mkCountersInfo 12500 9400 3100 40 30 0.

(** A store on which the state of 10.0.0.9 cannot be written: the disk
    fills up and the file is left truncated. *)
Definition fullDisk : State.StateManager :=
  State.mkStateManager "state"
    {[ "state/printer_10.0.0.9.json" :=
         State.Saved (State.mkPrinterState 1700000000 storedCounters) ]}
    (fun path =>
       if String.eqb path "state/printer_10.0.0.9.json"
       then State.WriteRefused (Some State.Malformed)
       else State.Written).

(** A stand-in for the case tables of [unicode] that knows one rune
    outside ASCII, the Kelvin sign U+212A (the bytes E2 84 AA), which
    becomes k; the ASCII letters are lowered and every other byte is
    kept. *)
Fixpoint kelvinTables (s : string) : string :=
  match s with
  | EmptyString => EmptyString
  | String c1 s1 =>
      match s1 with
      | String c2 (String c3 s3) =>
          if (Go.byteval c1 =? 0xE2) && (Go.byteval c2 =? 0x84)
             && (Go.byteval c3 =? 0xAA)
          then String "k" (kelvinTables s3)
          else String (Go.lower_char c1) (kelvinTables s1)
      | _ => String (Go.lower_char c1) (kelvinTables s1)
      end
  end.

(** A no-break space, U+00A0, in UTF-8. *)
Definition nbsp : string :=
  String (Go.char 0xC2) (String (Go.char 0xA0) EmptyString).

(** A device whose one counter is padded with a no-break space, and
    whose status is padded with one and with blanks. *)
Definition paddingClient : Collector.SNMPClient :=
  Collector.mkSNMPClient
    (fun base =>
       if String.eqb base "1.3.6.1.2.1.43.10.2"
       then Ok [ Collector.mkWalkResult ".1.3.6.1.2.1.43.10.2.1.4.1.1"
                   (String.append nbsp "12345678") ]
       else Err Collector.SNMPFailed)
    (fun _ => Ok {[ "1.3.6.1.2.1.25.3.2.1.5.1" :=
                      String.append nbsp (String.append "1" "  ") ]}).

(** A descriptor that spells Kyocera with the Kelvin sign, and one of a
    Sharp device that ends in O, the Kelvin sign and I. *)
Definition kelvinKyocera : string :=
  String (Go.char 0xE2) (String (Go.char 0x84) (String (Go.char 0xAA) "YOCERA")).

Definition kelvinSharp : string :=
  String.append "Sharp MX-2640N O"
    (String (Go.char 0xE2) (String (Go.char 0x84) (String (Go.char 0xAA) "I"))).

Definition stateStore : State.StateManager :=
  State.mkStateManager "state"
    {[ "state/printer_10.0.0.5.json" :=
         State.Saved (State.mkPrinterState 1700000000 storedCounters) ]}
    (fun _ => State.Written).

(** The total went up, the mono counter went down. *)
Definition monoWentDown : State.CountersInfo :=
  State.mkCountersInfo 12345 100 3000 40 30 0.

Definition allWentUp : State.CountersInfo :=
  State.mkCountersInfo 12345 9300 3045 40 30 0.

(** An IPv6 grammar that accepts nothing: the inputs below have no
    colon. *)
Definition noIPv6 : string -> option Scanner.IP := fun _ => None.

(** A sink with the default three retries and one second of initial
    wait, and a server that answers 400 to every request. *)
Definition defaultSink : Sink.HTTPSink :=
  Sink.NewHTTPSink (Sink.mkHTTPSinkConfig "https://cloud.example.com/api" EmptyString 0 0 0).

Definition alwaysBadRequest : Sink.World :=
  Sink.mkWorld (fun _ => Sink.Status 400) (fun _ => false).

Definition oneByte : list Byte.byte := [Byte.x7b].

(** The six bytes of the text SAMSUN. *)
Definition samsun : list Byte.byte :=
  [Byte.x53; Byte.x41; Byte.x4d; Byte.x53; Byte.x55; Byte.x4e].

(** Six bytes of a hardware address. *)
Definition macBytes : list Byte.byte :=
  [Byte.x30; Byte.xcd; Byte.xa7; Byte.xc7; Byte.x22; Byte.x68].

(** A profile validated four times with one error, cached by a manager
    under its printer id. *)
Definition noCapabilities : Profile.CapabilityMap :=
  Profile.mkCapabilityMap true true false false true true true true [] [].

Definition someProfile : Profile.Profile :=
  {| Profile.PrinterID := "30cda7c72268";
     Profile.IP := "10.0.0.5";
     Profile.Brand := "Samsung";
     Profile.Model := "M332x";
     Profile.OIDs := {[ "counters" := ["1.3.6.1.2.1.43.10.2.1.4.1.1"] ]};
     Profile.CounterMappings := ∅;
     Profile.OIDMetadataOf := ∅;
     Profile.OIDFriendlyNames := ∅;
     Profile.Capabilities := noCapabilities;
     Profile.DiscoveredAt := 1700000000;
     Profile.LastValidatedAt := 1700000000;
     Profile.FirmwareVersion := "V3.00";
     Profile.SNMPVersion := "2c";
     Profile.DiscoveryAttempts := 4;
     Profile.LastError := "timeout";
     Profile.ErrorCount := 1;
     Profile.SuccessRate := (3 # 4)%Q |}.

Definition someManager : Profile.Manager :=
  {| Profile.profileDir := "profiles";
     Profile.cache := {[ "30cda7c72268" := 1%positive ]};
     Profile.heap := {[ 1%positive := someProfile ]};
     Profile.disk := ∅;
     Profile.writable := true |}.

(** A manager that holds the record but has not cached it, on a disk
    that refuses writes. *)
Definition emptyManager : Profile.Manager :=
  {| Profile.profileDir := "profiles";
     Profile.cache := ∅;
     Profile.heap := {[ 1%positive := someProfile ]};
     Profile.disk := ∅;
     Profile.writable := false |}.

(** A JSON round trip that returns the record it was given. *)
Definition exactJSON : Profile.Profile -> option Profile.Profile := Some.

(** A printer record with nothing collected yet. *)
Definition blankData : Collector.PrinterData :=
  {| Collector.IP := "10.0.0.5";
     Collector.Brand := "Samsung";
     Collector.Confidence := (96 # 100)%Q;
     Collector.Identification := ∅;
     Collector.Status := ∅;
     Collector.Supplies := ∅;
     Collector.Counters := ∅;
     Collector.NetworkInfo := ∅;
     Collector.AdminInfo := ∅;
     Collector.NormalizedCounters := ∅;
     Collector.Errors := [];
     Collector.MissingSections := [];
     Collector.Timestamp := 1700000000;
     Collector.ResponseTime := 0;
     Collector.ProbeAttempts := 1 |}.

(** A supply whose percentage field reads 150, and one given by level
    and capacity. *)
Definition overfullToner : Any :=
  Map {[ "name" := SString "Black Toner"; "percentage" := SInt 150 ]}.

Definition halfToner : Any :=
  Map {[ "description" := SString "Cyan Toner";
         "level" := SString "50"; "max" := SString "100" ]}.

Definition overfullData : Collector.PrinterData :=
  Collector.with_Supplies blankData {[ "tonerBlack" := overfullToner ]}.

Definition halfData : Collector.PrinterData :=
  Collector.with_Supplies blankData {[ "tonerCyan" := halfToner ]}.

(** A scan of a float that always fails. *)
Definition noFloat : string -> option Z := fun _ => None.

(** The entries the builder emits for the two supplies. *)
Definition overfullEntry : Telemetry.SupplyInfo :=
  Telemetry.mkSupplyInfo "black_toner" "Black Toner" "toner" 0 0 150 "good"
    EmptyString EmptyString EmptyString EmptyString EmptyString EmptyString 0
    EmptyString.

Definition halfEntry : Telemetry.SupplyInfo :=
  Telemetry.mkSupplyInfo "cyan_toner" "Cyan Toner" "toner" 50 100 50 "ok"
    EmptyString EmptyString EmptyString EmptyString "Cyan Toner" EmptyString 0
    EmptyString.

(** A Samsung device: the WALK of the counter subtree returns the
    sentinel 27327487 and two unusable values, no GET is answered. *)
Definition samsungClient : Collector.SNMPClient :=
  Collector.mkSNMPClient
    (fun base =>
       if String.eqb base "1.3.6.1.2.1.43.10.2"
       then Ok [ Collector.mkWalkResult ".1.3.6.1.2.1.43.10.2.1.4.1.1" "27327487";
                 Collector.mkWalkResult ".1.3.6.1.2.1.43.10.2.1.4.1.2" "-1";
                 Collector.mkWalkResult ".1.3.6.1.2.1.43.10.2.1.4.1.3" "4000000000" ]
       else Err Collector.SNMPFailed)
    (fun _ => Err Collector.SNMPFailed).

(** The same device with a page count of 4180 in its status section. *)
Definition samsungData : Collector.PrinterData :=
  Collector.with_Status blankData {[ "page_count" := VInt64 4180 ]}.

Definition samsungDevice : Collector.DeviceInfo :=
  Collector.mkDeviceInfo "10.0.0.5" "Samsung" (96 # 100)%Q "Samsung M332x"
    "public" "2c".

(** A rendering of values of other types. *)
Definition printQuestion : Any -> string := fun _ => "?".

(** The counters of the event built from that device when nothing but
    the WALK answers. *)
Definition samsungSnapshot : State.CountersSnapshot :=
  State.mkCountersSnapshot (State.mkCountersInfo 27327487 0 0 0 0 0) None false.

End Examples.

(* ===================================================================== *)
(** ** Predicates on counter buckets                                     *)
(* ===================================================================== *)

Module Bounds.
Import Dyn.

Local Open Scope Z_scope.

(** A WALK result whose value, trimmed, reads as the integer [v] with
    [0 < v <= 3000000000]. *)
Definition parsesAsCounter (res : Collector.WalkResult) (v : Z) : Prop :=
  Go.ParseInt (Go.TrimSpace (Collector.Value res)) = Some v
  /\ 0 < v <= Collector.counterLimit.

(** The key a WALK result is stored under. *)
Definition keyOf (res : Collector.WalkResult) : string :=
  Go.TrimPrefix (Collector.OID res) ".".

(** An [int64] within the accepted range. *)
Definition boundedValue (val : Any) : Prop :=
  exists n, val = VInt64 n /\ 0 < n <= Collector.counterLimit.

Definition allBounded (b : Bucket) : Prop :=
  forall k val, b !! k = Some val -> boundedValue val.

(** The entries under the six names an event reads are within range. *)
Definition namedBounded (b : Bucket) : Prop :=
  forall k val, In k Collector.counterNames -> b !! k = Some val -> boundedValue val.

Definition withinLimit (n : Z) : Prop := 0 <= n <= Collector.counterLimit.

End Bounds.

(* ===================================================================== *)
(** ** pkg/sink/file_sink.go: the local queue                             *)
(* ===================================================================== *)

Module FileSink.

Local Open Scope string_scope.

Record FileSink : Type := mkFileSink {
  queueDir : string
}.

(** The queue directory: the bytes of each file, and the paths at which
    [os.WriteFile] fails. *)
Record Disk : Type := mkDisk {
  files : gmap string (list Byte.byte);
  refused : string -> bool
}.

Inductive WriteError : Type :=
| EmptyData (printerID : string)      (* "empty data for printer %s" *)
| SinkError (printerID : string).     (* Sink "file", Operation "write" *)

Section Paths.

(** [filepath.Join]. *)
Variable pathJoin : string -> string -> string.

(** [fmt.Sprintf("%d_%s.json", epoch, printerID)]. *)
Definition fileName (epoch : Z) (printerID : string) : string :=
  Go.itoa epoch ++ "_" ++ printerID ++ ".json".

(** [Write]; [epoch] is [time.Now().Unix()].  What a failed write leaves
    on the disk is not modelled: the error carries no disk. *)
Definition Write (fs : FileSink) (disk : Disk) (epoch : Z)
    (data : list Byte.byte) (printerID : string) : result WriteError Disk :=
  match data with
  | [] => Err (EmptyData printerID)
  | _ =>
      let filename := fileName epoch printerID in
      let filepath := pathJoin (queueDir fs) filename in
      if refused disk filepath then Err (SinkError printerID)
      else Ok {| files := <[filepath := data]> (files disk);
                 refused := refused disk |}
  end.

End Paths.

End FileSink.

(* ===================================================================== *)
(** ** cmd/agent/main.go: the counters handed to the state store          *)
(* ===================================================================== *)

Module Agent.
Import Dyn.

Local Open Scope string_scope.
Local Open Scope Z_scope.

(** [extractCounterInt64]; a failed scan leaves [num] at zero. *)
Definition extractCounterInt64 (counters : Bucket) (key : string) : Z :=
  match counters !! key with
  | None => 0
  | Some (Scal (SInt v)) => v
  | Some (Scal (SInt64 v)) => v
  | Some (Scal (SFloat64 v)) => v
  | Some (Scal (SString v)) =>
      match Go.Sscanf_d v with
      | Some num => num
      | None => 0
      end
  | Some _ => 0
  end.

(** The [CountersInfo] the loop over the printers builds before it calls
    [CalculateDelta] and [SaveState]; [None] when both buckets are empty
    and the state store is not touched. *)
Definition currentCounters (printerData : Collector.PrinterData)
  : option State.CountersInfo :=
  if negb (Collector.is_empty (Collector.NormalizedCounters printerData))
     || negb (Collector.is_empty (Collector.Counters printerData))
  then
    let countersToUse :=
      if Collector.is_empty (Collector.NormalizedCounters printerData)
      then Collector.Counters printerData
      else Collector.NormalizedCounters printerData in
    Some {| State.TotalPages := extractCounterInt64 countersToUse "total_pages";
            State.MonoPages := extractCounterInt64 countersToUse "mono_pages";
            State.ColorPages := extractCounterInt64 countersToUse "color_pages";
            State.ScanPages := extractCounterInt64 countersToUse "scan_pages";
            State.CopyPages := extractCounterInt64 countersToUse "copy_pages";
            State.FaxPages := extractCounterInt64 countersToUse "fax_pages" |}
  else None.

(** Step 0 of the loop body: the delta against the stored state, then the
    new state.  An error of [SaveState] is logged and the loop goes on. *)
Definition trackCounters (sm : State.StateManager) (now : Z)
    (printerData : Collector.PrinterData)
  : option State.CountersDiff * bool * State.StateManager :=
  match currentCounters printerData with
  | Some cur =>
      let '(delta, resetDetected) :=
        State.CalculateDelta sm (Collector.IP printerData) cur in
      (delta, resetDetected,
       fst (State.SaveState sm now (Collector.IP printerData) cur))
  | None => (None, false, sm)
  end.

End Agent.
(* ===================================================================== *)
(** ** pkg/snmp: the batched GET of the client                            *)
(* ===================================================================== *)

Module Client.

(** What [client.Get] of gosnmp returns for one batch: an error, a nil
    result, or a packet with its variables. *)
Inductive GetReply : Type :=
| GetFailed
| NilResult
| Variables (vars : list Snmp.PDUValue).

Inductive Error : Type :=
| ConnectFailed        (* "error conectando" *)
| GetError             (* "error SNMP GET múltiple" *)
| NoResponse.          (* "sin respuesta para OIDs" *)

Definition maxOIDsPerBatch : nat := 50.

Section Device.

(** Whether [connect] succeeds, and the device's answer to a GET. *)
Variable connects : bool.
Variable get : list string -> GetReply.

(** The loop over the variables of one answer. *)
Definition storeBatch (values : gmap string string) (batchOIDs : list string)
    (vars : list Snmp.PDUValue) : gmap string string :=
  foldl (fun (values : gmap string string) '(oid, variable) =>
           <[oid := Snmp.ParseValue variable]> values)
        values (zip batchOIDs vars).

(** [for batchStart := 0; batchStart < len(oids); batchStart += 50], with
    the GETs it has sent so far; [fuel] bounds the iterations. *)
Fixpoint batchLoop (fuel : nat) (oids : list string) (batchStart : nat)
    (values : gmap string string)
  : list (list string) * result Error (gmap string string) :=
  match fuel with
  | O => ([], Ok values)
  | S fuel' =>
      if (batchStart <? length oids)%nat then
        let batchEnd :=
          if (length oids <? batchStart + maxOIDsPerBatch)%nat
          then length oids else (batchStart + maxOIDsPerBatch)%nat in
        let batchOIDs := take (batchEnd - batchStart) (drop batchStart oids) in
        match get batchOIDs with
        | GetFailed => ([batchOIDs], Err GetError)
        | NilResult => ([batchOIDs], Err NoResponse)
        | Variables vars =>
            let '(sent, res) :=
              batchLoop fuel' oids (batchStart + maxOIDsPerBatch)
                        (storeBatch values batchOIDs vars) in
            (batchOIDs :: sent, res)
        end
      else ([], Ok values)
  end.

(** [GetMultiple]: the GETs it sends and what it returns. *)
Definition GetMultiple (oids : list string)
  : list (list string) * result Error (gmap string string) :=
  match oids with
  | [] => ([], Ok ∅)
  | _ =>
      if connects then batchLoop (length oids) oids 0 ∅
      else ([], Err ConnectFailed)
  end.

End Device.

End Client.

(* ===================================================================== *)
(** ** pkg/snmp/hex_decoder.go                                           *)
(* ===================================================================== *)

Module HexDecoder.

Local Open Scope Z_scope.

Definition isHexChar (c : Byte.byte) : bool :=
  let b := Snmp.bv c in
  ((48 <=? b) && (b <=? 57)) || ((97 <=? b) && (b <=? 102))
  || ((65 <=? b) && (b <=? 70)).

(** [IsHexASCII]. *)
Definition IsHexASCII (b : list Byte.byte) : bool :=
  if negb (Z.of_nat (length b) mod 2 =? 0) then false
  else if forallb isHexChar b then 0 <? Z.of_nat (length b)
  else false.

(** [hex.EncodeToString]. *)
Fixpoint EncodeToString (b : list Byte.byte) : string :=
  match b with
  | [] => EmptyString
  | c :: rest => String.append (Snmp.hex_byte c) (EncodeToString rest)
  end.

Definition fromHexChar (c : Byte.byte) : option Z :=
  let b := Snmp.bv c in
  if (48 <=? b) && (b <=? 57) then Some (b - 48)
  else if (97 <=? b) && (b <=? 102) then Some (b - 97 + 10)
  else if (65 <=? b) && (b <=? 70) then Some (b - 65 + 10)
  else None.

Definition byte_of (z : Z) : Byte.byte :=
  default Byte.x00 (Byte.of_N (Z.to_N z)).

(** [hex.DecodeString]: [None] is an error, for a byte that is no
    hexadecimal digit or an odd length. *)
Fixpoint DecodeString (src : list Byte.byte) : option (list Byte.byte) :=
  match src with
  | [] => Some []
  | [_] => None
  | hi :: lo :: rest =>
      match fromHexChar hi, fromHexChar lo with
      | Some a, Some b =>
          match DecodeString rest with
          | Some decoded => Some (byte_of (a * 16 + b) :: decoded)
          | None => None
          end
      | _, _ => None
      end
  end.

(** [isTextLike]: [float64(printableCount)/float64(len(b)) > 0.8], which
    for slices shorter than 2^49 bytes is the integer comparison below. *)
Definition isTextLike (b : list Byte.byte) : bool :=
  match b with
  | [] => false
  | _ => 4 * Z.of_nat (length b) <? 5 * Snmp.printableCount b
  end.

(** [DecodeHexASCII]: [None] stands for the pair of the empty string and
    false. *)
Definition DecodeHexASCII (b : list Byte.byte) : option string :=
  if negb (Z.of_nat (length b) mod 2 =? 0) then None
  else
    match DecodeString b with
    | None => None
    | Some decoded =>
        if isTextLike decoded then Some (Snmp.string_of_bytes decoded) else None
    end.

(** [DecodeValue]. *)
Definition DecodeValue (value : Snmp.PDUValue) : string :=
  match value with
  | Snmp.Str v =>
      let b := list_byte_of_string v in
      match (if IsHexASCII b then DecodeHexASCII b else None) with
      | Some decoded => decoded
      | None => v
      end
  | Snmp.Bytes v =>
      match (if IsHexASCII v then DecodeHexASCII v else None) with
      | Some decoded => decoded
      | None =>
          if isTextLike v then Go.TrimRightNul (Snmp.string_of_bytes v)
          else EncodeToString v
      end
  | _ => EmptyString
  end.

End HexDecoder.
(* ===================================================================== *)
(** ** pkg/detector/brand.go: the confidence of a detection               *)
(* ===================================================================== *)

Module Confidence.

Local Open Scope string_scope.

(** Every pattern [DetectBrand] looks for, in the order it tries them. *)
Definition allPatterns : list string :=
  (Detector.beforeSharp ++ Detector.sharpPatterns ++ Detector.toshibaPatterns
   ++ Detector.samsungPatterns)%list.

(** The brands other than [Generic]. *)
Definition brands : list string :=
  ["HP"; "Xerox"; "Brother"; "Ricoh"; "Canon"; "KonicaMinolta"; "OKI";
   "Kyocera"; "Sharp"; "Toshiba"; "Samsung"].

(** [GetBrandConfidence]; the result is the decimal the source writes. *)
Definition GetBrandConfidence (lowerRunes : string -> string)
    (sysDescr brand : string) : Q :=
  let descLower := Unicode.ToLower lowerRunes sysDescr in
  let has := Go.Contains descLower in
  let byDefault := (75 # 100)%Q in
  if String.eqb brand "HP" then
    if has "hewlett packard" then (99 # 100)%Q
    else if has "hp" && has "laserjet" then (98 # 100)%Q
    else if has "hp" then (85 # 100)%Q
    else byDefault
  else if String.eqb brand "Xerox" then
    if has "xerox" && has "workcentre" then (99 # 100)%Q
    else if has "xerox" then (98 # 100)%Q
    else byDefault
  else if String.eqb brand "Brother" then
    if has "brother" && (has "hl-" || has "mfc-") then (99 # 100)%Q
    else if has "brother" then (95 # 100)%Q
    else byDefault
  else if String.eqb brand "Ricoh" then
    if has "ricoh" then (95 # 100)%Q
    else if has "imagio" then (90 # 100)%Q
    else byDefault
  else if String.eqb brand "Canon" then
    if has "canon" && has "imagerunner" then (98 # 100)%Q
    else if has "canon" then (95 # 100)%Q
    else byDefault
  else if String.eqb brand "Samsung" then
    if has "samsung" && (has "ml-" || has "clp-") then (99 # 100)%Q
    else if has "samsung" then (96 # 100)%Q
    else byDefault
  else if String.eqb brand "Generic" then (50 # 100)%Q
  else byDefault.

(** The values [GetBrandConfidence] returns for a brand other than
    [Generic]. *)
Definition levels : list Q :=
  [(75 # 100)%Q; (85 # 100)%Q; (90 # 100)%Q; (95 # 100)%Q; (96 # 100)%Q;
   (98 # 100)%Q; (99 # 100)%Q].

End Confidence.

(* ===================================================================== *)
(** ** pkg/profile: when a profile is discovered again                   *)
(* ===================================================================== *)

Module Rediscovery.

Local Open Scope Z_scope.

(** The clock of the profile times counts nanoseconds. *)
Definition Hour : Z := 3600 * Sink.Second.

(** [time.Since(t)] at the instant [now]: the difference, kept within
    the range of a [Duration]. *)
Definition Since (now t : Z) : Z :=
  let d := now - t in
  if Go.int64_max <? d then Go.int64_max
  else if d <? Go.int64_min then Go.int64_min
  else d.

(** [p.SuccessRate < 0.8]. *)
Definition belowThreshold (rate : Q) : bool := negb (Qle_bool (8 # 10) rate).

(** [NeedsRediscovery]; the manager is the one [GetOrDiscover] leaves. *)
Definition NeedsRediscovery (m : Profile.Manager) (now : Z) (printerID : string)
  : Profile.Manager * bool :=
  let '(m', found) := Profile.GetOrDiscover m printerID in
  match found with
  | None => (m', true)
  | Some l =>
      match Profile.heap m' !! l with
      | None => (m', true)
      | Some p =>
          (m',
           if 7 * 24 * Hour <? Since now (Profile.DiscoveredAt p) then true
           else if belowThreshold (Profile.SuccessRate p) then true
           else if 5 <? Profile.ErrorCount p then true
           else false)
      end
  end.

End Rediscovery.
(* ===================================================================== *)
(** ** pkg/telemetry: the alerts of an event                              *)
(* ===================================================================== *)

Module Alerts.
Import Dyn.

Local Open Scope string_scope.
Local Open Scope Z_scope.

(** [AlertInfo]. *)
Record AlertInfo : Type := mkAlertInfo {
  ID : string;
  Type_ : string;
  Severity : string;
  Message : string;
  DetectedAt : Z
}.

Section Builder.

Variable scanFloat : string -> option Z.

(** [extractSupplyStatus]. *)
Definition extractSupplyStatus (supply : Any) : string :=
  match supply with
  | Map supplyMap =>
      let deduced :=
        let percentage :=
          Telemetry.extractFieldAsInt scanFloat supply ["percentage"; "percent"] in
        let percentage :=
          if percentage =? 0 then
            let level :=
              Telemetry.extractFieldAsInt scanFloat supply ["level"; "current"] in
            let maxLevel :=
              Telemetry.extractFieldAsInt scanFloat supply ["maxLevel"; "max"] in
            if (0 <? maxLevel) && (0 <? level)
            then Z.quot (Go.wrap64 (level * 100)) maxLevel
            else percentage
          else percentage in
        Telemetry.deduceSupplyStatus percentage in
      match supplyMap !! "status" with
      | Some (SString status) =>
          if negb (String.eqb status EmptyString)
             && negb (String.eqb status "unknown")
          then status else deduced
      | _ => deduced
      end
  | _ => "unknown"
  end.

(** The body of the loop of [buildAlerts]: [None] when the supply raises
    no alert. *)
Definition buildAlert (timestamp : Z) (supply : Any) : option AlertInfo :=
  let status := extractSupplyStatus supply in
  if String.eqb status "critical" || String.eqb status "low" then
    let severity := if String.eqb status "critical" then "critical" else "warning" in
    let supplyName := Telemetry.extractFieldAsString supply ["name"; "description"] in
    let supplyModel := Telemetry.extractFieldAsString supply ["model"; EmptyString] in
    let percentage :=
      Telemetry.extractFieldAsInt scanFloat supply ["percentage"; "percent"] in
    let message :=
      if String.eqb supplyModel EmptyString
      then supplyName ++ " is " ++ status ++ " (" ++ Go.itoa percentage ++ "%)"
      else supplyName ++ " " ++ supplyModel ++ " is " ++ status
           ++ " (" ++ Go.itoa percentage ++ "%)" in
    let cleanName := Telemetry.cleanSupplyName supplyName in
    let supplyType := Telemetry.deduceSupplyType cleanName in
    let supplyType :=
      if String.eqb supplyType EmptyString then "supply" else supplyType in
    Some {| ID := supplyType ++ "_" ++ status;
            Type_ := "supply";
            Severity := severity;
            Message := message;
            DetectedAt := timestamp |}
  else None.

(** [buildAlerts]; [None] is the nil slice. *)
Definition buildAlerts (data : Collector.PrinterData) : option (list AlertInfo) :=
  if Collector.is_empty (Collector.Supplies data) then None
  else
    match omap (fun entry => buildAlert (Collector.Timestamp data) (snd entry))
               (range (Collector.Supplies data)) with
    | [] => None
    | alerts => Some alerts
    end.

End Builder.

End Alerts.

(* ===================================================================== *)
(** ** pkg/profile: the discoverer                                       *)
(* ===================================================================== *)

Module Discoverer.

Local Open Scope string_scope.
Local Open Scope Z_scope.

(** [OIDCategory] is a string type. *)
Definition OIDCategory : Type := string.

Definition CatSupplies : OIDCategory := "supplies".
Definition CatCounters : OIDCategory := "counters".
Definition CatStatus : OIDCategory := "status".
Definition CatNetwork : OIDCategory := "network".
Definition CatSystem : OIDCategory := "system".
Definition CatVendor : OIDCategory := "vendor".

(** [isUsefulOID]. *)
Definition isUsefulOID (oid value : string) : bool :=
  if String.eqb value EmptyString || String.eqb value "unknown"
     || String.eqb value "null" || String.eqb value "nil" then false
  else if String.eqb value "-1" || String.eqb value "-2" then false
  else true.

(** [ClassifyOID].  Every pattern is made of digits and dots, which
    [strings.ToLower] leaves where they are in any string, so the
    lowering of the ASCII letters stands for it here. *)
Definition ClassifyOID (oid : string) : OIDCategory :=
  let oidLower := Go.ToLower oid in
  let has := Go.Contains oidLower in
  if has ".43.11" || has ".11.2.3.9.4.3" || has ".253.8.53.13"
     || has ".236.11.5.11" || has ".367.3.2" then CatSupplies
  else if has ".43.10" || has ".43.4" || has ".11.2.3.9.4.2"
          || has ".253.8.53.3" || has ".236.11.5.1" then CatCounters
  else if has ".25.3.2.1.5" || has ".43.13" || has ".43.5"
          || has ".11.2.3.9.4.2.1.5" then CatStatus
  else if has ".2.1.4" || has ".2.1.6" || has ".2.1.2" then CatNetwork
  else if has ".2.1.1" || has ".1.3.0" || has ".1.6.0" || has ".1.4.0"
  then CatSystem
  else CatVendor.

(** [contains]. *)
Fixpoint contains (slice : list string) (item : string) : bool :=
  match slice with
  | [] => false
  | s :: rest => if String.eqb s item then true else contains rest item
  end.

(** The body of the inner loop of [classifyOIDs]. *)
Definition classifyResult (oidsByCategory : gmap string (list string))
    (result : Collector.WalkResult) : gmap string (list string) :=
  if negb (isUsefulOID (Collector.OID result) (Collector.Value result))
  then oidsByCategory
  else
    let category := ClassifyOID (Collector.OID result) in
    let listed := default [] (oidsByCategory !! category) in
    if negb (contains listed (Collector.OID result))
    then <[category := (listed ++ [Collector.OID result])%list]> oidsByCategory
    else oidsByCategory.

(** The first loop of [classifyOIDs], over the trees that were walked. *)
Definition classifyAll (allResults : gmap string (list Collector.WalkResult))
  : gmap string (list string) :=
  foldl (fun oidsByCategory '(_, walkList) =>
           foldl classifyResult oidsByCategory walkList)
        ∅ (Dyn.range allResults).

(** [classifyOIDs]: the [OIDs] of the profile afterwards. *)
Definition classifyOIDs (profileOIDs : gmap string (list string))
    (allResults : gmap string (list Collector.WalkResult))
  : gmap string (list string) :=
  foldl (fun (oids : gmap string (list string)) '(category, listed) =>
           if (0 <? length listed)%nat then <[category := listed]> oids else oids)
        profileOIDs (Dyn.range (classifyAll allResults)).

(** [detectCapabilities]. *)
Definition detectCapabilities (profileOIDs : gmap string (list string))
    (capabilities : Profile.CapabilityMap) : Profile.CapabilityMap :=
  let found category := (0 <? length (default [] (profileOIDs !! category)))%nat in
  {| Profile.Duplex := true;
     Profile.Color := true;
     Profile.Scanner := Profile.Scanner capabilities;
     Profile.Fax := Profile.Fax capabilities;
     Profile.Supplies := found CatSupplies;
     Profile.Counters := found CatCounters;
     Profile.Network := found CatNetwork;
     Profile.Status := found CatStatus;
     Profile.Supported := Profile.Supported capabilities;
     Profile.Failed := Profile.Failed capabilities |}.

(** What holds of the lists by category once the results [seen] have
    been classified: no list is empty or repeats an OID, each OID stands
    under its own category and came with a useful value, and every
    result with a useful value is listed. *)
Definition classified (seen : list Collector.WalkResult)
    (oidsByCategory : gmap string (list string)) : Prop :=
  (forall category listed,
     oidsByCategory !! category = Some listed ->
     listed <> []
     /\ NoDup listed
     /\ forall oid, oid ∈ listed ->
          ClassifyOID oid = category
          /\ exists result, result ∈ seen
                            /\ Collector.OID result = oid
                            /\ isUsefulOID (Collector.OID result)
                                           (Collector.Value result) = true)
  /\ (forall result,
        result ∈ seen ->
        isUsefulOID (Collector.OID result) (Collector.Value result) = true ->
        exists listed,
          oidsByCategory !! ClassifyOID (Collector.OID result) = Some listed
          /\ Collector.OID result ∈ listed).

(** The results of all the trees that were walked. *)
Definition walked (allResults : gmap string (list Collector.WalkResult))
  : list Collector.WalkResult :=
  concat (snd <$> Dyn.range allResults).

End Discoverer.
(* ===================================================================== *)
(** ** Shapes the properties below speak of                               *)
(* ===================================================================== *)

Module Shapes.

Local Open Scope string_scope.
Local Open Scope Z_scope.

(** The OID of hrDeviceStatus, the one status answer that sets the
    state. *)
Definition hrDeviceStatus : string := "1.3.6.1.2.1.25.3.2.1.5.1".

(** The state [collectStatus] derives from an answer to hrDeviceStatus;
    [None] when the answer is skipped as empty or zero. *)
Definition stateOf (val : string) : option string :=
  let valStr := Go.TrimSpace val in
  if String.eqb valStr EmptyString || String.eqb valStr "0" then None
  else Some (if String.eqb valStr "1" then "idle"
             else if String.eqb valStr "2" then "offline"
             else if String.eqb valStr "3" then "testing"
             else "unknown").

(** What is reported missing for a bucket that is empty. *)
Definition missingIfEmpty (b : Dyn.Bucket) (section : string) : list string :=
  if Collector.is_empty b then [section] else [].

(** A value a byte can hold. *)
Definition isByte (n : Z) : Prop := 0 <= n <= 255.

(** The waits of one [Write]: none, or a first one of the given length
    followed by waits of at most 60 seconds. *)
Definition waitsFrom (first : Z) (ws : list Z) : Prop :=
  ws = [] \/ exists rest, ws = first :: rest
                          /\ Forall (fun d => d <= 60 * Sink.Second) rest.

(** A device that answers each GET with at least as many variables as
    it was asked for. *)
Definition answersInFull (get : list string -> Client.GetReply) : Prop :=
  forall batch vars, get batch = Client.Variables vars ->
                     (length batch <= length vars)%nat.

(** What [getFileName] makes of one byte of a printer id. *)
Definition safeChar (c : ascii) : ascii :=
  if existsb (Ascii.eqb c) Profile.unsafeChars then "_"%char else c.

(** The running maximum [m] and second maximum [s] of
    [mapCountersFromWalk] after the entries seen so far. *)
Definition maxInv (entries : list (string * Z)) (acc : Z * string * Z * string) : Prop :=
  let '(m, _, s, _) := acc in
  0 <= s
  /\ (s < m \/ (m = 0 /\ s = 0 /\ entries = []))
  /\ (0 < m -> exists e, e ∈ entries /\ snd e = m)
  /\ (forall e, e ∈ entries -> snd e <= m)
  /\ (0 < s -> exists e, e ∈ entries /\ snd e = s)
  /\ (forall e, e ∈ entries -> snd e < m -> snd e <= s).

Section Sorting.
Context {A : Type} (value : A -> Z).

(** Position [i] holds a value no smaller than those between it and
    [hi]. *)
Definition leads (a : list A) (i hi : nat) : Prop :=
  forall k z x, (i < k < hi)%nat -> a !! k = Some z -> a !! i = Some x ->
                value z <= value x.

(** Each of the first [i] positions holds a value no smaller than those
    after it. *)
Definition settled (a : list A) (i : nat) : Prop :=
  forall p q x z, (p < i)%nat -> (p < q)%nat -> a !! p = Some x -> a !! q = Some z ->
                  value z <= value x.

(** [a'] is [a] with the elements from position [i] on rearranged. *)
Definition rearrangedFrom (a a' : list A) (i : nat) : Prop :=
  length a' = length a
  /\ (forall p, (p < i)%nat -> a' !! p = a !! p)
  /\ (forall q z, (i <= q)%nat -> a' !! q = Some z ->
                  exists q', (i <= q')%nat /\ a !! q' = Some z)
  /\ a' ≡ₚ a.

End Sorting.

(** An OID in its usual text: decimal digits and dots. *)
Definition numericOID (oid : string) : Prop :=
  Forall (fun c => Go.is_digit c = true \/ c = "."%char) (Go.chars oid).

(** A device all of whose WALK answers name their objects that way. *)
Definition numericOIDs (client : Collector.SNMPClient) : Prop :=
  forall baseOID results res,
    Collector.Walk client baseOID = Ok results -> res ∈ results ->
    numericOID (Collector.OID res).

End Shapes.
(* ===================================================================== *)
(** ** More concrete inputs                                              *)
(* ===================================================================== *)

Module Samples.
Import Dyn.

Local Open Scope string_scope.
Local Open Scope Z_scope.

(** A server that fails twice and then accepts. *)
Definition recoversAtThird : Sink.World :=
  Sink.mkWorld (fun a => if a <? 2 then Sink.Status 503 else Sink.Status 200)
               (fun _ => false).

(** A configuration that asks for no retry by a negative count. *)
Definition noRetryConfig : Sink.HTTPSinkConfig :=
  Sink.mkHTTPSinkConfig "https://cloud.example.com/api" EmptyString 0 (-1) 0.

(** A manager started on the directory that holds the saved profile. *)
Definition restartedManager : Profile.Manager :=
  {| Profile.profileDir := "profiles";
     Profile.cache := ∅;
     Profile.heap := ∅;
     Profile.disk := {[ "profiles/30cda7c72268.json" := Profile.Json Examples.someProfile ]};
     Profile.writable := true |}.

(** Three counters as a WALK of the counter subtree leaves them. *)
Definition walkedCounters : gmap string Z :=
  <[ "1.3.6.1.2.1.43.10.2.1.4.1.1" := 15230 ]>
    (<[ "1.3.6.1.2.1.43.10.2.1.4.1.2" := 4180 ]>
       {[ "1.3.6.1.2.1.43.10.2.1.4.1.3" := 77 ]}).

(** A device that answers the status GET: idle, up for 1234567
    hundredths of a second. *)
Definition idleClient : Collector.SNMPClient :=
  Collector.mkSNMPClient
    (fun _ => Err Collector.SNMPFailed)
    (fun _ => Ok {[ "1.3.6.1.2.1.25.3.2.1.5.1" := " 1 ";
                    "1.3.6.1.2.1.1.3.0" := "1234567" ]}).

(** A toner at 20 of 100, and the entry the builder emits for it. *)
Definition lowToner : Any :=
  Map {[ "name" := SString "Magenta Toner";
         "level" := SInt 20; "max" := SInt 100 ]}.

Definition lowEntry : Telemetry.SupplyInfo :=
  Telemetry.mkSupplyInfo "magenta_toner" "Magenta Toner" "toner" 20 100 20 "low"
    EmptyString EmptyString EmptyString EmptyString EmptyString EmptyString 0
    EmptyString.

(** A printer whose total, 100 pages, is below the 12000 stored for it:
    a replaced device.  The event built for it reports the reset. *)
Definition replacedPrinter : Collector.PrinterData :=
  Collector.with_NormalizedCounters Examples.blankData
    {[ "total_pages" := VInt64 100 ]}.

Definition resetSnapshot : State.CountersSnapshot :=
  State.mkCountersSnapshot (State.mkCountersInfo 100 0 0 0 0 0) None true.

(** A queue directory that accepts every write, before and after two
    events of one printer within one second. *)
Definition slashJoin (dir name : string) : string := dir ++ "/" ++ name.

Definition queue : FileSink.FileSink := FileSink.mkFileSink "queue".

Definition neverRefused : string -> bool := fun _ => false.

Definition emptyQueue : FileSink.Disk := FileSink.mkDisk ∅ neverRefused.

Definition queueAfterFirst : FileSink.Disk :=
  FileSink.mkDisk {[ "queue/1700000000_10.0.0.5.json" := [Byte.x7b] ]} neverRefused.

Definition queueAfterSecond : FileSink.Disk :=
  FileSink.mkDisk {[ "queue/1700000000_10.0.0.5.json" := [Byte.x7b; Byte.x7d] ]}
    neverRefused.

(** A device that answers nothing, and a record for it that the
    identification step has already reported as missing. *)
Definition silentClient : Collector.SNMPClient :=
  Collector.mkSNMPClient (fun _ => Err Collector.SNMPFailed)
                         (fun _ => Err Collector.SNMPFailed).

Definition unidentified : Collector.PrinterData :=
  Collector.with_MissingSections Examples.blankData ["identification"].

(** A device whose supplies WALK returns the description of a toner. *)
Definition supplyWalkClient : Collector.SNMPClient :=
  Collector.mkSNMPClient
    (fun base =>
       if String.eqb base "1.3.6.1.2.1.43.11"
       then Ok [ Collector.mkWalkResult ".1.3.6.1.2.1.43.11.1.1.6.1.1"
                   "Black Toner Cartridge" ]
       else Err Collector.SNMPFailed)
    (fun _ => Err Collector.SNMPFailed).

End Samples.

(* ===================================================================== *)
(** * Properties                                                          *)
(* ===================================================================== *)

Local Open Scope string_scope.
Local Open Scope Z_scope.

(** ** Arithmetic and strings *)

Lemma wrap64_in_range (z : Z) :
  Go.int64_min <= z <= Go.int64_max -> Go.wrap64 z = z.
Proof.
  unfold Go.int64_min, Go.int64_max, Go.wrap64. intros H.
  rewrite Z.mod_small; lia.
Qed.

Lemma foldl_invariant {A B : Type} (P : A -> Prop) (f : A -> B -> A) (l : list B) :
  forall a, P a -> (forall a' x, P a' -> In x l -> P (f a' x)) -> P (foldl f a l).
Proof.
  induction l as [|x l IH]; intros a Ha Hstep; simpl; [exact Ha|].
  apply IH.
  - apply Hstep; [exact Ha | now left].
  - intros a' y Ha' Hy. apply Hstep; [exact Ha' | now right].
Qed.

(** ** The state store (C1) *)

(** The counterexample to C1 as stated: the mono counter is below its
    stored value, yet no reset is reported and the delta holds a negative
    component. *)
Lemma CalculateDelta_mono_decrease_not_reset :
  State.LoadState Examples.stateStore "10.0.0.5"
    = Ok (Some (State.mkPrinterState 1700000000 Examples.storedCounters))
  /\ State.MonoPages Examples.monoWentDown < State.MonoPages Examples.storedCounters
  /\ State.CalculateDelta Examples.stateStore "10.0.0.5" Examples.monoWentDown
     = (Some (State.mkCountersDiff 345 (-8900) 0 0 0 0), false).
Proof.
  split; [|split]; [vm_compute; reflexivity | vm_compute; reflexivity | vm_compute; reflexivity].
Qed.

(** C1, amended: the reset test reads the total counter only.
    [CalculateDelta] returns (nil, true) when the current total is below
    the stored total, the componentwise [int64] difference and false
    otherwise, and (nil, false) when no state is stored or the state
    cannot be loaded.  The total component of a delta is non-negative when
    the stored total is. *)
Theorem CalculateDelta_total_guard
    (sm : State.StateManager) (printerIP : string) (cur : State.CountersInfo) :
  (forall prev, State.LoadState sm printerIP = Ok (Some prev) ->
     let old := State.Counters prev in
     (State.TotalPages cur < State.TotalPages old ->
        State.CalculateDelta sm printerIP cur = (None, true))
     /\ (State.TotalPages old <= State.TotalPages cur ->
           State.CalculateDelta sm printerIP cur
           = (Some {| State.dTotalPages :=
                        Go.wrap64 (State.TotalPages cur - State.TotalPages old);
                      State.dMonoPages :=
                        Go.wrap64 (State.MonoPages cur - State.MonoPages old);
                      State.dColorPages :=
                        Go.wrap64 (State.ColorPages cur - State.ColorPages old);
                      State.dScanPages :=
                        Go.wrap64 (State.ScanPages cur - State.ScanPages old);
                      State.dCopyPages :=
                        Go.wrap64 (State.CopyPages cur - State.CopyPages old);
                      State.dFaxPages :=
                        Go.wrap64 (State.FaxPages cur - State.FaxPages old) |},
              false)
           /\ (0 <= State.TotalPages old ->
               State.TotalPages cur <= Go.int64_max ->
               0 <= Go.wrap64 (State.TotalPages cur - State.TotalPages old))))
  /\ (State.LoadState sm printerIP = Ok None ->
      State.CalculateDelta sm printerIP cur = (None, false))
  /\ (forall e, State.LoadState sm printerIP = Err e ->
      State.CalculateDelta sm printerIP cur = (None, false)).
Proof.
  split; [|split].
  - intros prev Hload old. unfold State.CalculateDelta. rewrite Hload.
    fold old. split.
    + intros Hlt. apply Z.ltb_lt in Hlt. now rewrite Hlt.
    + intros Hle. apply Z.ltb_ge in Hle. rewrite Hle. split; [reflexivity|].
      intros Hold Hmax. apply Z.ltb_ge in Hle.
      rewrite wrap64_in_range; unfold Go.int64_min, Go.int64_max in *; lia.
  - intros Hload. unfold State.CalculateDelta. now rewrite Hload.
  - intros e Hload. unfold State.CalculateDelta. now rewrite Hload.
Qed.

Lemma CalculateDelta_total_guard_witness :
  State.CalculateDelta Examples.stateStore "10.0.0.5" Examples.allWentUp
    = (Some (State.mkCountersDiff 345 300 45 0 0 0), false)
  /\ 0 <= Go.wrap64 (State.TotalPages Examples.allWentUp
                     - State.TotalPages Examples.storedCounters).
Proof.
  destruct (CalculateDelta_total_guard Examples.stateStore "10.0.0.5"
              Examples.allWentUp) as [H _].
  destruct (H (State.mkPrinterState 1700000000 Examples.storedCounters))
    as [_ Hup]; [vm_compute; reflexivity|].
  destruct Hup as [Hdelta Hnonneg]; [vm_compute; discriminate|].
  split.
  - rewrite Hdelta. vm_compute. reflexivity.
  - apply Hnonneg; vm_compute; discriminate.
Defined.

(** ** The range parser (C2) *)

(** The loop of [parseRangeFormat] yields [Y - X + 1] addresses when the
    start octet [X] is at most the end octet [Y]. *)
Lemma parseRangeFormat_ascending (parseIPv6 : string -> option Scanner.IP)
    (startIP endOctet : string) (ip : Scanner.IP) (a b c x y : Z) :
  Scanner.ParseIP parseIPv6 startIP = Some ip ->
  Scanner.To4 ip = Some (a, b, c, x) ->
  Go.Atoi endOctet = Some y ->
  x <= y <= 255 -> 0 <= x ->
  exists ips : list string,
    Scanner.parseRangeFormat parseIPv6 startIP endOctet = Ok ips
    /\ Z.of_nat (length ips) = y - x + 1
    /\ forall i, 0 <= i <= y - x ->
         ips !! Z.to_nat i = Some (Scanner.IPv4String a b c (x + i)).
Proof.
  intros Hip H4 Hend Hxy Hx. unfold Scanner.parseRangeFormat.
  rewrite Hip, H4, Hend. clear Hip H4 Hend.
  assert (Hrange : (y <? 0) || (255 <? y) = false)
    by (apply orb_false_iff; split; apply Z.ltb_ge; lia).
  rewrite Hrange.
  eexists. split; [reflexivity|]. split.
  - rewrite length_fmap, length_seqZ. lia.
  - intros i Hi. rewrite list_lookup_fmap.
    rewrite (lookup_seqZ_lt x (y - x + 1) (Z.to_nat i)) by lia.
    cbn [fmap option_fmap option_map]. unfold Go.to_byte.
    rewrite Z.mod_small by lia.
    rewrite Z2Nat.id by lia. reflexivity.
Qed.

(** When the end octet is below the start octet the same loop never runs:
    the parser succeeds with no address at all. *)
Lemma parseRangeFormat_descending (parseIPv6 : string -> option Scanner.IP)
    (startIP endOctet : string) (ip : Scanner.IP) (a b c x y : Z) :
  Scanner.ParseIP parseIPv6 startIP = Some ip ->
  Scanner.To4 ip = Some (a, b, c, x) ->
  Go.Atoi endOctet = Some y ->
  0 <= y < x -> y <= 255 ->
  Scanner.parseRangeFormat parseIPv6 startIP endOctet = Ok [].
Proof.
  intros Hip H4 Hend Hxy Hy. unfold Scanner.parseRangeFormat.
  rewrite Hip, H4, Hend. clear Hip H4 Hend.
  assert (Hrange : (y <? 0) || (255 <? y) = false)
    by (apply orb_false_iff; split; apply Z.ltb_ge; lia).
  rewrite Hrange.
  unfold seqZ. replace (Z.to_nat (y - x + 1)) with 0%nat by lia. reflexivity.
Qed.

(** C2 at the failing input: the range 5-3 of 10.0.0 is not well formed
    (X > Y), and [ParseIPRange] returns the empty list without an error. *)
Theorem ParseIPRange_descending_range_is_empty
    (parseIPv6 : string -> option Scanner.IP) :
  Scanner.ParseIPRange parseIPv6 "10.0.0.5-3" = Ok [].
Proof. vm_compute. reflexivity. Qed.

(** The well-formed neighbours of that input behave as C2 says. *)
Example ParseIPRange_examples :
  Scanner.ParseIPRange Examples.noIPv6 "10.0.0.5-7"
    = Ok ["10.0.0.5"; "10.0.0.6"; "10.0.0.7"]
  /\ Scanner.ParseIPRange Examples.noIPv6 "10.0.0.5-5" = Ok ["10.0.0.5"]
  /\ Scanner.ParseIPRange Examples.noIPv6 "10.0.0.5" = Ok ["10.0.0.5"]
  /\ Scanner.ParseIPRange Examples.noIPv6 "10.0.0.300-1"
     = Err (Scanner.InvalidStartIP "10.0.0.300")
  /\ Scanner.ParseIPRange Examples.noIPv6 "10.0.0.5-256"
     = Err (Scanner.OctetOutOfRange 256).
Proof. repeat split; vm_compute; reflexivity. Qed.

(** ** The HTTP sink (C3) *)

(** A 2xx answer to the first request ends [Write] with success after that
    one request. *)
Lemma Write_success_first (hs : Sink.HTTPSink) (w : Sink.World)
    (b : Byte.byte) (data : list Byte.byte) (printerID : string) (code : Z) :
  0 <= Sink.maxRetries hs ->
  Sink.reply w 0 = Sink.Status code -> 200 <= code < 300 ->
  Sink.Write hs w (b :: data) printerID = ([Sink.Sent 0], None).
Proof.
  intros Hmax Hreply Hcode. unfold Sink.Write.
  destruct (Z.to_nat (Sink.maxRetries hs + 1)) as [|n] eqn:Hn; [lia|].
  simpl. rewrite Hreply. simpl.
  replace ((200 <=? code) && (code <? 300)) with true
    by (symmetry; apply andb_true_iff; split; [apply Z.leb_le | apply Z.ltb_lt]; lia).
  reflexivity.
Qed.

(** The loop treats every error of [sendRequest] alike: as long as the
    requests fail and the context is not done, it goes on to the attempt
    numbered [maxRetries], whatever the kind of the error. *)
Lemma attempts_all_fail (hs : Sink.HTTPSink) (w : Sink.World) :
  (forall k, Sink.sendRequest (Sink.reply w k) <> None) ->
  (forall k, Sink.ctxDone w k = false) ->
  forall (remaining : nat) (attempt waitDuration : Z) (lastErr : option Sink.SendError),
    0 <= attempt ->
    attempt + Z.of_nat remaining = Sink.maxRetries hs + 1 ->
    Sink.requests (fst (Sink.attempts hs w remaining attempt waitDuration lastErr))
    = seqZ attempt (Z.of_nat remaining).
Proof.
  intros Hfail Hctx. induction remaining as [|n IH]; intros attempt wd lastErr H0 Hsum.
  - reflexivity.
  - cbn [Sink.attempts]. rewrite Hctx.
    destruct (Sink.sendRequest (Sink.reply w attempt)) as [err|] eqn:Hsend;
      [|exfalso; now apply (Hfail attempt)].
    assert (Hseq : seqZ attempt (Z.of_nat (S n))
                   = attempt :: seqZ (attempt + 1) (Z.of_nat n)).
    { replace (Z.of_nat (S n)) with (Z.succ (Z.of_nat n)) by lia.
      rewrite seqZ_cons by lia. do 2 f_equal; lia. }
    rewrite Hseq.
    destruct (attempt =? Sink.maxRetries hs) eqn:Hlast.
    + apply Z.eqb_eq in Hlast. assert (n = 0%nat) by lia. subst n.
      destruct (0 <? attempt); reflexivity.
    + apply Z.eqb_neq in Hlast.
      destruct (0 <? attempt) eqn:Hpos.
      * specialize (IH (attempt + 1)
          (if 60 * Sink.Second <? Go.wrap64 (wd * 2) then 60 * Sink.Second
           else Go.wrap64 (wd * 2)) (Some err)).
        destruct (Sink.attempts hs w n (attempt + 1) _ (Some err)) as [tr res].
        simpl in *. f_equal. apply IH; lia.
      * specialize (IH (attempt + 1) wd (Some err)).
        destruct (Sink.attempts hs w n (attempt + 1) wd (Some err)) as [tr res].
        simpl in *. f_equal. apply IH; lia.
Qed.

(** C3 at the failing input: a server that answers 400 to every request.
    [Write] sends four requests, waiting 1 s, 2 s and 4 s in between, and
    only then returns the error of the last attempt. *)
Theorem Write_retries_client_error :
  Sink.Write Examples.defaultSink Examples.alwaysBadRequest Examples.oneByte
             "printer-1"
  = ([Sink.Sent 0; Sink.Waited (1 * Sink.Second);
      Sink.Sent 1; Sink.Waited (2 * Sink.Second);
      Sink.Sent 2; Sink.Waited (4 * Sink.Second);
      Sink.Sent 3],
     Some (Sink.FailedAfter 4 (Sink.ClientError 400))).
Proof. vm_compute. reflexivity. Qed.

(** The waits between attempts double and stop growing at 60 s; a 5xx
    answer is retried like any other failure. *)
Example Write_backoff_example :
  Sink.Write (Sink.mkHTTPSink "https://cloud.example.com/api" EmptyString
                (10 * Sink.Second) 3 (25 * Sink.Second))
             (Sink.mkWorld (fun a => if a <? 3 then Sink.Status 503 else Sink.Status 201)
                           (fun _ => false))
             Examples.oneByte "printer-1"
  = ([Sink.Sent 0; Sink.Waited (25 * Sink.Second);
      Sink.Sent 1; Sink.Waited (50 * Sink.Second);
      Sink.Sent 2; Sink.Waited (60 * Sink.Second);
      Sink.Sent 3],
     None).
Proof. vm_compute. reflexivity. Qed.

(** ** Coercion of octet strings (C4) *)

Lemma isLikelyASCII_printable (b : list Byte.byte) :
  forallb (fun c =>
    negb ((Snmp.bv c <? 32) && negb (Snmp.bv c =? 9) && negb (Snmp.bv c =? 10)
          && negb (Snmp.bv c =? 13))
    && negb (126 <? Snmp.bv c)) b = true ->
  forallb Snmp.printable b = true /\ forallb (fun c => Snmp.bv c <? 128) b = true.
Proof.
  induction b as [|c b IH]; simpl; [now split|].
  intros H. apply andb_true_iff in H as [Hc Hb].
  destruct (IH Hb) as [IH1 IH2]. rewrite IH1, IH2.
  unfold Snmp.printable.
  destruct (Snmp.bv c <? 32) eqn:E1, (Snmp.bv c =? 9) eqn:E2,
           (Snmp.bv c =? 10) eqn:E3, (Snmp.bv c =? 13) eqn:E4,
           (126 <? Snmp.bv c) eqn:E5, (32 <=? Snmp.bv c) eqn:E6,
           (Snmp.bv c <=? 126) eqn:E7, (Snmp.bv c <? 128) eqn:E8;
    simpl in *; try discriminate; try (now split); exfalso;
    repeat match goal with
           | H : (_ <? _) = true |- _ => apply Z.ltb_lt in H
           | H : (_ <? _) = false |- _ => apply Z.ltb_ge in H
           | H : (_ <=? _) = true |- _ => apply Z.leb_le in H
           | H : (_ <=? _) = false |- _ => apply Z.leb_gt in H
           | H : (_ =? _) = true |- _ => apply Z.eqb_eq in H
           | H : (_ =? _) = false |- _ => apply Z.eqb_neq in H
           end; lia.
Qed.

Lemma ascii_bytes_valid (b : list Byte.byte) :
  forallb (fun c => Snmp.bv c <? 128) b = true -> Snmp.isValidUTF8 b = true.
Proof.
  induction b as [|c b IH]; simpl; [reflexivity|].
  intros H. apply andb_true_iff in H as [Hc Hb]. rewrite Hc. now apply IH.
Qed.

Lemma printable_bytes_count (b : list Byte.byte) :
  forallb Snmp.printable b = true ->
  Snmp.printableCount b = Z.of_nat (length b).
Proof.
  unfold Snmp.printableCount. intros H. f_equal. f_equal.
  induction b as [|c b IH]; [reflexivity|].
  simpl in H. apply andb_true_iff in H as [Hc Hb].
  rewrite filter_cons_True by exact Hc. now rewrite IH.
Qed.

(** The last text test of [ParseValue] never decides: bytes that pass it
    have already passed the first one. *)
Lemma isLikelyASCII_is_text (b : list Byte.byte) :
  Snmp.isLikelyASCII b = true ->
  Snmp.isValidUTF8 b && Snmp.isLikelyText b = true.
Proof.
  destruct b as [|c b]; [discriminate|].
  unfold Snmp.isLikelyASCII, Snmp.isLikelyText. intros H.
  apply isLikelyASCII_printable in H as [Hp Ha].
  rewrite (ascii_bytes_valid _ Ha), (printable_bytes_count _ Hp).
  apply Z.leb_le. lia.
Qed.

(** [ParseValue] on octet strings, as C4 describes it: text first, then
    the six-byte hardware address, else the empty string. *)
Lemma ParseValue_octets (v : list Byte.byte) :
  Snmp.ParseValue (Snmp.Bytes v)
  = if Snmp.isValidUTF8 v && Snmp.isLikelyText v
    then Go.TrimRightNul (Snmp.string_of_bytes v)
    else if Nat.eqb (length v) 6 && negb (Snmp.isLikelyText v)
         then Snmp.formatMAC v
         else EmptyString.
Proof.
  unfold Snmp.ParseValue.
  destruct (Snmp.isValidUTF8 v && Snmp.isLikelyText v) eqn:Htext; [reflexivity|].
  destruct (Nat.eqb (length v) 6 && negb (Snmp.isLikelyText v)); [reflexivity|].
  destruct (Snmp.isLikelyASCII v) eqn:Hascii; [|reflexivity].
  apply isLikelyASCII_is_text in Hascii. congruence.
Qed.

Example ParseValue_examples :
  Snmp.ParseValue (Snmp.Bytes Examples.samsun) = "SAMSUN"
  /\ Snmp.ParseValue (Snmp.Bytes Examples.macBytes) = "30:cd:a7:c7:22:68"
  /\ Snmp.ParseValue (Snmp.Bytes [Byte.x00; Byte.x01; Byte.x02]) = EmptyString.
Proof. repeat split; vm_compute; reflexivity. Qed.

(** C4 at the failing input: the six bytes of SAMSUN are valid UTF-8 and
    all printable, and [parseValue] formats them as a hardware address
    where the exported [ParseValue] returns the text. *)
Theorem parseValue_six_text_bytes_as_mac :
  Snmp.isValidUTF8 Examples.samsun = true
  /\ Snmp.isLikelyText Examples.samsun = true
  /\ Snmp.parseValue (Snmp.Bytes Examples.samsun) = "53:41:4d:53:55:4e"
  /\ Snmp.ParseValue (Snmp.Bytes Examples.samsun) = "SAMSUN".
Proof. repeat split; vm_compute; reflexivity. Qed.

(** ** The brand detector (C10) *)

Lemma matchesPatterns_app (s : string) (p q : list string) :
  Detector.matchesPatterns s (p ++ q)%list
  = Detector.matchesPatterns s p || Detector.matchesPatterns s q.
Proof.
  induction p as [|x p IH]; simpl; [reflexivity|].
  destruct (Go.Contains s x); [reflexivity | exact IH].
Qed.

(** The counterexample to C10: the descriptor of a Sharp device contains
    the word sharp, none of the HP patterns, and is detected as Sharp. *)
Lemma DetectBrand_sharp_descriptor :
  Unicode.isASCII "Sharp MX-2640N" = true
  /\ Go.Contains (Unicode.ToLower Examples.kelvinTables "Sharp MX-2640N") "sharp" = true
  /\ Go.Contains "sharp" "hp" = false
  /\ Detector.DetectBrand Examples.kelvinTables "Sharp MX-2640N" = "Sharp".
Proof. repeat split; vm_compute; reflexivity. Qed.

(** C10, amended: for a descriptor whose lower-case form, as
    [strings.ToLower] returns it, contains sharp, [DetectBrand] returns
    Sharp when no pattern of the eight brands tried before Sharp occurs in
    that form, one of those eight brands otherwise, and HP exactly when an
    HP pattern occurs.  This holds whatever the case tables do with the
    runes outside ASCII. *)
Theorem DetectBrand_sharp (lowerRunes : string -> string) (sysDescr : string) :
  let descLower := Unicode.ToLower lowerRunes sysDescr in
  Go.Contains descLower "sharp" = true ->
  (Detector.matchesPatterns descLower Detector.beforeSharp = false ->
   Detector.DetectBrand lowerRunes sysDescr = "Sharp")
  /\ (Detector.matchesPatterns descLower Detector.beforeSharp = true ->
      In (Detector.DetectBrand lowerRunes sysDescr)
         ["HP"; "Xerox"; "Brother"; "Ricoh"; "Canon"; "KonicaMinolta"; "OKI";
          "Kyocera"])
  /\ (Detector.matchesPatterns descLower Detector.hpPatterns = true <->
      Detector.DetectBrand lowerRunes sysDescr = "HP").
Proof.
  intros descLower Hsharp.
  assert (Hs : Detector.matchesPatterns descLower Detector.sharpPatterns = true).
  { unfold Detector.sharpPatterns. cbn [Detector.matchesPatterns]. now rewrite Hsharp. }
  unfold Detector.beforeSharp, Detector.DetectBrand.
  fold descLower. rewrite !matchesPatterns_app.
  clearbody descLower. revert Hsharp Hs. generalize descLower. clear descLower.
  intros low _ Hs. rewrite Hs.
  destruct (Detector.matchesPatterns low Detector.hpPatterns);
  destruct (Detector.matchesPatterns low Detector.xeroxPatterns);
  destruct (Detector.matchesPatterns low Detector.brotherPatterns);
  destruct (Detector.matchesPatterns low Detector.ricohPatterns);
  destruct (Detector.matchesPatterns low Detector.canonPatterns);
  destruct (Detector.matchesPatterns low Detector.konicaPatterns);
  destruct (Detector.matchesPatterns low Detector.okiPatterns);
  destruct (Detector.matchesPatterns low Detector.kyoceraPatterns);
  cbn [orb]; (split; [|split; [|split]]);
    first [ discriminate | reflexivity | (intros _; cbn [In]; tauto)
          | (intros; reflexivity) | (intros; discriminate) ].
Qed.

Lemma DetectBrand_sharp_witness :
  Detector.DetectBrand Examples.kelvinTables "Sharp MX-2640N" = "Sharp"
  /\ Detector.DetectBrand Examples.kelvinTables "HP sharpener" = "HP"
  /\ In (Detector.DetectBrand Examples.kelvinTables Examples.kelvinSharp)
        ["HP"; "Xerox"; "Brother"; "Ricoh"; "Canon"; "KonicaMinolta"; "OKI";
         "Kyocera"].
Proof.
  split; [|split].
  - apply (DetectBrand_sharp Examples.kelvinTables "Sharp MX-2640N");
      vm_compute; reflexivity.
  - apply (DetectBrand_sharp Examples.kelvinTables "HP sharpener");
      vm_compute; reflexivity.
  - apply (DetectBrand_sharp Examples.kelvinTables Examples.kelvinSharp);
      vm_compute; reflexivity.
Defined.

(** A descriptor is read through the case tables: the Kelvin sign counts
    as the letter k of oki and of kyocera. *)
Lemma DetectBrand_reads_case_tables :
  Unicode.isASCII Examples.kelvinSharp = false
  /\ Detector.DetectBrand Examples.kelvinTables Examples.kelvinSharp = "OKI"
  /\ Detector.DetectBrand Examples.kelvinTables Examples.kelvinKyocera = "Kyocera"
  /\ Confidence.GetBrandConfidence Examples.kelvinTables Examples.kelvinKyocera
       "Kyocera" = (75 # 100)%Q.
Proof. repeat split; vm_compute; reflexivity. Qed.

(** ** The profile store (C8, C9) *)

Lemma saveToDisk_heap (jsonImage : Profile.Profile -> option Profile.Profile)
    (m : Profile.Manager) (p : Profile.Profile) :
  Profile.heap (fst (Profile.saveToDisk jsonImage m p)) = Profile.heap m
  /\ Profile.cache (fst (Profile.saveToDisk jsonImage m p)) = Profile.cache m.
Proof.
  unfold Profile.saveToDisk.
  destruct (jsonImage p); [destruct (Profile.writable m)|]; now split.
Qed.




(** C9: after [SaveProfile] of a valid profile, [GetOrDiscover] of its id
    returns the pointer that was saved, and the record behind it is the
    one that was saved; this holds whether or not the write to disk
    succeeded. *)
Theorem SaveProfile_then_GetOrDiscover
    (jsonImage : Profile.Profile -> option Profile.Profile)
    (m : Profile.Manager) (l : Profile.ptr) (p : Profile.Profile) :
  Profile.heap m !! l = Some p ->
  Profile.PrinterID p <> EmptyString ->
  let m1 := fst (Profile.SaveProfile jsonImage m (Some l)) in
  let m2 := fst (Profile.GetOrDiscover m1 (Profile.PrinterID p)) in
  snd (Profile.GetOrDiscover m1 (Profile.PrinterID p)) = Some l
  /\ Profile.heap m2 !! l = Some p.
Proof.
  intros Hheap Hid m1 m2. subst m2 m1.
  unfold Profile.SaveProfile. rewrite Hheap.
  apply String.eqb_neq in Hid. rewrite Hid.
  match goal with
  | |- context [Profile.saveToDisk jsonImage ?m' p] =>
      destruct (saveToDisk_heap jsonImage m' p) as [Hh Hc];
      set (m1 := fst (Profile.saveToDisk jsonImage m' p)) in *
  end.
  cbn [Profile.heap Profile.cache] in Hh, Hc.
  unfold Profile.GetOrDiscover. rewrite Hc, lookup_insert_eq.
  cbn [fst snd]. split; [reflexivity|]. now rewrite Hh.
Qed.

Lemma SaveProfile_then_GetOrDiscover_witness :
  snd (Profile.GetOrDiscover
         (fst (Profile.SaveProfile Examples.exactJSON Examples.emptyManager
                 (Some 1%positive)))
         "30cda7c72268") = Some 1%positive
  /\ Profile.heap
       (fst (Profile.GetOrDiscover
               (fst (Profile.SaveProfile Examples.exactJSON Examples.emptyManager
                       (Some 1%positive)))
               "30cda7c72268")) !! 1%positive
     = Some Examples.someProfile.
Proof.
  apply (SaveProfile_then_GetOrDiscover Examples.exactJSON Examples.emptyManager
           1%positive Examples.someProfile).
  - vm_compute. reflexivity.
  - vm_compute. discriminate.
Defined.

(** ** The supplies of an event (C7) *)

Lemma deduceSupplyStatus_bands (percentage : Z) :
  In (Telemetry.deduceSupplyStatus percentage) ["critical"; "low"; "ok"; "good"].
Proof.
  unfold Telemetry.deduceSupplyStatus.
  destruct (percentage <=? 10); [cbn; tauto|].
  destruct (percentage <=? 25); [cbn; tauto|].
  destruct (percentage <=? 75); cbn; tauto.
Qed.

Lemma deduceSupplyStatus_band_of (percentage : Z) :
  (percentage <= 10 /\ Telemetry.deduceSupplyStatus percentage = "critical")
  \/ (10 < percentage <= 25 /\ Telemetry.deduceSupplyStatus percentage = "low")
  \/ (25 < percentage <= 75 /\ Telemetry.deduceSupplyStatus percentage = "ok")
  \/ (75 < percentage /\ Telemetry.deduceSupplyStatus percentage = "good").
Proof.
  unfold Telemetry.deduceSupplyStatus.
  destruct (Z.leb_spec percentage 10); [left; split; [lia | reflexivity]|].
  destruct (Z.leb_spec percentage 25); [right; left; split; [lia | reflexivity]|].
  destruct (Z.leb_spec percentage 75);
    [right; right; left; split; [lia | reflexivity]|].
  right; right; right. split; [lia | reflexivity].
Qed.

Lemma calculatePercentage_bounds (percentage level maxLevel : Z) :
  0 <= percentage <= 100 ->
  level <= maxLevel ->
  level * 100 <= Go.int64_max ->
  0 <= Telemetry.calculatePercentage percentage level maxLevel <= 100.
Proof.
  intros Hp Hl Hmax. unfold Telemetry.calculatePercentage.
  destruct ((percentage =? 0) && (0 <? maxLevel) && (0 <? level)) eqn:Hc; [|exact Hp].
  apply andb_true_iff in Hc as [Hc Hlev]. apply andb_true_iff in Hc as [_ Hcap].
  apply Z.ltb_lt in Hlev, Hcap.
  rewrite wrap64_in_range by (unfold Go.int64_min, Go.int64_max in *; lia).
  rewrite Z.quot_div_nonneg by lia. split.
  - apply Z.div_pos; lia.
  - apply Z.div_le_upper_bound; lia.
Qed.

(** What an emitted entry was built from. *)
Lemma buildSupply_fields (scanFloat : string -> option Z) (supply : Dyn.Any)
    (S : Telemetry.SupplyInfo) :
  Telemetry.buildSupply scanFloat supply = Some S ->
  Telemetry.Level S
    = Telemetry.extractFieldAsInt scanFloat supply ["level"; "current"]
  /\ Telemetry.MaxLevel S
     = Telemetry.extractFieldAsInt scanFloat supply ["maxLevel"; "max"]
  /\ Telemetry.Percentage S
     = Telemetry.calculatePercentage
         (Telemetry.extractFieldAsInt scanFloat supply ["percentage"; "percent"])
         (Telemetry.extractFieldAsInt scanFloat supply ["level"; "current"])
         (Telemetry.extractFieldAsInt scanFloat supply ["maxLevel"; "max"])
  /\ Telemetry.Status S = Telemetry.deduceSupplyStatus (Telemetry.Percentage S).
Proof.
  unfold Telemetry.buildSupply. intros H.
  repeat match type of H with
         | (if ?c then _ else _) = Some _ => destruct c; [try discriminate H|]
         | (if ?c then _ else _) = Some _ => destruct c; [|try discriminate H]
         end; try discriminate H.
  all: injection H as <-; cbn; repeat split; reflexivity.
Qed.

(** The counterexample to C7: a supply whose percentage field reads 150
    is emitted with percentage 150. *)
Lemma buildSupplies_percentage_unclamped :
  Telemetry.buildSupplies Examples.noFloat Examples.overfullData
    = Some [Examples.overfullEntry]
  /\ Telemetry.Percentage Examples.overfullEntry = 150
  /\ ~ (0 <= Telemetry.Percentage Examples.overfullEntry <= 100).
Proof.
  split; [vm_compute; reflexivity|]. split; [reflexivity|].
  cbn. lia.
Qed.

(** C7, amended: every emitted supply has one of the four statuses, the
    band of its percentage: critical up to 10, low from 11 to 25, ok from
    26 to 75 and good above 75.  Its percentage is the percentage field of
    the collected entry when that is not zero, else level*100/maxLevel
    when both are positive, else zero; it is not clamped, and lies between
    0 and 100 when the percentage field does and the level does not exceed
    the capacity. *)
Theorem buildSupplies_status_and_percentage
    (scanFloat : string -> option Z) (data : Collector.PrinterData)
    (supplies : list Telemetry.SupplyInfo) (S : Telemetry.SupplyInfo) :
  Telemetry.buildSupplies scanFloat data = Some supplies ->
  In S supplies ->
  In (Telemetry.Status S) ["critical"; "low"; "ok"; "good"]
  /\ ((Telemetry.Percentage S <= 10 /\ Telemetry.Status S = "critical")
      \/ (10 < Telemetry.Percentage S <= 25 /\ Telemetry.Status S = "low")
      \/ (25 < Telemetry.Percentage S <= 75 /\ Telemetry.Status S = "ok")
      \/ (75 < Telemetry.Percentage S /\ Telemetry.Status S = "good"))
  /\ exists (key : string) (supply : Dyn.Any),
       Collector.Supplies data !! key = Some supply
       /\ Telemetry.Percentage S
          = Telemetry.calculatePercentage
              (Telemetry.extractFieldAsInt scanFloat supply ["percentage"; "percent"])
              (Telemetry.extractFieldAsInt scanFloat supply ["level"; "current"])
              (Telemetry.extractFieldAsInt scanFloat supply ["maxLevel"; "max"])
       /\ (Telemetry.extractFieldAsInt scanFloat supply ["percentage"; "percent"] <> 0 ->
           Telemetry.Percentage S
           = Telemetry.extractFieldAsInt scanFloat supply ["percentage"; "percent"])
       /\ (0 <= Telemetry.extractFieldAsInt scanFloat supply ["percentage"; "percent"]
             <= 100 ->
           Telemetry.extractFieldAsInt scanFloat supply ["level"; "current"]
             <= Telemetry.extractFieldAsInt scanFloat supply ["maxLevel"; "max"] ->
           Telemetry.extractFieldAsInt scanFloat supply ["level"; "current"] * 100
             <= Go.int64_max ->
           0 <= Telemetry.Percentage S <= 100).
Proof.
  intros Hbuild HS. unfold Telemetry.buildSupplies in Hbuild.
  destruct (Collector.is_empty (Collector.Supplies data)); [discriminate|].
  assert (Hin : S ∈ omap (fun entry : string * Dyn.Any =>
                            Telemetry.buildSupply scanFloat (snd entry))
                         (Dyn.range (Collector.Supplies data))).
  { apply list_elem_of_In.
    destruct (omap _ _) as [|s0 rest]; [discriminate|].
    injection Hbuild as <-. exact HS. }
  apply list_elem_of_omap in Hin as ([key supply] & Hentry & Hsupply).
  apply elem_of_map_to_list in Hentry. cbn [snd] in Hsupply.
  apply buildSupply_fields in Hsupply as (_ & _ & Hpct & Hstatus).
  split; [rewrite Hstatus; apply deduceSupplyStatus_bands|].
  split; [rewrite Hstatus; apply deduceSupplyStatus_band_of|].
  exists key, supply. split; [exact Hentry|]. split; [exact Hpct|]. split.
  - intros Hnz. rewrite Hpct. unfold Telemetry.calculatePercentage.
    apply Z.eqb_neq in Hnz. now rewrite Hnz.
  - intros Hp Hl Hmax. rewrite Hpct. now apply calculatePercentage_bounds.
Qed.

Lemma buildSupplies_status_and_percentage_witness :
  Telemetry.buildSupplies Examples.noFloat Examples.halfData
    = Some [Examples.halfEntry]
  /\ In (Telemetry.Status Examples.halfEntry) ["critical"; "low"; "ok"; "good"]
  /\ ((Telemetry.Percentage Examples.halfEntry <= 10
       /\ Telemetry.Status Examples.halfEntry = "critical")
      \/ (10 < Telemetry.Percentage Examples.halfEntry <= 25
          /\ Telemetry.Status Examples.halfEntry = "low")
      \/ (25 < Telemetry.Percentage Examples.halfEntry <= 75
          /\ Telemetry.Status Examples.halfEntry = "ok")
      \/ (75 < Telemetry.Percentage Examples.halfEntry
          /\ Telemetry.Status Examples.halfEntry = "good"))
  /\ Telemetry.Percentage Examples.halfEntry = 50
  /\ Telemetry.Status Examples.halfEntry = "ok".
Proof.
  assert (Hbuild : Telemetry.buildSupplies Examples.noFloat Examples.halfData
                   = Some [Examples.halfEntry]) by (vm_compute; reflexivity).
  split; [exact Hbuild|].
  destruct (buildSupplies_status_and_percentage Examples.noFloat Examples.halfData
              [Examples.halfEntry] Examples.halfEntry Hbuild)
    as (Hstatus & Hband & _); [now left|].
  split; [exact Hstatus|]. split; [exact Hband|]. split; reflexivity.
Defined.

(** ** Collection of counters (C5, C6) *)

Ltac fields :=
  cbn [Collector.with_Identification Collector.with_Status Collector.with_Supplies
       Collector.with_Counters Collector.with_NormalizedCounters
       Collector.with_MissingSections Collector.with_ResponseTime
       Collector.IP Collector.Brand Collector.Confidence Collector.Identification
       Collector.Status Collector.Supplies Collector.Counters Collector.NetworkInfo
       Collector.AdminInfo Collector.NormalizedCounters Collector.Errors
       Collector.MissingSections Collector.Timestamp Collector.ResponseTime
       Collector.ProbeAttempts] in *.

Lemma is_empty_true {A} (m : gmap string A) : Collector.is_empty m = true <-> m = ∅.
Proof.
  unfold Collector.is_empty. rewrite <- map_to_list_empty_iff.
  destruct (map_to_list m); split; intros H; congruence.
Qed.

Lemma ParseInt_empty : Go.ParseInt (Go.TrimSpace EmptyString) = None.
Proof. reflexivity. Qed.

(** One WALK result is stored, under its normalised OID and in both maps,
    exactly when its trimmed value parses as an integer within range. *)
Lemma walkEntry_cases (acc : gmap string Z * Dyn.Bucket) (res : Collector.WalkResult) :
  (exists v, Bounds.parsesAsCounter res v
             /\ Collector.walkEntry acc res
                = (<[Bounds.keyOf res := v]> (fst acc),
                   <[Bounds.keyOf res := Dyn.VInt64 v]> (snd acc)))
  \/ ((forall v, ~ Bounds.parsesAsCounter res v) /\ Collector.walkEntry acc res = acc).
Proof.
  destruct acc as [allCounters counters]. unfold Collector.walkEntry, Bounds.parsesAsCounter.
  destruct (String.eqb (Collector.Value res) EmptyString) eqn:Hempty.
  { right. apply String.eqb_eq in Hempty. rewrite Hempty, ParseInt_empty.
    split; [intros v [H _]; discriminate | reflexivity]. }
  destruct (String.eqb (Go.TrimSpace (Collector.Value res)) EmptyString) eqn:Htrim.
  { right. apply String.eqb_eq in Htrim. rewrite Htrim.
    split; [intros v [H _]; discriminate | reflexivity]. }
  destruct (Go.ParseInt (Go.TrimSpace (Collector.Value res))) as [parsed|].
  - destruct ((0 <? parsed) && (parsed <=? Collector.counterLimit)) eqn:Hrange.
    + left. exists parsed. apply andb_true_iff in Hrange as [H1 H2].
      apply Z.ltb_lt in H1. apply Z.leb_le in H2. now repeat split.
    + right. split; [|reflexivity]. intros v [Hv Hb]. injection Hv as ->.
      apply andb_false_iff in Hrange as [H|H];
        [apply Z.ltb_ge in H | apply Z.leb_gt in H]; lia.
  - right. split; [intros v [H _]; discriminate | reflexivity].
Qed.

(** The WALK loop as a whole, from any starting pair of maps. *)
Lemma walkLoop_spec (results : list Collector.WalkResult)
    (all0 : gmap string Z) (cs0 : Dyn.Bucket) :
  let final := foldl Collector.walkEntry (all0, cs0) results in
  (forall k n, fst final !! k = Some n ->
     all0 !! k = Some n \/ 0 < n <= Collector.counterLimit)
  /\ (forall k val, snd final !! k = Some val ->
        cs0 !! k = Some val
        \/ exists res v, res ∈ results /\ Bounds.keyOf res = k
                         /\ Bounds.parsesAsCounter res v /\ val = Dyn.VInt64 v)
  /\ (forall res v, res ∈ results -> Bounds.parsesAsCounter res v ->
        exists v', snd final !! Bounds.keyOf res = Some (Dyn.VInt64 v')
                   /\ 0 < v' <= Collector.counterLimit).
Proof.
  induction results as [|res results IH] using rev_ind; intros final.
  - subst final. cbn. split; [|split]; [now left | now left |].
    intros res v Hin. now apply elem_of_nil in Hin.
  - subst final. rewrite foldl_snoc.
    set (prev := foldl Collector.walkEntry (all0, cs0) results) in *.
    destruct IH as (IH1 & IH2 & IH3).
    destruct (walkEntry_cases prev res) as [(v & Hv & Hstep) | (Hno & Hstep)];
      rewrite Hstep; cbn [fst snd].
    + split; [|split].
      * intros k n Hk. destruct (decide (Bounds.keyOf res = k)) as [<-|Hne].
        -- rewrite lookup_insert_eq in Hk. injection Hk as <-. right. apply Hv.
        -- rewrite lookup_insert_ne in Hk by exact Hne. now apply IH1.
      * intros k val Hk. destruct (decide (Bounds.keyOf res = k)) as [<-|Hne].
        -- rewrite lookup_insert_eq in Hk. injection Hk as <-. right.
           exists res, v.
           split; [apply elem_of_app; right; apply list_elem_of_singleton; reflexivity|].
           split; [reflexivity|]. split; [exact Hv | reflexivity].
        -- rewrite lookup_insert_ne in Hk by exact Hne.
           destruct (IH2 k val Hk) as [H | (r & w & Hr & Hkey & Hw & Hval)];
             [now left|]. right. exists r, w.
           split; [apply elem_of_app; now left|]. split; [exact Hkey|].
           split; [exact Hw | exact Hval].
      * intros r w Hr Hw.
        destruct (decide (Bounds.keyOf res = Bounds.keyOf r)) as [Heq|Hne].
        -- rewrite <- Heq, lookup_insert_eq. exists v. split; [reflexivity | apply Hv].
        -- rewrite lookup_insert_ne by exact Hne.
           apply elem_of_app in Hr as [Hr|Hr]; [now apply (IH3 r w)|].
           apply list_elem_of_singleton in Hr. subst r. congruence.
    + split; [exact IH1|]. split.
      * intros k val Hk.
        destruct (IH2 k val Hk) as [H | (r & w & Hr & Hkey & Hw & Hval)];
          [now left|]. right. exists r, w.
        split; [apply elem_of_app; now left|]. split; [exact Hkey|].
        split; [exact Hw | exact Hval].
      * intros r w Hr Hw.
        apply elem_of_app in Hr as [Hr|Hr]; [now apply (IH3 r w)|].
        apply list_elem_of_singleton in Hr. subst r. exfalso. now apply (Hno w).
Qed.

Lemma allBounded_insert (b : Dyn.Bucket) (k : string) (n : Z) :
  Bounds.allBounded b -> 0 < n <= Collector.counterLimit ->
  Bounds.allBounded (<[k := Dyn.VInt64 n]> b).
Proof.
  intros Hb Hn k' val Hk'. destruct (decide (k = k')) as [<-|Hne].
  - rewrite lookup_insert_eq in Hk'. injection Hk' as <-. now exists n.
  - rewrite lookup_insert_ne in Hk' by exact Hne. now apply (Hb k').
Qed.

Lemma allBounded_empty : Bounds.allBounded ∅.
Proof. intros k val Hk. now rewrite lookup_empty in Hk. Qed.

Lemma allBounded_named (b : Dyn.Bucket) : Bounds.allBounded b -> Bounds.namedBounded b.
Proof. intros Hb k val _ Hk. now apply (Hb k). Qed.

Lemma namedBounded_insert_other (b : Dyn.Bucket) (k : string) (val : Dyn.Any) :
  Bounds.namedBounded b -> ~ In k Collector.counterNames ->
  Bounds.namedBounded (<[k := val]> b).
Proof.
  intros Hb Hk k' val' Hnamed Hk'. destruct (decide (k = k')) as [<-|Hne].
  - contradiction.
  - rewrite lookup_insert_ne in Hk' by exact Hne. now apply (Hb k').
Qed.

(** *** The exchange sort keeps the values it is given *)

Section SortKeeps.
Context {A : Type} (value : A -> Z) (P : A -> Prop).

Lemma exchange_Forall (a : list A) (i j : nat) :
  Forall P a -> Forall P (Collector.exchange value a i j).
Proof.
  intros Ha. unfold Collector.exchange.
  destruct (a !! i) as [x|] eqn:Hi; [|exact Ha].
  destruct (a !! j) as [y|] eqn:Hj; [|exact Ha].
  destruct (value x <? value y); [|exact Ha].
  pose proof (proj1 (Forall_lookup P a) Ha) as Hl.
  apply Forall_insert; [apply Forall_insert; [exact Ha | now apply (Hl j)]
                       | now apply (Hl i)].
Qed.

Lemma innerLoop_Forall (fuel i j : nat) (a : list A) :
  Forall P a -> Forall P (Collector.innerLoop value fuel i j a).
Proof.
  revert j a. induction fuel as [|fuel IH]; intros j a Ha;
    cbn [Collector.innerLoop]; [exact Ha|].
  destruct (j <? length a)%nat; [|exact Ha].
  apply IH. now apply exchange_Forall.
Qed.

Lemma outerLoop_Forall (fuel i : nat) (a : list A) :
  Forall P a -> Forall P (Collector.outerLoop value fuel i a).
Proof.
  revert i a. induction fuel as [|fuel IH]; intros i a Ha;
    cbn [Collector.outerLoop]; [exact Ha|].
  destruct (i <? length a)%nat; [|exact Ha].
  apply IH. now apply innerLoop_Forall.
Qed.

Lemma sortDescending_Forall (a : list A) :
  Forall P a -> Forall P (Collector.sortDescending value a).
Proof. apply outerLoop_Forall. Qed.
End SortKeeps.

(** *** The three mappings write values within range, and nothing but
        the normalised counters *)

Lemma maxEntry_fold_bounds (entries : list (string * Z)) :
  (forall e, e ∈ entries -> 0 < snd e <= Collector.counterLimit) ->
  Bounds.withinLimit
    (fst (fst (fst (foldl Collector.maxEntry (0, EmptyString, 0, EmptyString) entries))))
  /\ Bounds.withinLimit
       (snd (fst (foldl Collector.maxEntry (0, EmptyString, 0, EmptyString) entries))).
Proof.
  intros Hentries.
  apply (foldl_invariant
           (fun acc : Z * string * Z * string =>
              Bounds.withinLimit (fst (fst (fst acc)))
              /\ Bounds.withinLimit (snd (fst acc)))).
  - unfold Bounds.withinLimit, Collector.counterLimit. cbn. lia.
  - intros [[[maxVal maxOID] secondMaxVal] secondMaxOID] [oid val] [Hm Hs] Hin.
    apply list_elem_of_In in Hin. apply Hentries in Hin. cbn [fst snd] in *.
    unfold Collector.maxEntry, Bounds.withinLimit in *.
    destruct (maxVal <? val); [cbn [fst snd]; lia|].
    destruct ((secondMaxVal <? val) && negb (val =? maxVal)); cbn [fst snd]; lia.
Qed.

Lemma mapCountersFromWalk_frame (data : Collector.PrinterData)
    (allCounters : gmap string Z) :
  Collector.Status (Collector.mapCountersFromWalk data allCounters)
    = Collector.Status data
  /\ Collector.Counters (Collector.mapCountersFromWalk data allCounters)
     = Collector.Counters data
  /\ Collector.Brand (Collector.mapCountersFromWalk data allCounters)
     = Collector.Brand data.
Proof.
  unfold Collector.mapCountersFromWalk.
  destruct (foldl Collector.maxEntry _ _) as [[[maxVal maxOID] secondMaxVal] secondMaxOID].
  now repeat split.
Qed.

Lemma mapCountersFromWalk_bounded (data : Collector.PrinterData)
    (allCounters : gmap string Z) :
  (forall k n, allCounters !! k = Some n -> 0 < n <= Collector.counterLimit) ->
  Bounds.allBounded (Collector.NormalizedCounters data) ->
  Bounds.allBounded
    (Collector.NormalizedCounters (Collector.mapCountersFromWalk data allCounters)).
Proof.
  intros Hall Hnc. unfold Collector.mapCountersFromWalk.
  assert (Hentries : forall e, e ∈ Dyn.range allCounters ->
                               0 < snd e <= Collector.counterLimit).
  { intros [k n] He. apply elem_of_map_to_list in He. now apply (Hall k). }
  destruct (maxEntry_fold_bounds _ Hentries) as [Hmax Hsecond].
  destruct (foldl Collector.maxEntry _ _) as [[[maxVal maxOID] secondMaxVal] secondMaxOID].
  cbn [fst snd] in Hmax, Hsecond. unfold Bounds.withinLimit in *. fields.
  apply foldl_invariant.
  - destruct ((0 <? secondMaxVal) && negb (secondMaxVal =? maxVal)) eqn:Hs.
    + apply andb_true_iff in Hs as [Hs _]. apply Z.ltb_lt in Hs.
      apply allBounded_insert; [|lia].
      destruct (0 <? maxVal) eqn:Hm; [|exact Hnc].
      apply Z.ltb_lt in Hm. apply allBounded_insert; [exact Hnc | lia].
    + destruct (0 <? maxVal) eqn:Hm; [|exact Hnc].
      apply Z.ltb_lt in Hm. apply allBounded_insert; [exact Hnc | lia].
  - intros nc [oid val] Hb Hin. apply list_elem_of_In in Hin.
    apply Hentries in Hin. cbn [snd] in Hin.
    destruct ((val =? maxVal) || (val =? secondMaxVal)); [exact Hb|].
    destruct ((0 <? val) && (val <? 10000)); [|exact Hb].
    now apply allBounded_insert.
Qed.

Lemma collectCountersFromProfile_frame (data : Collector.PrinterData)
    (client : Collector.SNMPClient) (prof : Profile.Profile) :
  Collector.Status (Collector.collectCountersFromProfile data client prof)
    = Collector.Status data
  /\ Collector.Counters (Collector.collectCountersFromProfile data client prof)
     = Collector.Counters data
  /\ Collector.Brand (Collector.collectCountersFromProfile data client prof)
     = Collector.Brand data.
Proof.
  unfold Collector.collectCountersFromProfile.
  destruct (default [] (Profile.OIDs prof !! "counters")); [now repeat split|].
  destruct (Collector.GetMultiple client _); now repeat split.
Qed.

Lemma collectCountersFromProfile_bounded (data : Collector.PrinterData)
    (client : Collector.SNMPClient) (prof : Profile.Profile) :
  Bounds.allBounded (Collector.NormalizedCounters data) ->
  Bounds.allBounded
    (Collector.NormalizedCounters
       (Collector.collectCountersFromProfile data client prof)).
Proof.
  intros Hnc. unfold Collector.collectCountersFromProfile.
  destruct (default [] (Profile.OIDs prof !! "counters")) as [|o os]; [exact Hnc|].
  destruct (Collector.GetMultiple client _) as [results|]; [|exact Hnc]. fields.
  match goal with
  | |- context [Collector.sortDescending Collector.value ?vals] =>
      assert (Hsorted : Forall (fun cv => 0 < Collector.value cv
                                          <= Collector.counterLimit)
                               (Collector.sortDescending Collector.value vals))
  end.
  { apply sortDescending_Forall. apply Forall_forall. intros cv Hcv.
    apply list_elem_of_omap in Hcv as ([i oid] & _ & Hcv).
    destruct (results !! oid) as [val|]; [|discriminate].
    destruct (Go.ParseInt (Go.TrimSpace val)) as [intVal|]; [|discriminate].
    destruct ((0 <? intVal) && (intVal <=? Collector.counterLimit)) eqn:Hr;
      [|discriminate].
    destruct (Collector.isSuspiciousValue intVal); [discriminate|].
    injection Hcv as <-. cbn [Collector.value].
    apply andb_true_iff in Hr as [H1 H2].
    apply Z.ltb_lt in H1. apply Z.leb_le in H2. lia. }
  apply foldl_invariant; [exact Hnc|].
  intros nc [cname cv] Hb Hin. apply list_elem_of_In in Hin.
  apply elem_of_zip_r in Hin.
  apply allBounded_insert; [exact Hb|].
  exact (proj1 (Forall_forall _ _) Hsorted cv Hin).
Qed.

Lemma collectCountersVendorSpecific_frame (data : Collector.PrinterData)
    (client : Collector.SNMPClient) :
  Collector.Status (Collector.collectCountersVendorSpecific data client)
    = Collector.Status data
  /\ Collector.Counters (Collector.collectCountersVendorSpecific data client)
     = Collector.Counters data
  /\ Collector.Brand (Collector.collectCountersVendorSpecific data client)
     = Collector.Brand data.
Proof.
  unfold Collector.collectCountersVendorSpecific.
  destruct (Collector.vendorOIDsOf (Collector.Brand data)); [now repeat split|].
  destruct (Collector.GetMultiple client _); now repeat split.
Qed.

Lemma collectCountersVendorSpecific_bounded (data : Collector.PrinterData)
    (client : Collector.SNMPClient) :
  Bounds.allBounded (Collector.NormalizedCounters data) ->
  Bounds.allBounded
    (Collector.NormalizedCounters (Collector.collectCountersVendorSpecific data client)).
Proof.
  intros Hnc. unfold Collector.collectCountersVendorSpecific.
  destruct (Collector.vendorOIDsOf (Collector.Brand data)) as [|o os]; [exact Hnc|].
  destruct (Collector.GetMultiple client _) as [results|]; [|exact Hnc]. fields.
  match goal with
  | |- context [Collector.sortDescending Collector.value ?vals] =>
      assert (Hsorted : Forall (fun cv => 0 < Collector.value cv
                                          <= Collector.counterLimit)
                               (Collector.sortDescending Collector.value vals))
  end.
  { apply sortDescending_Forall. apply Forall_forall. intros cv Hcv.
    apply list_elem_of_omap in Hcv as ([i [cname oid]] & _ & Hcv).
    destruct (results !! oid) as [val|]; [|discriminate].
    destruct (String.eqb (Go.TrimSpace val) EmptyString
              || String.eqb (Go.TrimSpace val) "0"); [discriminate|].
    destruct (Go.ParseInt (Go.TrimSpace val)) as [intVal|]; [|discriminate].
    destruct (0 <? intVal) eqn:H1; [|discriminate].
    destruct (Collector.counterLimit <? intVal) eqn:H2; [discriminate|].
    injection Hcv as <-. cbn [Collector.value].
    apply Z.ltb_lt in H1. apply Z.ltb_ge in H2. lia. }
  apply foldl_invariant; [exact Hnc|].
  intros nc [i cv] Hb Hin. apply list_elem_of_In in Hin.
  apply elem_of_lookup_imap in Hin as (i' & cv' & Heq & Hcv).
  injection Heq as -> ->. apply list_elem_of_lookup_2 in Hcv.
  pose proof (proj1 (Forall_forall _ _) Hsorted cv' Hcv) as Hv.
  destruct i' as [|[|i']]; now apply allBounded_insert.
Qed.

Lemma mapCounters_frame (data : Collector.PrinterData) (client : Collector.SNMPClient)
    (prof : option Profile.Profile) :
  Collector.Status (Collector.mapCounters data client prof) = Collector.Status data
  /\ Collector.Counters (Collector.mapCounters data client prof)
     = snd (foldl Collector.walkEntry (∅, Collector.Counters data)
                  (Collector.walkCounters client))
  /\ Collector.Brand (Collector.mapCounters data client prof) = Collector.Brand data.
Proof.
  unfold Collector.mapCounters.
  destruct (foldl Collector.walkEntry _ _) as [allCounters counters]. cbn [snd].
  match goal with
  | |- context [if _ then Collector.collectCountersVendorSpecific ?d client else _] =>
      assert (Hd : Collector.Status d = Collector.Status data
                   /\ Collector.Counters d = counters
                   /\ Collector.Brand d = Collector.Brand data);
      [|destruct Hd as (H1 & H2 & H3);
        destruct (Collector.is_empty (Collector.NormalizedCounters d)
                  || Collector.total_is_nil (Collector.NormalizedCounters d));
        [destruct (collectCountersVendorSpecific_frame d client) as (F1 & F2 & F3);
         rewrite F1, F2, F3|]; now repeat split]
  end.
  destruct prof as [p|].
  - destruct (default [] (Profile.OIDs p !! "counters")).
    + destruct (mapCountersFromWalk_frame (Collector.with_Counters data counters)
                  allCounters) as (F1 & F2 & F3).
      rewrite F1, F2, F3. now repeat split.
    + destruct (collectCountersFromProfile_frame
                  (Collector.with_Counters data counters) client p) as (F1 & F2 & F3).
      rewrite F1, F2, F3. now repeat split.
  - destruct (mapCountersFromWalk_frame (Collector.with_Counters data counters)
                allCounters) as (F1 & F2 & F3).
    rewrite F1, F2, F3. now repeat split.
Qed.

Lemma mapCounters_bounded (data : Collector.PrinterData) (client : Collector.SNMPClient)
    (prof : option Profile.Profile) :
  Bounds.allBounded (Collector.NormalizedCounters data) ->
  Bounds.allBounded (Collector.NormalizedCounters (Collector.mapCounters data client prof)).
Proof.
  intros Hnc. unfold Collector.mapCounters.
  destruct (walkLoop_spec (Collector.walkCounters client) ∅ (Collector.Counters data))
    as (Hall & _ & _).
  destruct (foldl Collector.walkEntry _ _) as [allCounters counters]. cbn [fst] in Hall.
  assert (Hall' : forall k n, allCounters !! k = Some n ->
                              0 < n <= Collector.counterLimit).
  { intros k n Hk. destruct (Hall k n Hk) as [H|H]; [|exact H].
    now rewrite lookup_empty in H. }
  match goal with
  | |- context [if _ then Collector.collectCountersVendorSpecific ?d client else _] =>
      assert (Hd : Bounds.allBounded (Collector.NormalizedCounters d));
      [|destruct (Collector.is_empty (Collector.NormalizedCounters d)
                  || Collector.total_is_nil (Collector.NormalizedCounters d));
        [now apply collectCountersVendorSpecific_bounded | exact Hd]]
  end.
  destruct prof as [p|].
  - destruct (default [] (Profile.OIDs p !! "counters")).
    + now apply mapCountersFromWalk_bounded.
    + now apply collectCountersFromProfile_bounded.
  - now apply mapCountersFromWalk_bounded.
Qed.

Lemma pageCountFallback_frame (data : Collector.PrinterData) :
  Collector.Status (Collector.pageCountFallback data) = Collector.Status data
  /\ Collector.Counters (Collector.pageCountFallback data) = Collector.Counters data.
Proof.
  unfold Collector.pageCountFallback.
  match goal with |- context [if ?c then _ else _] => destruct c end; now split.
Qed.

Lemma pageCountFallback_bounded (data : Collector.PrinterData) :
  Bounds.allBounded (Collector.NormalizedCounters data) ->
  Collector.getPageCountFromStatus (Collector.Status data) <= Collector.counterLimit ->
  Bounds.allBounded (Collector.NormalizedCounters (Collector.pageCountFallback data)).
Proof.
  intros Hnc Hpc. unfold Collector.pageCountFallback.
  match goal with |- context [if ?c then _ else _] => destruct c eqn:Hc end;
    [|exact Hnc].
  apply andb_true_iff in Hc as [_ Hpos]. apply Z.ltb_lt in Hpos. fields.
  now apply allBounded_insert.
Qed.

(** The fallback itself: a positive page count replaces a total that is
    missing, nil or suspicious. *)
Lemma pageCountFallback_replaces (data : Collector.PrinterData) :
  (Collector.NormalizedCounters data !! "total_pages" = None
   \/ Collector.NormalizedCounters data !! "total_pages" = Some Dyn.VNil
   \/ exists total, Collector.NormalizedCounters data !! "total_pages" = Some total
                    /\ Collector.isSuspiciousValue (Collector.toInt64 total) = true) ->
  0 < Collector.getPageCountFromStatus (Collector.Status data) ->
  Collector.NormalizedCounters (Collector.pageCountFallback data) !! "total_pages"
  = Some (Dyn.VInt64 (Collector.getPageCountFromStatus (Collector.Status data))).
Proof.
  intros Htotal Hpc. unfold Collector.pageCountFallback.
  apply Z.ltb_lt in Hpc. rewrite Hpc, andb_true_r.
  match goal with
  | |- context [if ?c then _ else _] => assert (Huse : c = true)
  end.
  { destruct Htotal as [H | [H | (total & H & Hs)]]; rewrite H; [reflexivity..|].
    destruct total as [[]|]; try exact Hs. reflexivity. }
  rewrite Huse. fields. apply lookup_insert_eq.
Qed.

Lemma collectCounters_frame (data : Collector.PrinterData) (client : Collector.SNMPClient)
    (prof : option Profile.Profile) :
  Collector.NormalizedCounters (Collector.collectCounters data client prof)
    = Collector.NormalizedCounters
        (Collector.pageCountFallback (Collector.mapCounters data client prof))
  /\ Collector.Counters (Collector.collectCounters data client prof)
     = snd (foldl Collector.walkEntry (∅, Collector.Counters data)
                  (Collector.walkCounters client))
  /\ Collector.Status (Collector.collectCounters data client prof)
     = Collector.Status data.
Proof.
  unfold Collector.collectCounters.
  destruct (mapCounters_frame data client prof) as (M1 & M2 & _).
  destruct (pageCountFallback_frame (Collector.mapCounters data client prof))
    as (P1 & P2).
  destruct (Collector.is_empty _); fields; rewrite P1, P2, M1, M2; now repeat split.
Qed.

(** *** collectStatus writes no page count *)

Lemma statusEntry_no_page_count (status : Dyn.Bucket) (entry : string * string) :
  status !! "page_count" = None ->
  Collector.statusEntry status entry !! "page_count" = None.
Proof.
  intros Hs. destruct entry as [oid val]. unfold Collector.statusEntry.
  repeat match goal with
         | |- context [if ?c then _ else _] => destruct c
         | |- context [match Go.ParseInt ?x with _ => _ end] =>
             destruct (Go.ParseInt x)
         end;
    rewrite ?lookup_insert_ne by discriminate; exact Hs.
Qed.

Lemma collectStatus_frame (data : Collector.PrinterData) (client : Collector.SNMPClient) :
  (Collector.Status data !! "page_count" = None ->
   Collector.Status (Collector.collectStatus data client) !! "page_count" = None)
  /\ Collector.Counters (Collector.collectStatus data client) = Collector.Counters data
  /\ Collector.NormalizedCounters (Collector.collectStatus data client)
     = Collector.NormalizedCounters data.
Proof.
  unfold Collector.collectStatus.
  destruct (Collector.GetMultiple client Collector.statusOIDs) as [results|];
    [|now repeat split].
  assert (Hfold : Collector.Status data !! "page_count" = None ->
                  foldl Collector.statusEntry (Collector.Status data)
                        (Dyn.range results) !! "page_count" = None).
  { intros Hs. apply foldl_invariant; [exact Hs|].
    intros st e Hst _. now apply statusEntry_no_page_count. }
  destruct (Collector.has_key _ "state"); fields; (split; [|now split]).
  - exact Hfold.
  - intros Hs. rewrite lookup_insert_ne by discriminate. now apply Hfold.
Qed.

(** *** The later steps leave the six named counters alone *)

Lemma group_key_not_named (groupName rest : string) :
  In groupName ["counters"; "supplies"; "status"] ->
  ~ In (groupName ++ "_" ++ rest) Collector.counterNames.
Proof.
  intros Hg Hk. cbn [In] in Hg.
  destruct Hg as [<- | [<- | [<- | []]]]; cbn [String.append] in Hk;
    unfold Collector.counterNames in Hk; cbn [In] in Hk;
    repeat (destruct Hk as [Hk|Hk]; [discriminate Hk|]); exact Hk.
Qed.

Lemma discoverEntry_keeps (groupName : string) (data : Collector.PrinterData)
    (res : Collector.WalkResult) :
  In groupName ["counters"; "supplies"; "status"] ->
  Collector.NormalizedCounters (Collector.discoverEntry groupName data res)
    = Collector.NormalizedCounters data
  /\ (Bounds.namedBounded (Collector.Counters data) ->
      Bounds.namedBounded (Collector.Counters (Collector.discoverEntry groupName data res))).
Proof.
  intros Hg. unfold Collector.discoverEntry.
  repeat match goal with
         | |- context [if ?c then _ else _] => destruct c
         end; fields; (split; [reflexivity|]); try (intros H; exact H).
  intros H. apply namedBounded_insert_other; [exact H|].
  now apply group_key_not_named.
Qed.

Lemma discoverAdditionalData_keeps (data : Collector.PrinterData)
    (client : Collector.SNMPClient) :
  Collector.NormalizedCounters (Collector.discoverAdditionalData data client)
    = Collector.NormalizedCounters data
  /\ (Bounds.namedBounded (Collector.Counters data) ->
      Bounds.namedBounded (Collector.Counters (Collector.discoverAdditionalData data client))).
Proof.
  unfold Collector.discoverAdditionalData.
  apply (foldl_invariant
           (fun d => Collector.NormalizedCounters d = Collector.NormalizedCounters data
                     /\ (Bounds.namedBounded (Collector.Counters data) ->
                         Bounds.namedBounded (Collector.Counters d)))).
  - now split.
  - intros d [groupName basOID] [Hnc Hcs] Hin.
    assert (Hg : In groupName ["counters"; "supplies"; "status"]).
    { unfold Collector.oidsToWalk in Hin. cbn [In] in Hin.
      destruct Hin as [H | [H | [H | []]]]; injection H as <- _; cbn; tauto. }
    destruct (Collector.Walk client basOID) as [results|]; [|now split].
    apply (foldl_invariant
             (fun d' => Collector.NormalizedCounters d' = Collector.NormalizedCounters data
                        /\ (Bounds.namedBounded (Collector.Counters data) ->
                            Bounds.namedBounded (Collector.Counters d')))).
    + now split.
    + intros d' res [Hnc' Hcs'] _.
      destruct (discoverEntry_keeps groupName d' res Hg) as [E1 E2].
      split; [now rewrite E1 | intros H; apply E2, Hcs', H].
Qed.

Lemma promoteEntry_keeps (printOther : Dyn.Any -> string)
    (data : Collector.PrinterData) (entry : string * string) :
  ~ In (snd entry) Collector.counterNames ->
  Collector.NormalizedCounters (Collector.promoteEntry printOther data entry)
    = Collector.NormalizedCounters data
  /\ (Bounds.namedBounded (Collector.Counters data) ->
      Bounds.namedBounded
        (Collector.Counters (Collector.promoteEntry printOther data entry))).
Proof.
  intros Hname. destruct entry as [oid counterName]. unfold Collector.promoteEntry.
  destruct (Collector.Supplies data !! oid) as [val|]; [|now split].
  match goal with |- context [if ?c then _ else _] => destruct c end;
    fields; [|now split].
  split; [reflexivity|]. intros H. now apply namedBounded_insert_other.
Qed.

Lemma promoted_names_not_named (entry : string * string) :
  In entry (Collector.xeroxPageCounterOIDs ++ Collector.samsungPageCounterOIDs)%list ->
  ~ In (snd entry) Collector.counterNames.
Proof.
  intros Hin Hk. unfold Collector.xeroxPageCounterOIDs, Collector.samsungPageCounterOIDs in Hin.
  cbn [app In] in Hin.
  repeat (destruct Hin as [<-|Hin];
          [cbn [snd] in Hk; unfold Collector.counterNames in Hk; cbn [In] in Hk;
           repeat (destruct Hk as [Hk|Hk]; [discriminate Hk|]); exact Hk|]).
  exact Hin.
Qed.

Lemma extractPageCountersFromSupplies_keeps (printOther : Dyn.Any -> string)
    (data : Collector.PrinterData) :
  Collector.NormalizedCounters (Collector.extractPageCountersFromSupplies printOther data)
    = Collector.NormalizedCounters data
  /\ (Bounds.namedBounded (Collector.Counters data) ->
      Bounds.namedBounded
        (Collector.Counters (Collector.extractPageCountersFromSupplies printOther data))).
Proof.
  unfold Collector.extractPageCountersFromSupplies. rewrite <- foldl_app.
  apply (foldl_invariant
           (fun d => Collector.NormalizedCounters d = Collector.NormalizedCounters data
                     /\ (Bounds.namedBounded (Collector.Counters data) ->
                         Bounds.namedBounded (Collector.Counters d)))).
  - now split.
  - intros d entry [Hnc Hcs] Hin.
    destruct (promoteEntry_keeps printOther d entry (promoted_names_not_named _ Hin))
      as [E1 E2].
    split; [now rewrite E1 | intros H; apply E2, Hcs, H].
Qed.

Lemma displayNameOf_listed (key displayName : string) :
  Collector.displayNameOf key = Some displayName ->
  In displayName (snd <$> Collector.displayNames).
Proof.
  unfold Collector.displayNameOf. intros H.
  destruct (List.find _ Collector.displayNames) as [[k d]|] eqn:Hfind; [|discriminate].
  injection H as <-. apply List.find_some in Hfind as [Hin _].
  apply (in_map snd) in Hin. exact Hin.
Qed.

Lemma display_names_not_named (k : string) :
  In k Collector.counterNames -> ~ In k (snd <$> Collector.displayNames).
Proof.
  unfold Collector.counterNames. cbn [In]. intros Hk Hd.
  repeat (destruct Hk as [<-|Hk];
          [cbn in Hd; repeat (destruct Hd as [Hd|Hd]; [discriminate Hd|]); exact Hd|]).
  exact Hk.
Qed.

Lemma normalizeCounters_named (printOther : Dyn.Any -> string) (counters : Dyn.Bucket) :
  Bounds.namedBounded (Collector.normalizeCounters printOther counters).
Proof.
  assert (Hkeys : forall k val,
            Collector.normalizeCounters printOther counters !! k = Some val ->
            In k (snd <$> Collector.displayNames)).
  { unfold Collector.normalizeCounters.
    apply (foldl_invariant
             (fun nm : Dyn.Bucket => forall k val, nm !! k = Some val ->
                                     In k (snd <$> Collector.displayNames))).
    - intros k val Hk. now rewrite lookup_empty in Hk.
    - intros nm [key val] Hnm _.
      destruct (Go.HasPrefix _ "-" || String.eqb _ "0"); [exact Hnm|].
      destruct (Collector.displayNameOf key) as [displayName|] eqn:Hdn; [|exact Hnm].
      destruct (0 <=? Collector.parseCounter _); [|exact Hnm].
      intros k v Hk. destruct (decide (displayName = k)) as [<-|Hne].
      + now apply (displayNameOf_listed key).
      + rewrite lookup_insert_ne in Hk by exact Hne. now apply (Hnm k v). }
  intros k val Hnamed Hk. exfalso.
  now apply (display_names_not_named k Hnamed), (Hkeys k val).
Qed.

Lemma finishCollection_named (printOther : Dyn.Any -> string)
    (data : Collector.PrinterData) (client : Collector.SNMPClient) (elapsed : Z) :
  Bounds.namedBounded (Collector.NormalizedCounters data) ->
  Bounds.namedBounded (Collector.Counters data) ->
  Bounds.namedBounded
    (Collector.NormalizedCounters (Collector.finishCollection printOther data client elapsed))
  /\ Bounds.namedBounded
       (Collector.Counters (Collector.finishCollection printOther data client elapsed)).
Proof.
  intros Hnc Hcs. unfold Collector.finishCollection.
  destruct (discoverAdditionalData_keeps data client) as [D1 D2].
  set (d1 := Collector.discoverAdditionalData data client) in *.
  destruct (extractPageCountersFromSupplies_keeps printOther d1) as [E1 E2].
  set (d2 := Collector.extractPageCountersFromSupplies printOther d1) in *.
  assert (Hn : Bounds.namedBounded
                 (Collector.NormalizedCounters (Collector.normalizeData printOther d2))
               /\ Bounds.namedBounded
                    (Collector.Counters (Collector.normalizeData printOther d2))).
  { unfold Collector.normalizeData.
    destruct (Collector.is_empty (Collector.NormalizedCounters d2)); fields.
    - split; [apply normalizeCounters_named | now apply E2, D2].
    - split; [now rewrite E1, D1 | now apply E2, D2]. }
  set (d3 := Collector.normalizeData printOther d2) in *.
  repeat match goal with
         | |- context [if ?c then _ else _] => destruct c
         end; fields; exact Hn.
Qed.

Lemma finishCollection_keeps_total (printOther : Dyn.Any -> string)
    (data : Collector.PrinterData) (client : Collector.SNMPClient) (elapsed : Z)
    (total : Dyn.Any) :
  Collector.NormalizedCounters data !! "total_pages" = Some total ->
  Collector.NormalizedCounters (Collector.finishCollection printOther data client elapsed)
    !! "total_pages" = Some total.
Proof.
  intros Ht. unfold Collector.finishCollection.
  destruct (discoverAdditionalData_keeps data client) as [D1 _].
  set (d1 := Collector.discoverAdditionalData data client) in *.
  destruct (extractPageCountersFromSupplies_keeps printOther d1) as [E1 _].
  set (d2 := Collector.extractPageCountersFromSupplies printOther d1) in *.
  assert (Hn : Collector.NormalizedCounters (Collector.normalizeData printOther d2)
               = Collector.NormalizedCounters data).
  { unfold Collector.normalizeData.
    destruct (Collector.is_empty (Collector.NormalizedCounters d2)) eqn:Hempty.
    - apply is_empty_true in Hempty. rewrite E1, D1 in Hempty.
      rewrite Hempty, lookup_empty in Ht. discriminate.
    - now rewrite E1, D1. }
  set (d3 := Collector.normalizeData printOther d2) in *.
  repeat match goal with
         | |- context [if ?c then _ else _] => destruct c
         end; fields; now rewrite Hn.
Qed.

(** *** What an event reads *)

Lemma extractCounter_named (b : Dyn.Bucket) (k : string) :
  Bounds.namedBounded b -> In k Collector.counterNames ->
  0 <= Telemetry.extractCounter b [k] <= Collector.counterLimit.
Proof.
  intros Hb Hk. cbn [Telemetry.extractCounter].
  destruct (b !! k) as [val|] eqn:Hlook.
  - destruct (Hb k val Hk Hlook) as (n & -> & Hn). cbn. lia.
  - unfold Collector.counterLimit. lia.
Qed.

Lemma buildCounters_bounds (data : Collector.PrinterData)
    (delta : option State.CountersDiff) (resetDetected : bool)
    (snapshot : State.CountersSnapshot) :
  Bounds.namedBounded (Collector.NormalizedCounters data) ->
  Bounds.namedBounded (Collector.Counters data) ->
  Telemetry.buildCounters data delta resetDetected = Some snapshot ->
  let absolute := State.Absolute snapshot in
  0 <= State.TotalPages absolute <= Collector.counterLimit
  /\ 0 <= State.MonoPages absolute <= Collector.counterLimit
  /\ 0 <= State.ColorPages absolute <= Collector.counterLimit
  /\ 0 <= State.ScanPages absolute <= Collector.counterLimit
  /\ 0 <= State.CopyPages absolute <= Collector.counterLimit
  /\ 0 <= State.FaxPages absolute <= Collector.counterLimit.
Proof.
  intros Hnc Hcs. unfold Telemetry.buildCounters.
  set (countersToUse := if Collector.is_empty (Collector.NormalizedCounters data)
                        then Collector.Counters data
                        else Collector.NormalizedCounters data).
  assert (Huse : Bounds.namedBounded countersToUse)
    by (subst countersToUse; destruct (Collector.is_empty _); assumption).
  destruct (Collector.is_empty countersToUse); [discriminate|].
  intros H. injection H as <-. cbn [State.Absolute State.TotalPages State.MonoPages
    State.ColorPages State.ScanPages State.CopyPages State.FaxPages].
  repeat split; apply extractCounter_named; try exact Huse;
    unfold Collector.counterNames; cbn [In]; tauto.
Qed.

Lemma isSuspiciousValue_power_of_two (k : Z) :
  0 <= k -> 1000 < 2 ^ k -> Collector.isSuspiciousValue (2 ^ k) = true.
Proof.
  intros Hk Hbig. unfold Collector.isSuspiciousValue.
  destruct (existsb (Z.eqb (2 ^ k)) Collector.suspiciousValues); [reflexivity|].
  apply Z.ltb_lt in Hbig. rewrite Hbig.
  replace (2 ^ k - 1) with (Z.ones k) by (rewrite Z.ones_equiv; lia).
  rewrite Z.land_ones by exact Hk. rewrite Z.mod_same by lia. reflexivity.
Qed.

(** C6: the sentinel table holds INT32_MAX, UINT32_MAX, the three values
    seen on a Samsung device and every power of two above 1000; and when
    the mapped total_pages is missing, nil or in that table while the
    status section yields a positive page_count, [collectCounters] leaves
    that page_count as total_pages, and so does the rest of the
    collection. *)
Theorem collectCounters_page_count_fallback
    (printOther : Dyn.Any -> string) (data : Collector.PrinterData)
    (client : Collector.SNMPClient) (prof : option Profile.Profile) (elapsed : Z) :
  let mapped := Collector.NormalizedCounters (Collector.mapCounters data client prof) in
  let pageCount := Collector.getPageCountFromStatus (Collector.Status data) in
  (mapped !! "total_pages" = None
   \/ mapped !! "total_pages" = Some Dyn.VNil
   \/ exists total, mapped !! "total_pages" = Some total
                    /\ Collector.isSuspiciousValue (Collector.toInt64 total) = true) ->
  0 < pageCount ->
  Collector.NormalizedCounters (Collector.collectCounters data client prof)
    !! "total_pages" = Some (Dyn.VInt64 pageCount)
  /\ Collector.NormalizedCounters
       (Collector.finishCollection printOther
          (Collector.collectCounters data client prof) client elapsed)
       !! "total_pages" = Some (Dyn.VInt64 pageCount)
  /\ (forall v, In v [2147483647; 4294967295; 27327487; 18935871; 2002943] ->
        Collector.isSuspiciousValue v = true)
  /\ (forall k, 0 <= k -> 1000 < 2 ^ k -> Collector.isSuspiciousValue (2 ^ k) = true).
Proof.
  intros mapped pageCount Htotal Hpc.
  destruct (collectCounters_frame data client prof) as (Hnc & _ & _).
  destruct (mapCounters_frame data client prof) as (Hst & _ & _).
  assert (Hfinal : Collector.NormalizedCounters (Collector.collectCounters data client prof)
                   !! "total_pages" = Some (Dyn.VInt64 pageCount)).
  { rewrite Hnc. subst pageCount. rewrite <- Hst.
    apply pageCountFallback_replaces; [exact Htotal | now rewrite Hst]. }
  split; [exact Hfinal|]. split; [now apply finishCollection_keeps_total|]. split.
  - intros v Hv. cbn [In] in Hv.
    destruct Hv as [<- | [<- | [<- | [<- | [<- | []]]]]]; reflexivity.
  - exact isSuspiciousValue_power_of_two.
Qed.

Lemma collectCounters_page_count_fallback_witness :
  Collector.NormalizedCounters
    (Collector.mapCounters Examples.samsungData Examples.samsungClient None)
    !! "total_pages" = Some (Dyn.VInt64 27327487)
  /\ Collector.NormalizedCounters
       (Collector.collectCounters Examples.samsungData Examples.samsungClient None)
       !! "total_pages" = Some (Dyn.VInt64 4180).
Proof.
  assert (Hmapped : Collector.NormalizedCounters
                      (Collector.mapCounters Examples.samsungData
                         Examples.samsungClient None)
                      !! "total_pages" = Some (Dyn.VInt64 27327487))
    by (vm_compute; reflexivity).
  split; [exact Hmapped|].
  destruct (collectCounters_page_count_fallback Examples.printQuestion
              Examples.samsungData Examples.samsungClient None 0) as (H & _).
  - right. right. exists (Dyn.VInt64 27327487). split; [exact Hmapped | reflexivity].
  - vm_compute. reflexivity.
  - rewrite H. vm_compute. reflexivity.
Defined.

(** The trimming of the loop is that of [strings.TrimSpace]: a counter
    padded with a no-break space is stored. *)
Lemma collectCounters_trims_no_break_space :
  Go.ParseInt (Go.TrimSpace (String.append Examples.nbsp "12345678")) = Some 12345678
  /\ Collector.Counters
       (Collector.collectCounters Examples.blankData Examples.paddingClient None)
       !! "1.3.6.1.2.1.43.10.2.1.4.1.1" = Some (Dyn.VInt64 12345678).
Proof. split; vm_compute; reflexivity. Qed.

(** C5: in the WALK loop of [collectCounters] a value is stored in the
    counters bucket if and only if, trimmed, it parses as an integer [v]
    with [0 < v <= 3000000000]: every entry the loop adds comes from such
    a result, and every such result has its OID stored with a value in
    that range.  And in the event built from a collected device every
    field of [counters.absolute] lies between 0 and 3000000000. *)
Theorem collectCounters_filter_and_absolute_bounds :
  (forall (data : Collector.PrinterData) (client : Collector.SNMPClient)
          (prof : option Profile.Profile),
     let stored := Collector.Counters (Collector.collectCounters data client prof) in
     (forall k val, stored !! k = Some val ->
        Collector.Counters data !! k = Some val
        \/ exists res v, res ∈ Collector.walkCounters client
                         /\ Bounds.keyOf res = k
                         /\ Go.ParseInt (Go.TrimSpace (Collector.Value res)) = Some v
                         /\ 0 < v <= 3000000000
                         /\ val = Dyn.VInt64 v)
     /\ (forall res v, res ∈ Collector.walkCounters client ->
           Go.ParseInt (Go.TrimSpace (Collector.Value res)) = Some v ->
           0 < v <= 3000000000 ->
           exists v', stored !! Bounds.keyOf res = Some (Dyn.VInt64 v')
                      /\ 0 < v' <= 3000000000))
  /\ (forall (printOther : Dyn.Any -> string) (client : Collector.SNMPClient)
             (devInfo : Collector.DeviceInfo) (prof : option Profile.Profile)
             (now elapsed : Z) (identification networkInfo consumibles : Dyn.Bucket)
             (errors missing : list string) (delta : option State.CountersDiff)
             (resetDetected : bool) (snapshot : State.CountersSnapshot),
        Telemetry.buildCounters
          (Collector.collectFromDevice printOther client devInfo prof now elapsed
             identification networkInfo consumibles errors missing)
          delta resetDetected = Some snapshot ->
        let absolute := State.Absolute snapshot in
        0 <= State.TotalPages absolute <= 3000000000
        /\ 0 <= State.MonoPages absolute <= 3000000000
        /\ 0 <= State.ColorPages absolute <= 3000000000
        /\ 0 <= State.ScanPages absolute <= 3000000000
        /\ 0 <= State.CopyPages absolute <= 3000000000
        /\ 0 <= State.FaxPages absolute <= 3000000000).
Proof.
  split.
  - intros data client prof stored. subst stored.
    destruct (collectCounters_frame data client prof) as (_ & Hcs & _). rewrite Hcs.
    destruct (walkLoop_spec (Collector.walkCounters client) ∅ (Collector.Counters data))
      as (_ & Hfrom & Hto).
    split.
    + intros k val Hk.
      destruct (Hfrom k val Hk) as [H | (res & v & Hres & Hkey & [Hparse Hrange] & Hval)];
        [now left|].
      right. exists res, v. now repeat split.
    + intros res v Hres Hparse Hrange. apply (Hto res v Hres). now split.
  - intros printOther client devInfo prof now elapsed identification networkInfo
           consumibles errors missing delta resetDetected snapshot.
    unfold Collector.collectFromDevice.
    match goal with
    | |- context [Collector.collectStatus ?d0 client] => set (data0 := d0)
    end.
    destruct (collectStatus_frame data0 client) as (S1 & S2 & S3).
    set (data1 := Collector.collectStatus data0 client) in *.
    match goal with
    | |- context [Collector.collectCounters ?d client prof] => set (data2 := d)
    end.
    destruct (collectCounters_frame data2 client prof) as (C1 & C2 & C3).
    destruct (mapCounters_frame data2 client prof) as (M1 & _ & _).
    set (data3 := Collector.collectCounters data2 client prof) in *.
    assert (Hnc : Bounds.allBounded (Collector.NormalizedCounters data3)).
    { rewrite C1. apply pageCountFallback_bounded.
      - apply mapCounters_bounded. subst data2. fields. rewrite S3.
        subst data0. fields. apply allBounded_empty.
      - rewrite M1. subst data2. fields. unfold Collector.getPageCountFromStatus.
        rewrite S1 by (subst data0; fields; apply lookup_empty).
        unfold Collector.counterLimit. lia. }
    assert (Hcs : Bounds.allBounded (Collector.Counters data3)).
    { rewrite C2. subst data2. fields. rewrite S2. subst data0. fields.
      destruct (walkLoop_spec (Collector.walkCounters client) ∅ ∅) as (_ & Hfrom & _).
      intros k val Hk.
      destruct (Hfrom k val Hk) as [H | (res & v & _ & _ & [_ Hrange] & ->)];
        [now rewrite lookup_empty in H|].
      now exists v. }
    destruct (finishCollection_named printOther data3 client elapsed
                (allBounded_named _ Hnc) (allBounded_named _ Hcs)) as [F1 F2].
    intros Hbuild.
    exact (buildCounters_bounds _ delta resetDetected snapshot F1 F2 Hbuild).
Qed.

Lemma collectCounters_filter_and_absolute_bounds_witness :
  Telemetry.buildCounters
    (Collector.collectFromDevice Examples.printQuestion Examples.samsungClient
       Examples.samsungDevice None 1700000000 5 ∅ ∅ ∅ [] [])
    None false
  = Some Examples.samsungSnapshot
  /\ 0 <= State.TotalPages (State.Absolute Examples.samsungSnapshot) <= 3000000000
  /\ 0 <= State.FaxPages (State.Absolute Examples.samsungSnapshot) <= 3000000000.
Proof.
  assert (Hbuild : Telemetry.buildCounters
                     (Collector.collectFromDevice Examples.printQuestion
                        Examples.samsungClient Examples.samsungDevice None
                        1700000000 5 ∅ ∅ ∅ [] [])
                     None false
                   = Some Examples.samsungSnapshot)
    by (vm_compute; reflexivity).
  split; [exact Hbuild|].
  destruct collectCounters_filter_and_absolute_bounds as [_ Hbounds].
  destruct (Hbounds _ _ _ _ _ _ _ _ _ _ _ _ _ _ Hbuild) as (Ht & _ & _ & _ & _ & Hf).
  split; [exact Ht | exact Hf].
Defined.

(** ** Strings as lists of bytes *)

Lemma chars_app (s t : string) :
  Go.chars (String.append s t) = (Go.chars s ++ Go.chars t)%list.
Proof. induction s as [|c s IH]; simpl; [reflexivity | now rewrite <- IH]. Qed.

Lemma str_chars (s : string) : Go.str (Go.chars s) = s.
Proof. apply string_of_list_ascii_of_string. Qed.

Lemma chars_str (l : list ascii) : Go.chars (Go.str l) = l.
Proof. apply list_ascii_of_string_of_list_ascii. Qed.

Lemma chars_inj (s t : string) : Go.chars s = Go.chars t -> s = t.
Proof. intros H. rewrite <- (str_chars s), <- (str_chars t). now rewrite H. Qed.

Lemma append_inj_r (a b c : string) :
  String.append a c = String.append b c -> a = b.
Proof.
  intros H. apply chars_inj. apply (f_equal Go.chars) in H.
  rewrite !chars_app in H. now apply app_inv_tail in H.
Qed.

Lemma getStateFilename_inj (sm : State.StateManager) (ip ip' : string) :
  State.getStateFilename sm ip = State.getStateFilename sm ip' -> ip = ip'.
Proof.
  unfold State.getStateFilename. intros H.
  apply String.app_inj in H. apply String.app_inj in H.
  now apply append_inj_r in H.
Qed.

(** ** The state store across polls *)

(** X1. What a successful [SaveState] writes for a printer is what
    [LoadState] reads back for it, whatever the file held before; and
    whether the write succeeds or fails, the state of every other printer
    is left as it was.  (Addresses hold no path separator, so the
    cleaning [filepath.Join] does leaves their file names apart.) *)
Theorem SaveState_then_LoadState
    (sm : State.StateManager) (now : Z) (printerIP other : string)
    (counters : State.CountersInfo) :
  let saved := State.SaveState sm now printerIP counters in
  (snd saved = None ->
   State.LoadState (fst saved) printerIP
   = Ok (Some {| State.LastPollAt := now; State.Counters := counters |}))
  /\ (Go.Contains printerIP "/" = false -> Go.Contains other "/" = false ->
      other <> printerIP ->
      State.LoadState (fst saved) other = State.LoadState sm other).
Proof.
  intros saved. subst saved. unfold State.SaveState.
  destruct (State.writeFile sm (State.getStateFilename sm printerIP))
    as [|remains] eqn:Hwrite; cbn [fst snd].
  - split.
    + intros _. unfold State.LoadState, State.getStateFilename.
      cbn [State.files State.stateDir]. now rewrite lookup_insert_eq.
    + intros _ _ Hne. unfold State.LoadState, State.getStateFilename.
      cbn [State.files State.stateDir].
      rewrite lookup_insert_ne; [reflexivity|].
      intros Heq. apply Hne. symmetry.
      now apply (getStateFilename_inj sm) in Heq.
  - split; [discriminate|].
    intros _ _ Hne. unfold State.LoadState, State.getStateFilename.
    cbn [State.files State.stateDir].
    rewrite lookup_partial_alter_ne; [reflexivity|].
    intros Heq. apply Hne. symmetry.
    now apply (getStateFilename_inj sm) in Heq.
Qed.

Lemma SaveState_then_LoadState_witness :
  snd (State.SaveState Examples.stateStore 1700003600 "10.0.0.5"
         Examples.laterCounters) = None
  /\ State.LoadState
       (fst (State.SaveState Examples.stateStore 1700003600 "10.0.0.5"
               Examples.laterCounters)) "10.0.0.5"
     = Ok (Some {| State.LastPollAt := 1700003600;
                   State.Counters := Examples.laterCounters |})
  /\ State.LoadState
       (fst (State.SaveState Examples.stateStore 1700003600 "10.0.0.9"
               Examples.laterCounters)) "10.0.0.5"
     = State.LoadState Examples.stateStore "10.0.0.5".
Proof.
  split; [reflexivity|]. split.
  - apply (SaveState_then_LoadState Examples.stateStore 1700003600 "10.0.0.5"
             "10.0.0.9" Examples.laterCounters). reflexivity.
  - apply (SaveState_then_LoadState Examples.stateStore 1700003600 "10.0.0.9"
             "10.0.0.5" Examples.laterCounters);
      [reflexivity | reflexivity | discriminate].
Defined.

(** A write that fails is not read back: on a full disk [SaveState]
    returns its error, the file is left truncated, and the next poll finds
    no state to compare with. *)
Lemma SaveState_failure_is_not_read_back :
  snd (State.SaveState Examples.fullDisk 1700003600 "10.0.0.9"
         Examples.laterCounters) = Some State.WriteFailed
  /\ State.LoadState
       (fst (State.SaveState Examples.fullDisk 1700003600 "10.0.0.9"
               Examples.laterCounters)) "10.0.0.9"
     = Err State.UnmarshalFailed
  /\ State.CalculateDelta
       (fst (State.SaveState Examples.fullDisk 1700003600 "10.0.0.9"
               Examples.laterCounters)) "10.0.0.9" Examples.storedCounters
     = (None, false).
Proof. repeat split; vm_compute; reflexivity. Qed.

(** X2. Two polls in a row: when the first one saved its counters, the
    second is compared with them, whatever the store held before the
    first (another state, an unreadable file, nothing).  So the poll
    after a reset reports a delta again, against the counters seen at the
    reset. *)
Theorem CalculateDelta_after_SaveState
    (sm : State.StateManager) (now : Z) (printerIP : string)
    (first second : State.CountersInfo) :
  snd (State.SaveState sm now printerIP first) = None ->
  State.CalculateDelta (fst (State.SaveState sm now printerIP first)) printerIP second
  = if State.TotalPages second <? State.TotalPages first
    then (None, true)
    else (Some {| State.dTotalPages :=
                    Go.wrap64 (State.TotalPages second - State.TotalPages first);
                  State.dMonoPages :=
                    Go.wrap64 (State.MonoPages second - State.MonoPages first);
                  State.dColorPages :=
                    Go.wrap64 (State.ColorPages second - State.ColorPages first);
                  State.dScanPages :=
                    Go.wrap64 (State.ScanPages second - State.ScanPages first);
                  State.dCopyPages :=
                    Go.wrap64 (State.CopyPages second - State.CopyPages first);
                  State.dFaxPages :=
                    Go.wrap64 (State.FaxPages second - State.FaxPages first) |},
          false).
Proof.
  intros Hsaved. unfold State.CalculateDelta.
  replace (State.LoadState (fst (State.SaveState sm now printerIP first)) printerIP)
    with (@Ok State.LoadError _
            (Some {| State.LastPollAt := now; State.Counters := first |})).
  - reflexivity.
  - revert Hsaved. unfold State.SaveState.
    destruct (State.writeFile sm (State.getStateFilename sm printerIP));
      cbn [fst snd]; [intros _ | discriminate].
    unfold State.LoadState, State.getStateFilename.
    cbn [State.files State.stateDir]. now rewrite lookup_insert_eq.
Qed.

Lemma CalculateDelta_after_SaveState_witness :
  snd (State.SaveState Examples.stateStore 1700003600 "10.0.0.5"
         Examples.laterCounters) = None
  /\ State.CalculateDelta
       (fst (State.SaveState Examples.stateStore 1700003600 "10.0.0.5"
               Examples.laterCounters)) "10.0.0.5" Examples.storedCounters
     = (None, true).
Proof.
  split; [reflexivity|].
  apply (CalculateDelta_after_SaveState Examples.stateStore 1700003600 "10.0.0.5"
           Examples.laterCounters Examples.storedCounters).
  reflexivity.
Defined.

(** X3. The loop of the agent never reports a reset together with a
    delta: in the snapshot built from what [CalculateDelta] returned, a
    set reset flag comes with a nil delta, and a delta comes with a
    current total that is not below the stored one. *)
Theorem trackCounters_reset_has_no_delta
    (sm : State.StateManager) (now : Z) (data : Collector.PrinterData)
    (snapshot : State.CountersSnapshot) :
  Telemetry.buildCounters data
    (fst (fst (Agent.trackCounters sm now data)))
    (snd (fst (Agent.trackCounters sm now data))) = Some snapshot ->
  (State.ResetDetected snapshot = true -> State.Delta snapshot = None)
  /\ (forall d prev cur,
        State.Delta snapshot = Some d ->
        State.LoadState sm (Collector.IP data) = Ok (Some prev) ->
        Agent.currentCounters data = Some cur ->
        State.TotalPages (State.Counters prev) <= State.TotalPages cur
        /\ State.ResetDetected snapshot = false).
Proof.
  unfold Telemetry.buildCounters, Agent.trackCounters.
  destruct (Collector.is_empty _); [|]; try discriminate.
  all: destruct (Collector.is_empty _); try discriminate.
  all: intros Hsnap; injection Hsnap as <-; cbn [State.ResetDetected State.Delta].
  all: destruct (Agent.currentCounters data) as [cur|]; cbn [fst snd].
  all: try (split; [reflexivity | intros d prev cur' Hd; discriminate]).
  all: unfold State.CalculateDelta.
  all: destruct (State.LoadState sm (Collector.IP data)) as [[prev|]|e]; cbn [fst snd].
  all: try (split; [discriminate | intros d prev' cur' Hd; discriminate]).
  all: destruct (State.TotalPages cur <? State.TotalPages (State.Counters prev)) eqn:Hlt;
    cbn [fst snd].
  all: try (split; [reflexivity | intros d prev' cur' Hd; discriminate]).
  all: split; [discriminate|].
  all: intros d prev' cur' _ Hprev Hcur; injection Hprev as <-; injection Hcur as <-.
  all: apply Z.ltb_ge in Hlt; split; [exact Hlt | reflexivity].
Qed.

Lemma trackCounters_reset_has_no_delta_witness :
  (State.ResetDetected Samples.resetSnapshot = true ->
   State.Delta Samples.resetSnapshot = None)
  /\ (forall d prev cur,
        State.Delta Samples.resetSnapshot = Some d ->
        State.LoadState Examples.stateStore (Collector.IP Samples.replacedPrinter)
          = Ok (Some prev) ->
        Agent.currentCounters Samples.replacedPrinter = Some cur ->
        State.TotalPages (State.Counters prev) <= State.TotalPages cur
        /\ State.ResetDetected Samples.resetSnapshot = false).
Proof.
  apply (trackCounters_reset_has_no_delta Examples.stateStore 1700003600
           Samples.replacedPrinter Samples.resetSnapshot).
  vm_compute. reflexivity.
Defined.
(** ** The retry loop of the HTTP sink *)

Lemma seqZ_S (m : Z) (n : nat) :
  seqZ m (Z.of_nat (S n)) = m :: seqZ (m + 1) (Z.of_nat n).
Proof.
  replace (Z.of_nat (S n)) with (Z.succ (Z.of_nat n)) by lia.
  rewrite seqZ_cons by lia. f_equal. f_equal; lia.
Qed.

Lemma attempts_requests (hs : Sink.HTTPSink) (w : Sink.World) :
  forall (remaining : nat) (attempt waitDuration : Z) (lastErr : option Sink.SendError),
    exists k : nat,
      (k <= remaining)%nat
      /\ Sink.requests (fst (Sink.attempts hs w remaining attempt waitDuration lastErr))
         = seqZ attempt (Z.of_nat k).
Proof.
  induction remaining as [|n IH]; intros attempt wd lastErr.
  - exists 0%nat. split; [lia | reflexivity].
  - cbn [Sink.attempts].
    assert (Hone : forall pre : list Sink.Event,
               Sink.requests pre = [] ->
               Sink.requests (pre ++ [Sink.Sent attempt])%list = seqZ attempt (Z.of_nat 1)).
    { intros pre Hpre. unfold Sink.requests in *. rewrite omap_app, Hpre.
      rewrite seqZ_S. reflexivity. }
    assert (Hstep : forall (pre : list Sink.Event) wd',
               Sink.requests pre = [] ->
               exists k : nat, (k <= S n)%nat /\
                 Sink.requests
                   (fst (match Sink.sendRequest (Sink.reply w attempt) with
                         | None => ((pre ++ [Sink.Sent attempt])%list, None)
                         | Some err =>
                             if attempt =? Sink.maxRetries hs
                             then ((pre ++ [Sink.Sent attempt])%list,
                                   Some (Sink.FailedAfter
                                           (Go.wrap64 (Sink.maxRetries hs + 1)) err))
                             else
                               let '(tr, res) :=
                                 Sink.attempts hs w n (attempt + 1) wd' (Some err) in
                               ((pre ++ Sink.Sent attempt :: tr)%list, res)
                         end))
                 = seqZ attempt (Z.of_nat k)).
    { intros pre wd' Hpre.
      destruct (Sink.sendRequest (Sink.reply w attempt)) as [err|].
      - destruct (attempt =? Sink.maxRetries hs).
        + exists 1%nat. split; [lia|]. cbn [fst]. now apply Hone.
        + destruct (IH (attempt + 1) wd' (Some err)) as (k & Hk & Hreq).
          destruct (Sink.attempts hs w n (attempt + 1) wd' (Some err)) as [tr res].
          cbn [fst] in *. exists (S k). split; [lia|].
          unfold Sink.requests in *. rewrite omap_app, Hpre. cbn [omap list_omap app].
          rewrite seqZ_S. now rewrite Hreq.
      - exists 1%nat. split; [lia|]. cbn [fst]. now apply Hone. }
    destruct (0 <? attempt).
    + destruct (Sink.ctxDone w attempt).
      * exists 0%nat. split; [lia | reflexivity].
      * apply Hstep. reflexivity.
    + apply Hstep. reflexivity.
Qed.

(** X4. [Write] never sends more than [maxRetries + 1] requests, whatever
    the server answers and whenever the context is cancelled, and the
    requests it sends are the attempts 0, 1, 2, ... without a gap.  For
    empty data it sends none. *)
Theorem Write_requests_bounded (hs : Sink.HTTPSink) (w : Sink.World)
    (data : list Byte.byte) (printerID : string) :
  exists k : nat,
    Z.of_nat k <= Z.max 0 (Sink.maxRetries hs + 1)
    /\ Sink.requests (fst (Sink.Write hs w data printerID)) = seqZ 0 (Z.of_nat k)
    /\ (data = [] -> k = 0%nat).
Proof.
  unfold Sink.Write. destruct data as [|b data].
  - exists 0%nat. split; [lia|]. split; reflexivity.
  - destruct (attempts_requests hs w (Z.to_nat (Sink.maxRetries hs + 1)) 0
                (Sink.initialWait hs) None) as (k & Hk & Hreq).
    exists k. split; [lia|]. split; [exact Hreq | discriminate].
Qed.

Lemma attempts_waits (hs : Sink.HTTPSink) (w : Sink.World) :
  forall (remaining : nat) (attempt waitDuration : Z) (lastErr : option Sink.SendError),
    Shapes.waitsFrom waitDuration
      (Sink.waits (fst (Sink.attempts hs w remaining attempt waitDuration lastErr))).
Proof.
  induction remaining as [|n IH]; intros attempt wd lastErr.
  - left. reflexivity.
  - cbn [Sink.attempts].
    destruct (0 <? attempt).
    + destruct (Sink.ctxDone w attempt); [left; reflexivity|].
      set (next := if 60 * Sink.Second <? Go.wrap64 (wd * 2)
                   then 60 * Sink.Second else Go.wrap64 (wd * 2)).
      assert (Hnext : next <= 60 * Sink.Second).
      { subst next. destruct (60 * Sink.Second <? Go.wrap64 (wd * 2)) eqn:H;
          [lia | now apply Z.ltb_ge in H]. }
      right.
      destruct (Sink.sendRequest (Sink.reply w attempt)) as [err|].
      * destruct (attempt =? Sink.maxRetries hs).
        -- exists []. split; [reflexivity | constructor].
        -- specialize (IH (attempt + 1) next (Some err)).
           destruct (Sink.attempts hs w n (attempt + 1) next (Some err)) as [tr res].
           cbn [fst] in *. exists (Sink.waits tr). split; [reflexivity|].
           destruct IH as [-> | (rest & -> & Hrest)]; [constructor|].
           constructor; [exact Hnext | exact Hrest].
      * exists []. split; [reflexivity | constructor].
    + destruct (Sink.sendRequest (Sink.reply w attempt)) as [err|].
      * destruct (attempt =? Sink.maxRetries hs); [left; reflexivity|].
        specialize (IH (attempt + 1) wd (Some err)).
        destruct (Sink.attempts hs w n (attempt + 1) wd (Some err)) as [tr res].
        cbn [fst] in *. exact IH.
      * left. reflexivity.
Qed.

(** X5. The waits of [Write]: the first one, if there is any, lasts
    [initialWait], and every later one lasts at most 60 seconds, also
    when [initialWait] itself is longer. *)
Theorem Write_waits_capped (hs : Sink.HTTPSink) (w : Sink.World)
    (data : list Byte.byte) (printerID : string) :
  let ws := Sink.waits (fst (Sink.Write hs w data printerID)) in
  ws = []
  \/ exists rest, ws = Sink.initialWait hs :: rest
                  /\ Forall (fun d => d <= 60 * Sink.Second) rest.
Proof.
  unfold Sink.Write. destruct data as [|b data]; [left; reflexivity|].
  apply attempts_waits.
Qed.

Lemma attempts_first_success (hs : Sink.HTTPSink) (w : Sink.World) (k : Z) :
  k <= Sink.maxRetries hs ->
  (forall j, 0 <= j < k -> Sink.sendRequest (Sink.reply w j) <> None) ->
  Sink.sendRequest (Sink.reply w k) = None ->
  (forall j, 0 < j <= k -> Sink.ctxDone w j = false) ->
  forall (remaining : nat) (attempt waitDuration : Z) (lastErr : option Sink.SendError),
    0 <= attempt <= k ->
    attempt + Z.of_nat remaining = Sink.maxRetries hs + 1 ->
    snd (Sink.attempts hs w remaining attempt waitDuration lastErr) = None
    /\ Sink.requests (fst (Sink.attempts hs w remaining attempt waitDuration lastErr))
       = seqZ attempt (k - attempt + 1).
Proof.
  intros Hk Hfail Hok Hctx.
  induction remaining as [|n IH]; intros attempt wd lastErr Ha Hsum; [lia|].
  cbn [Sink.attempts].
  assert (Hdone : (0 <? attempt) = true -> Sink.ctxDone w attempt = false).
  { intros H. apply Z.ltb_lt in H. apply Hctx. lia. }
  destruct (Z.eq_dec attempt k) as [->|Hne].
  - rewrite Hok. replace (k - k + 1) with (Z.of_nat 1) by lia. rewrite seqZ_S.
    destruct (0 <? k); [rewrite Hdone by reflexivity|]; split; reflexivity.
  - destruct (Sink.sendRequest (Sink.reply w attempt)) as [err|] eqn:Hsend;
      [|exfalso; apply (Hfail attempt); [lia | exact Hsend]].
    assert (Hlast : (attempt =? Sink.maxRetries hs) = false) by (apply Z.eqb_neq; lia).
    rewrite Hlast.
    assert (Hseq : seqZ attempt (k - attempt + 1)
                   = attempt :: seqZ (attempt + 1) (k - (attempt + 1) + 1)).
    { replace (k - attempt + 1) with (Z.of_nat (S (Z.to_nat (k - attempt)))) by lia.
      rewrite seqZ_S. do 2 f_equal. lia. }
    rewrite Hseq.
    destruct (0 <? attempt).
    + rewrite Hdone by reflexivity.
      match goal with
      | |- context [Sink.attempts hs w n (attempt + 1) ?wd' (Some err)] =>
          specialize (IH (attempt + 1) wd' (Some err));
          destruct (Sink.attempts hs w n (attempt + 1) wd' (Some err)) as [tr res]
      end.
      cbn [fst snd] in *. destruct IH as [Hres Hreq]; [lia | lia |].
      split; [exact Hres|]. unfold Sink.requests in *. cbn [omap list_omap app]. now rewrite Hreq.
    + specialize (IH (attempt + 1) wd (Some err)).
      destruct (Sink.attempts hs w n (attempt + 1) wd (Some err)) as [tr res].
      cbn [fst snd] in *. destruct IH as [Hres Hreq]; [lia | lia |].
      split; [exact Hres|]. unfold Sink.requests in *. cbn [omap list_omap app]. now rewrite Hreq.
Qed.

(** X6. [Write] stops at the first request that is answered with a 2xx
    status: when the attempts before attempt [k] fail, attempt [k] is
    within the retry budget and the context is not cancelled before it,
    [Write] returns nil after exactly the requests 0 to [k]. *)
Theorem Write_stops_at_first_success (hs : Sink.HTTPSink) (w : Sink.World)
    (b : Byte.byte) (data : list Byte.byte) (printerID : string) (k : Z) :
  0 <= k <= Sink.maxRetries hs ->
  (forall j, 0 <= j < k -> Sink.sendRequest (Sink.reply w j) <> None) ->
  Sink.sendRequest (Sink.reply w k) = None ->
  (forall j, 0 < j <= k -> Sink.ctxDone w j = false) ->
  snd (Sink.Write hs w (b :: data) printerID) = None
  /\ Sink.requests (fst (Sink.Write hs w (b :: data) printerID)) = seqZ 0 (k + 1).
Proof.
  intros Hk Hfail Hok Hctx. unfold Sink.Write.
  destruct (attempts_first_success hs w k (proj2 Hk) Hfail Hok Hctx
              (Z.to_nat (Sink.maxRetries hs + 1)) 0 (Sink.initialWait hs) None)
    as [Hres Hreq]; [lia | lia |].
  split; [exact Hres|]. rewrite Hreq. f_equal. lia.
Qed.

Lemma Write_stops_at_first_success_witness :
  snd (Sink.Write Examples.defaultSink Samples.recoversAtThird Examples.oneByte
         "printer-1") = None
  /\ Sink.requests (fst (Sink.Write Examples.defaultSink Samples.recoversAtThird
                           Examples.oneByte "printer-1")) = seqZ 0 (2 + 1).
Proof.
  apply (Write_stops_at_first_success Examples.defaultSink Samples.recoversAtThird
           Byte.x7b [] "printer-1" 2).
  - vm_compute. split; discriminate.
  - intros j Hj. assert (Hcases : j = 0 \/ j = 1) by lia.
    destruct Hcases as [-> | ->]; vm_compute; discriminate.
  - vm_compute. reflexivity.
  - intros j Hj. reflexivity.
Defined.

(** X7. A negative retry budget makes [Write] a silent no-op:
    [NewHTTPSink] replaces a [MaxRetries] of zero by three but keeps a
    negative one, the loop body then never runs, and [Write] returns nil
    without having sent the data. *)
Theorem Write_negative_retries_sends_nothing (config : Sink.HTTPSinkConfig)
    (w : Sink.World) (b : Byte.byte) (data : list Byte.byte) (printerID : string) :
  Sink.MaxRetries config < 0 ->
  Sink.Write (Sink.NewHTTPSink config) w (b :: data) printerID = ([], None).
Proof.
  intros Hneg. unfold Sink.Write, Sink.NewHTTPSink. cbn [Sink.maxRetries Sink.initialWait].
  assert (Hz : (Sink.MaxRetries config =? 0) = false) by (apply Z.eqb_neq; lia).
  rewrite Hz.
  replace (Z.to_nat (Sink.MaxRetries config + 1)) with 0%nat by lia.
  reflexivity.
Qed.

Lemma Write_negative_retries_sends_nothing_witness :
  Sink.Write (Sink.NewHTTPSink Samples.noRetryConfig) Examples.alwaysBadRequest
    [Byte.x7b] "printer-1" = ([], None).
Proof.
  apply (Write_negative_retries_sends_nothing Samples.noRetryConfig
           Examples.alwaysBadRequest Byte.x7b [] "printer-1").
  vm_compute. reflexivity.
Defined.

(** ** The file sink *)

(** X8. The queue of the file sink keeps one file per printer and second:
    a second event of the same printer written within the same second
    takes the place of the first, whose bytes are lost, and the queue is
    then what the second write alone would have left. *)
Theorem FileSink_same_second_overwrites
    (pathJoin : string -> string -> string) (fs : FileSink.FileSink)
    (disk disk1 disk2 : FileSink.Disk) (epoch : Z)
    (first second : list Byte.byte) (printerID : string) :
  FileSink.Write pathJoin fs disk epoch first printerID = Ok disk1 ->
  FileSink.Write pathJoin fs disk1 epoch second printerID = Ok disk2 ->
  FileSink.files disk2
    !! pathJoin (FileSink.queueDir fs) (FileSink.fileName epoch printerID)
  = Some second
  /\ FileSink.Write pathJoin fs disk epoch second printerID = Ok disk2.
Proof.
  unfold FileSink.Write. intros H1 H2.
  destruct first as [|b1 first]; [discriminate|].
  destruct second as [|b2 second]; [discriminate|].
  set (path := pathJoin (FileSink.queueDir fs) (FileSink.fileName epoch printerID)) in *.
  destruct (FileSink.refused disk path) eqn:Href; [discriminate|].
  injection H1 as <-. cbn [FileSink.refused FileSink.files] in H2.
  rewrite Href in H2. injection H2 as <-. cbn [FileSink.files].
  split; [now rewrite lookup_insert_eq|].
  now rewrite insert_insert_eq.
Qed.

Lemma FileSink_same_second_overwrites_witness :
  FileSink.files Samples.queueAfterSecond
    !! Samples.slashJoin (FileSink.queueDir Samples.queue)
         (FileSink.fileName 1700000000 "10.0.0.5")
  = Some [Byte.x7b; Byte.x7d]
  /\ FileSink.Write Samples.slashJoin Samples.queue Samples.emptyQueue 1700000000
       [Byte.x7b; Byte.x7d] "10.0.0.5"
     = Ok Samples.queueAfterSecond.
Proof.
  apply (FileSink_same_second_overwrites Samples.slashJoin Samples.queue
           Samples.emptyQueue Samples.queueAfterFirst Samples.queueAfterSecond
           1700000000 [Byte.x7b] [Byte.x7b; Byte.x7d] "10.0.0.5");
    vm_compute; reflexivity.
Defined.
(** ** The range parser on the addresses it prints *)

Lemma byte_text (n : Z) :
  Shapes.isByte n ->
  Scanner.parseIPv4Field (Go.itoa n) = Some n
  /\ Go.Atoi (Go.itoa n) = Some n
  /\ forallb Go.is_digit (Go.chars (Go.itoa n)) = true.
Proof.
  intros Hn.
  assert (Hall : forallb
            (fun n => match Scanner.parseIPv4Field (Go.itoa n), Go.Atoi (Go.itoa n) with
                      | Some v, Some v' =>
                          (v =? n) && (v' =? n)
                          && forallb Go.is_digit (Go.chars (Go.itoa n))
                      | _, _ => false
                      end) (seqZ 0 256) = true) by (vm_compute; reflexivity).
  rewrite forallb_forall in Hall. specialize (Hall n).
  assert (Hin : In n (seqZ 0 256)).
  { apply list_elem_of_In, elem_of_seqZ. unfold Shapes.isByte in Hn. lia. }
  specialize (Hall Hin). clear Hin.
  destruct (Scanner.parseIPv4Field (Go.itoa n)) as [v|]; [|discriminate].
  destruct (Go.Atoi (Go.itoa n)) as [v'|]; [|discriminate].
  apply andb_true_iff in Hall as [Hall Hd]. apply andb_true_iff in Hall as [Hv Hv'].
  apply Z.eqb_eq in Hv, Hv'. subst v v'. now repeat split.
Qed.

Lemma digit_is_not (c sep : ascii) :
  Go.is_digit c = true -> Go.is_digit sep = false -> Ascii.eqb c sep = false.
Proof.
  intros Hc Hsep. destruct (Ascii.eqb_spec c sep) as [->|]; [congruence | reflexivity].
Qed.

Lemma split_chars_no_sep (sep : ascii) (l cur : list ascii) :
  Forall (fun c => Ascii.eqb c sep = false) l ->
  Go.split_chars sep cur l = [Go.str (rev cur ++ l)].
Proof.
  revert cur. induction l as [|c l IH]; intros cur Hl; cbn [Go.split_chars].
  - now rewrite app_nil_r.
  - inversion Hl as [|? ? Hc Hl']; subst. rewrite Hc, IH by exact Hl'.
    cbn [rev]. now rewrite <- app_assoc.
Qed.

Lemma split_chars_app (sep : ascii) (x rest cur : list ascii) :
  Forall (fun c => Ascii.eqb c sep = false) x ->
  Go.split_chars sep cur (x ++ sep :: rest)
  = Go.str (rev cur ++ x) :: Go.split_chars sep [] rest.
Proof.
  revert cur. induction x as [|c x IH]; intros cur Hx; cbn [Go.split_chars app].
  - rewrite Ascii.eqb_refl. now rewrite app_nil_r.
  - inversion Hx as [|? ? Hc Hx']; subst. rewrite Hc, IH by exact Hx'.
    cbn [rev]. now rewrite <- app_assoc.
Qed.

Lemma digits_without (sep : ascii) (s : string) :
  forallb Go.is_digit (Go.chars s) = true -> Go.is_digit sep = false ->
  Forall (fun c => Ascii.eqb c sep = false) (Go.chars s).
Proof.
  intros Hs Hsep. apply Forall_forall. intros c Hc.
  apply digit_is_not; [|exact Hsep].
  rewrite forallb_forall in Hs. apply Hs. now apply list_elem_of_In.
Qed.

Lemma chars_cons (c : ascii) (s : string) : Go.chars (String c s) = c :: Go.chars s.
Proof. reflexivity. Qed.

(** The text of a dotted quad of digit strings. *)
Lemma chars_quad (sa sb sc sd : string) :
  Go.chars (Go.Join [sa; sb; sc; sd] ".")
  = (Go.chars sa ++ "."%char :: Go.chars sb ++ "."%char :: Go.chars sc
       ++ "."%char :: Go.chars sd)%list.
Proof.
  cbn [Go.Join]. rewrite !chars_app. reflexivity.
Qed.

Lemma Split_quad (sa sb sc sd : string) :
  forallb Go.is_digit (Go.chars sa) = true ->
  forallb Go.is_digit (Go.chars sb) = true ->
  forallb Go.is_digit (Go.chars sc) = true ->
  forallb Go.is_digit (Go.chars sd) = true ->
  Go.Split (Go.Join [sa; sb; sc; sd] ".") "."%char = [sa; sb; sc; sd].
Proof.
  intros Ha Hb Hc Hd. unfold Go.Split. rewrite chars_quad.
  rewrite split_chars_app by (apply digits_without; [assumption | reflexivity]).
  rewrite split_chars_app by (apply digits_without; [assumption | reflexivity]).
  rewrite split_chars_app by (apply digits_without; [assumption | reflexivity]).
  rewrite split_chars_no_sep by (apply digits_without; [assumption | reflexivity]).
  cbn [rev app]. now rewrite !str_chars.
Qed.

Lemma parseIP_dispatch_dot (parseIPv6 : string -> option Scanner.IP)
    (whole : string) (x rest : list ascii) :
  forallb Go.is_digit x = true ->
  Scanner.parseIP_dispatch parseIPv6 whole (x ++ "."%char :: rest)
  = Scanner.parseIPv4 whole.
Proof.
  induction x as [|c x IH]; intros Hx; cbn [app Scanner.parseIP_dispatch].
  - reflexivity.
  - cbn [forallb] in Hx. apply andb_true_iff in Hx as [Hc Hx].
    unfold Go.is_digit in Hc. apply andb_true_iff in Hc as [H1 H2].
    apply Z.leb_le in H1, H2.
    replace (Go.byteval c =? 46) with false by (symmetry; apply Z.eqb_neq; lia).
    replace (Go.byteval c =? 58) with false by (symmetry; apply Z.eqb_neq; lia).
    replace (Go.byteval c =? 37) with false by (symmetry; apply Z.eqb_neq; lia).
    now apply IH.
Qed.

(** [net.ParseIP] reads back what [IP.String] prints for four bytes. *)
Lemma ParseIP_IPv4String (parseIPv6 : string -> option Scanner.IP) (a b c d : Z) :
  Shapes.isByte a -> Shapes.isByte b -> Shapes.isByte c -> Shapes.isByte d ->
  Scanner.ParseIP parseIPv6 (Scanner.IPv4String a b c d)
  = Some (Scanner.IPv4 a b c d).
Proof.
  intros Ha Hb Hc Hd.
  destruct (byte_text a Ha) as (Hfa & _ & Hda).
  destruct (byte_text b Hb) as (Hfb & _ & Hdb).
  destruct (byte_text c Hc) as (Hfc & _ & Hdc).
  destruct (byte_text d Hd) as (Hfd & _ & Hdd).
  unfold Scanner.ParseIP, Scanner.IPv4String.
  revert Hfa Hda Hfb Hdb Hfc Hdc Hfd Hdd.
  generalize (Go.itoa a) (Go.itoa b) (Go.itoa c) (Go.itoa d).
  intros sa sb sc sd Hfa Hda Hfb Hdb Hfc Hdc Hfd Hdd.
  rewrite chars_quad. rewrite parseIP_dispatch_dot by exact Hda.
  unfold Scanner.parseIPv4. rewrite Split_quad by assumption.
  now rewrite Hfa, Hfb, Hfc, Hfd.
Qed.

Lemma quad_without_dash (a b c d : Z) :
  Shapes.isByte a -> Shapes.isByte b -> Shapes.isByte c -> Shapes.isByte d ->
  Forall (fun ch => Ascii.eqb ch "-"%char = false)
         (Go.chars (Scanner.IPv4String a b c d)).
Proof.
  intros Ha Hb Hc Hd.
  destruct (byte_text a Ha) as (_ & _ & Hda).
  destruct (byte_text b Hb) as (_ & _ & Hdb).
  destruct (byte_text c Hc) as (_ & _ & Hdc).
  destruct (byte_text d Hd) as (_ & _ & Hdd).
  unfold Scanner.IPv4String. rewrite chars_quad.
  repeat (apply Forall_app; split; [apply digits_without; [assumption | reflexivity]|];
          apply Forall_cons; split; [reflexivity|]).
  apply digits_without; [assumption | reflexivity].
Qed.

(** A single printed address is accepted as it is. *)
Lemma ParseIPRange_single (parseIPv6 : string -> option Scanner.IP) (a b c d : Z) :
  Shapes.isByte a -> Shapes.isByte b -> Shapes.isByte c -> Shapes.isByte d ->
  Scanner.ParseIPRange parseIPv6 (Scanner.IPv4String a b c d)
  = Ok [Scanner.IPv4String a b c d].
Proof.
  intros Ha Hb Hc Hd. unfold Scanner.ParseIPRange, Go.Split.
  rewrite split_chars_no_sep by now apply quad_without_dash.
  cbn [rev app]. now rewrite ParseIP_IPv4String.
Qed.

(** X9. The range notation on printed addresses: for bytes a, b, c, X and
    Y the text a.b.c.X-Y expands to the addresses a.b.c.X up to a.b.c.Y
    in ascending order, Y - X + 1 of them when X <= Y and none when
    Y < X. *)
Theorem ParseIPRange_expands_printed_range
    (parseIPv6 : string -> option Scanner.IP) (a b c x y : Z) :
  Shapes.isByte a -> Shapes.isByte b -> Shapes.isByte c -> Shapes.isByte x -> Shapes.isByte y ->
  Scanner.ParseIPRange parseIPv6
    (String.append (Scanner.IPv4String a b c x) (String "-" (Go.itoa y)))
  = Ok (Scanner.IPv4String a b c <$> seqZ x (y - x + 1)).
Proof.
  intros Ha Hb Hc Hx Hy.
  destruct (byte_text y Hy) as (_ & Hend & Hdy).
  pose proof (quad_without_dash a b c x Ha Hb Hc Hx) as Hdash.
  pose proof (ParseIP_IPv4String parseIPv6 a b c x Ha Hb Hc Hx) as Hip.
  unfold Scanner.ParseIPRange, Go.Split.
  rewrite chars_app, chars_cons.
  rewrite split_chars_app by exact Hdash.
  rewrite split_chars_no_sep by (apply digits_without; [assumption | reflexivity]).
  cbn [rev app]. rewrite !str_chars.
  unfold Scanner.parseRangeFormat. rewrite Hip.
  replace (Scanner.To4 (Scanner.IPv4 a b c x)) with (Some (a, b, c, x)) by reflexivity.
  rewrite Hend. clear Hend Hdy Hdash Hip.
  assert (Hrange : (y <? 0) || (255 <? y) = false)
    by (unfold Shapes.isByte in Hy; apply orb_false_iff; split; apply Z.ltb_ge; lia).
  rewrite Hrange. f_equal.
  apply list_fmap_ext. intros i n Hn.
  apply lookup_seqZ in Hn as [-> Hi].
  unfold Go.to_byte. rewrite Z.mod_small by (unfold Shapes.isByte in *; lia). reflexivity.
Qed.

Lemma ParseIPRange_expands_printed_range_witness :
  Scanner.ParseIPRange Examples.noIPv6
    (String.append (Scanner.IPv4String 192 168 1 250) (String "-" (Go.itoa 254)))
  = Ok (Scanner.IPv4String 192 168 1 <$> seqZ 250 (254 - 250 + 1)).
Proof.
  apply (ParseIPRange_expands_printed_range Examples.noIPv6 192 168 1 250 254);
    unfold Shapes.isByte; lia.
Defined.

Lemma digits_value_nonneg (l : list ascii) :
  forall acc, 0 <= acc -> forallb Go.is_digit l = true -> 0 <= Go.digits_value acc l.
Proof.
  induction l as [|c l IH]; intros acc Hacc Hl; cbn [Go.digits_value]; [exact Hacc|].
  cbn [forallb] in Hl. apply andb_true_iff in Hl as [Hc Hl].
  apply IH; [|exact Hl].
  unfold Go.is_digit in Hc. apply andb_true_iff in Hc as [H1 H2].
  apply Z.leb_le in H1, H2. lia.
Qed.

Lemma parseIPv4Field_byte (f : string) (v : Z) :
  Scanner.parseIPv4Field f = Some v -> Shapes.isByte v.
Proof.
  unfold Scanner.parseIPv4Field, Go.all_digits.
  destruct (Go.chars f) as [|c l] eqn:Hf; [discriminate|].
  destruct (forallb Go.is_digit (c :: l)) eqn:Hd; [|discriminate].
  destruct (match l with [] => false | _ :: _ => Go.byteval c =? 48 end); [discriminate|].
  destruct (Go.digits_value 0 (c :: l) <=? 255) eqn:Hle; [|discriminate].
  intros [= <-]. apply Z.leb_le in Hle. split; [|exact Hle].
  apply (digits_value_nonneg (c :: l) 0); [lia | exact Hd].
Qed.

Lemma parseIPv4_bytes (s : string) (ip : Scanner.IP) :
  Scanner.parseIPv4 s = Some ip -> Forall Shapes.isByte ip.
Proof.
  unfold Scanner.parseIPv4.
  destruct (Go.Split s ".") as [|fa [|fb [|fc [|fd [|? ?]]]]]; try discriminate.
  destruct (Scanner.parseIPv4Field fa) as [a|] eqn:Ha; [|discriminate].
  destruct (Scanner.parseIPv4Field fb) as [b|] eqn:Hb; [|discriminate].
  destruct (Scanner.parseIPv4Field fc) as [c|] eqn:Hc; [|discriminate].
  destruct (Scanner.parseIPv4Field fd) as [d|] eqn:Hd; [|discriminate].
  intros [= <-]. apply parseIPv4Field_byte in Ha, Hb, Hc, Hd.
  unfold Scanner.IPv4. repeat (apply Forall_cons; split; [first [assumption | unfold Shapes.isByte; lia]|]).
  constructor.
Qed.

Lemma ParseIP_bytes (parseIPv6 : string -> option Scanner.IP) :
  (forall s ip, parseIPv6 s = Some ip -> Forall Shapes.isByte ip) ->
  forall s ip, Scanner.ParseIP parseIPv6 s = Some ip -> Forall Shapes.isByte ip.
Proof.
  intros H6 s ip. unfold Scanner.ParseIP. generalize (Go.chars s) as l.
  induction l as [|c l IH]; cbn [Scanner.parseIP_dispatch]; [discriminate|].
  destruct (Go.byteval c =? 46); [apply parseIPv4_bytes|].
  destruct (Go.byteval c =? 58); [apply H6|].
  destruct (Go.byteval c =? 37); [discriminate | exact IH].
Qed.

Lemma To4_bytes (ip : Scanner.IP) (a b c d : Z) :
  Forall Shapes.isByte ip -> Scanner.To4 ip = Some (a, b, c, d) ->
  Shapes.isByte a /\ Shapes.isByte b /\ Shapes.isByte c /\ Shapes.isByte d.
Proof.
  intros Hip H4.
  assert (Hin : In a ip /\ In b ip /\ In c ip /\ In d ip).
  { unfold Scanner.To4 in H4.
    repeat (destruct ip as [|? ip]; [discriminate H4 || (injection H4 as <- <- <- <-; cbn; tauto)|]);
      try discriminate H4.
    destruct ip; [|discriminate H4].
    destruct (_ && _); [|discriminate H4].
    injection H4 as <- <- <- <-. cbn. tauto. }
  rewrite Forall_forall in Hip.
  destruct Hin as (Ia & Ib & Ic & Id).
  repeat split; apply Hip; now apply list_elem_of_In.
Qed.

(** X10. What [ParseIPRange] returns without an error is a list of at
    most 256 texts, and each of them is an address by the parser's own
    measure: given back to [ParseIPRange], it is returned as it is.  The
    IPv6 grammar is only asked to return bytes. *)
Theorem ParseIPRange_returns_addresses
    (parseIPv6 : string -> option Scanner.IP) (ipRange : string) (ips : list string) :
  (forall s ip, parseIPv6 s = Some ip -> Forall Shapes.isByte ip) ->
  Scanner.ParseIPRange parseIPv6 ipRange = Ok ips ->
  (length ips <= 256)%nat
  /\ forall ip, In ip ips -> Scanner.ParseIPRange parseIPv6 ip = Ok [ip].
Proof.
  intros H6 Hres. pose proof Hres as Hagain. revert Hres.
  unfold Scanner.ParseIPRange at 1.
  destruct (Go.Split ipRange "-") as [|p1 [|p2 [|p3 l]]]; try discriminate.
  - destruct (Scanner.ParseIP parseIPv6 ipRange); [|discriminate].
    intros [= <-]. split; [cbn; lia|].
    intros ip [<-|[]]. exact Hagain.
  - clear Hagain. unfold Scanner.parseRangeFormat.
    destruct (Scanner.ParseIP parseIPv6 p1) as [ip0|] eqn:Hip; [|discriminate].
    destruct (Scanner.To4 ip0) as [[[[a b] c] d]|] eqn:H4; [|discriminate].
    destruct (Go.Atoi p2) as [endNum|]; [|discriminate].
    destruct ((endNum <? 0) || (255 <? endNum)) eqn:Hrange; [discriminate|].
    intros [= <-].
    apply orb_false_iff in Hrange as [He1 He2]. apply Z.ltb_ge in He1, He2.
    destruct (To4_bytes ip0 a b c d (ParseIP_bytes parseIPv6 H6 p1 ip0 Hip) H4)
      as (Ha & Hb & Hc & Hd).
    clear Hip H4. split.
    + rewrite length_fmap, length_seqZ. unfold Shapes.isByte in Hd. lia.
    + intros ip Hin. apply list_elem_of_In, list_elem_of_fmap in Hin as (i & -> & _).
      apply ParseIPRange_single; try assumption.
      unfold Shapes.isByte, Go.to_byte. pose proof (Z.mod_pos_bound i 256). lia.
Qed.

Lemma ParseIPRange_returns_addresses_witness :
  (length ["10.0.0.5"; "10.0.0.6"; "10.0.0.7"] <= 256)%nat
  /\ forall ip, In ip ["10.0.0.5"; "10.0.0.6"; "10.0.0.7"] ->
       Scanner.ParseIPRange Examples.noIPv6 ip = Ok [ip].
Proof.
  apply (ParseIPRange_returns_addresses Examples.noIPv6 "10.0.0.5-7").
  - intros s ip H. discriminate H.
  - vm_compute. reflexivity.
Defined.
(** ** The two coercions of the SNMP client side by side *)

(** X11. [ParseValue] and [parseValue] return the same string for every
    value except an octet string of six bytes of which at least 80 % are
    printable: there [parseValue] returns a hardware address, and
    [ParseValue] the text when the bytes are valid UTF-8 and the empty
    string when they are not. *)
Theorem coercions_differ_only_on_six_printable_bytes (variable : Snmp.PDUValue) :
  Snmp.ParseValue variable = Snmp.parseValue variable
  \/ exists v, variable = Snmp.Bytes v
               /\ length v = 6%nat
               /\ Snmp.isLikelyText v = true
               /\ Snmp.parseValue variable = Snmp.formatMAC v
               /\ Snmp.ParseValue variable
                  = if Snmp.isValidUTF8 v
                    then Go.TrimRightNul (Snmp.string_of_bytes v)
                    else EmptyString.
Proof.
  destruct variable as [|s|v|n|n|n|n|p]; try (left; reflexivity).
  rewrite ParseValue_octets. unfold Snmp.parseValue.
  destruct (Nat.eqb (length v) 6) eqn:Hlen.
  - destruct (Snmp.isLikelyText v) eqn:Hlikely.
    + right. exists v. apply Nat.eqb_eq in Hlen.
      split; [reflexivity|]. split; [exact Hlen|]. split; [exact Hlikely|].
      split; [reflexivity|].
      destruct (Snmp.isValidUTF8 v); reflexivity.
    + left. rewrite andb_false_r. reflexivity.
  - left. cbn [andb]. reflexivity.
Qed.
(** ** The batched GET *)

Lemma storeBatch_keys (l : list (string * Snmp.PDUValue)) :
  forall (values : gmap string string) (k : string),
    is_Some (foldl (fun (values : gmap string string) '(oid, variable) =>
                      <[oid := Snmp.ParseValue variable]> values) values l !! k) ->
    is_Some (values !! k) \/ k ∈ l.*1.
Proof.
  induction l as [|[oid var] l IH]; intros values k; cbn [foldl fmap list_fmap].
  - now left.
  - intros H. destruct (IH _ _ H) as [Hk|Hk].
    + destruct (decide (oid = k)) as [->|Hne].
      * right. cbn. left.
      * left. now rewrite lookup_insert_ne in Hk.
    + right. cbn. now right.
Qed.

Lemma storeBatch_keeps (l : list (string * Snmp.PDUValue)) :
  forall (values : gmap string string) (k : string),
    is_Some (values !! k) \/ k ∈ l.*1 ->
    is_Some (foldl (fun (values : gmap string string) '(oid, variable) =>
                      <[oid := Snmp.ParseValue variable]> values) values l !! k).
Proof.
  induction l as [|[oid var] l IH]; intros values k; cbn [foldl fmap list_fmap].
  - intros [H|H]; [exact H | inversion H].
  - intros H. apply IH.
    destruct (decide (oid = k)) as [->|Hne].
    + left. rewrite lookup_insert_eq. eauto.
    + destruct H as [H|H].
      * left. now rewrite lookup_insert_ne.
      * right. cbn in H. apply elem_of_cons in H as [H|H]; [congruence | exact H].
Qed.

Lemma batchLoop_spec (get : list string -> Client.GetReply) :
  forall (fuel : nat) (oids : list string) (start : nat) (values : gmap string string),
    (length oids - start <= fuel * 50)%nat ->
    let out := Client.batchLoop get fuel oids start values in
    Forall (fun b => (0 < length b <= 50)%nat) (fst out)
    /\ concat (fst out) `prefix_of` drop start oids
    /\ forall final, snd out = Ok final ->
         concat (fst out) = drop start oids
         /\ (forall k, is_Some (final !! k) ->
                       is_Some (values !! k) \/ k ∈ drop start oids)
         /\ (Shapes.answersInFull get ->
             forall k, is_Some (values !! k) \/ k ∈ drop start oids ->
                       is_Some (final !! k)).
Proof.
  induction fuel as [|fuel IH]; intros oids start values Hfuel out; subst out.
  - cbn [Client.batchLoop fst snd]. rewrite drop_ge by lia.
    split; [constructor|]. split; [reflexivity|].
    intros final [= <-]. split; [reflexivity|]. split; [tauto|].
    intros _ k [H|H]; [exact H | inversion H].
  - cbn [Client.batchLoop]. unfold Client.maxOIDsPerBatch.
    destruct (start <? length oids)%nat eqn:Hlt.
    2:{ apply Nat.ltb_ge in Hlt. cbn [fst snd]. rewrite drop_ge by lia.
        split; [constructor|]. split; [reflexivity|].
        intros final [= <-]. split; [reflexivity|]. split; [tauto|].
        intros _ k [H|H]; [exact H | inversion H]. }
    apply Nat.ltb_lt in Hlt.
    set (D := drop start oids).
    assert (HD : length D = (length oids - start)%nat) by (subst D; apply length_drop).
    assert (Hbatch : take ((if (length oids <? start + 50)%nat then length oids
                            else (start + 50)%nat) - start) D = take 50 D).
    { destruct (length oids <? start + 50)%nat eqn:Hend.
      - apply Nat.ltb_lt in Hend. rewrite !take_ge by lia. reflexivity.
      - f_equal. lia. }
    rewrite Hbatch. clear Hbatch.
    assert (Hsize : (0 < length (take 50 D) <= 50)%nat) by (rewrite length_take; lia).
    assert (Hrest : drop (start + 50) oids = drop 50 D)
      by (subst D; now rewrite drop_drop).
    assert (Hsplit : D = (take 50 D ++ drop 50 D)%list) by now rewrite take_drop.
    destruct (get (take 50 D)) as [| |vars] eqn:Hget.
    + cbn [fst snd]. split; [constructor; [exact Hsize | constructor]|].
      split; [|intros final H; discriminate].
      cbn [concat]. rewrite app_nil_r. now exists (drop 50 D).
    + cbn [fst snd]. split; [constructor; [exact Hsize | constructor]|].
      split; [|intros final H; discriminate].
      cbn [concat]. rewrite app_nil_r. now exists (drop 50 D).
    + specialize (IH oids (start + 50)%nat
                     (Client.storeBatch values (take 50 D) vars)).
      destruct (Client.batchLoop get fuel oids (start + 50)
                  (Client.storeBatch values (take 50 D) vars)) as [sent res].
      cbn [fst snd] in *. destruct IH as (Hsizes & Hpre & Hok); [lia|].
      rewrite Hrest in Hpre, Hok.
      split; [now constructor|]. split.
      * cbn [concat]. rewrite Hsplit at 2. now apply prefix_app.
      * intros final Hfinal. destruct (Hok final Hfinal) as (Hall & Hkeys & Hfull).
        split; [cbn [concat]; rewrite Hall; now rewrite take_drop|]. split.
        -- intros k Hk. destruct (Hkeys k Hk) as [Hs|Hin].
           ++ apply storeBatch_keys in Hs as [Hs|Hin]; [now left|].
              right. rewrite Hsplit. apply elem_of_app. left.
              apply list_elem_of_fmap in Hin as ([o v] & -> & Hin).
              now apply elem_of_zip_l in Hin.
           ++ right. rewrite Hsplit. apply elem_of_app. now right.
        -- intros Hans k Hk. apply (Hfull Hans).
           destruct Hk as [Hk|Hk].
           ++ left. apply storeBatch_keeps. now left.
           ++ rewrite Hsplit in Hk. apply elem_of_app in Hk as [Hk|Hk]; [|now right].
              left. apply storeBatch_keeps. right.
              rewrite fst_zip; [exact Hk|]. now apply Hans.
Qed.

(** X12. [GetMultiple] asks for the OIDs in GETs of at most 50, in the
    order given and without gaps.  When it returns a map, every OID was
    asked for exactly once, every key of the map is one of the OIDs, and,
    if the device answered each GET with as many variables as it was
    asked for, every OID is a key of the map. *)
Theorem GetMultiple_batches (connects : bool) (get : list string -> Client.GetReply)
    (oids : list string) :
  let out := Client.GetMultiple connects get oids in
  Forall (fun b => (0 < length b <= 50)%nat) (fst out)
  /\ concat (fst out) `prefix_of` oids
  /\ forall values, snd out = Ok values ->
       concat (fst out) = oids
       /\ (forall k, is_Some (values !! k) -> k ∈ oids)
       /\ (Shapes.answersInFull get -> forall k, k ∈ oids -> is_Some (values !! k)).
Proof.
  unfold Client.GetMultiple. destruct oids as [|o oids].
  - cbn [fst snd]. split; [constructor|]. split; [reflexivity|].
    intros values [= <-]. split; [reflexivity|]. split.
    + intros k [x Hk]. now rewrite lookup_empty in Hk.
    + intros _ k Hk. inversion Hk.
  - destruct connects.
    2:{ cbn [fst snd]. split; [constructor|]. split; [apply prefix_nil|].
        intros values H. discriminate. }
    pose proof (batchLoop_spec get (length (o :: oids)) (o :: oids) 0 ∅) as H.
    cbn zeta in H. rewrite drop_0 in H.
    destruct H as (Hsizes & Hpre & Hok); [lia|].
    cbn zeta. split; [exact Hsizes|]. split; [exact Hpre|].
    intros values Hvalues. destruct (Hok values Hvalues) as (Hall & Hkeys & Hfull).
    split; [exact Hall|]. split.
    + intros k Hk. destruct (Hkeys k Hk) as [[x Hx]|Hin]; [|exact Hin].
      now rewrite lookup_empty in Hx.
    + intros Hans k Hk. apply (Hfull Hans). now right.
Qed.

(** ** The hexadecimal decoder *)

Lemma bytes_of_app (s t : string) :
  list_byte_of_string (String.append s t)
  = (list_byte_of_string s ++ list_byte_of_string t)%list.
Proof.
  unfold list_byte_of_string. rewrite <- List.map_app. f_equal. apply chars_app.
Qed.

Lemma DecodeString_hex_byte (c : Byte.byte) (rest : list Byte.byte) :
  HexDecoder.DecodeString (list_byte_of_string (Snmp.hex_byte c) ++ rest)
  = match HexDecoder.DecodeString rest with
    | Some decoded => Some (c :: decoded)
    | None => None
    end.
Proof. destruct c; reflexivity. Qed.

Lemma DecodeString_EncodeToString (b : list Byte.byte) :
  HexDecoder.DecodeString (list_byte_of_string (HexDecoder.EncodeToString b)) = Some b.
Proof.
  induction b as [|c b IH]; [reflexivity|].
  cbn [HexDecoder.EncodeToString]. rewrite bytes_of_app, DecodeString_hex_byte.
  now rewrite IH.
Qed.

Lemma hex_byte_chars (c : Byte.byte) :
  forallb HexDecoder.isHexChar (list_byte_of_string (Snmp.hex_byte c)) = true.
Proof. destruct c; reflexivity. Qed.

Lemma EncodeToString_shape (b : list Byte.byte) :
  length (list_byte_of_string (HexDecoder.EncodeToString b)) = (2 * length b)%nat
  /\ forallb HexDecoder.isHexChar (list_byte_of_string (HexDecoder.EncodeToString b))
     = true.
Proof.
  induction b as [|c b [IHl IHc]]; [now split|].
  cbn [HexDecoder.EncodeToString]. rewrite bytes_of_app. split.
  - rewrite length_app, IHl. cbn [length]. 
    replace (length (list_byte_of_string (Snmp.hex_byte c))) with 2%nat by reflexivity.
    lia.
  - rewrite forallb_app, hex_byte_chars, IHc. reflexivity.
Qed.

(** X13. The decoder reads back the hexadecimal text of readable bytes:
    when more than 80 % of the bytes are printable, [DecodeValue] turns
    the text [hex.EncodeToString] prints for them, given as a string or
    as bytes, into the bytes themselves.  So a string of hexadecimal
    digits that stands for a number or a serial is rewritten whenever its
    digit pairs happen to be printable characters. *)
Theorem DecodeValue_reads_back_hex_text (b : list Byte.byte) :
  HexDecoder.isTextLike b = true ->
  HexDecoder.DecodeValue (Snmp.Str (HexDecoder.EncodeToString b))
  = Snmp.string_of_bytes b
  /\ HexDecoder.DecodeValue
       (Snmp.Bytes (list_byte_of_string (HexDecoder.EncodeToString b)))
     = Snmp.string_of_bytes b.
Proof.
  intros Htext.
  assert (Hne : (0 < length b)%nat) by (destruct b; [discriminate | cbn; lia]).
  destruct (EncodeToString_shape b) as [Hlen Hchars].
  assert (Hdec : (if HexDecoder.IsHexASCII (list_byte_of_string (HexDecoder.EncodeToString b))
                  then HexDecoder.DecodeHexASCII
                         (list_byte_of_string (HexDecoder.EncodeToString b))
                  else None) = Some (Snmp.string_of_bytes b)).
  { unfold HexDecoder.IsHexASCII, HexDecoder.DecodeHexASCII.
    rewrite Hchars, Hlen, DecodeString_EncodeToString, Htext.
    replace (Z.of_nat (2 * length b) mod 2 =? 0) with true
      by (symmetry; apply Z.eqb_eq; rewrite Nat2Z.inj_mul, Z.mul_comm;
          apply Z.mod_mul; lia).
    cbn [negb].
    replace (0 <? Z.of_nat (2 * length b)) with true
      by (symmetry; apply Z.ltb_lt; lia).
    reflexivity. }
  unfold HexDecoder.DecodeValue. now rewrite Hdec.
Qed.

Lemma DecodeValue_reads_back_hex_text_witness :
  HexDecoder.DecodeValue (Snmp.Str (HexDecoder.EncodeToString Examples.samsun))
  = Snmp.string_of_bytes Examples.samsun
  /\ HexDecoder.DecodeValue
       (Snmp.Bytes (list_byte_of_string (HexDecoder.EncodeToString Examples.samsun)))
     = Snmp.string_of_bytes Examples.samsun.
Proof.
  apply (DecodeValue_reads_back_hex_text Examples.samsun). vm_compute. reflexivity.
Defined.
(** ** Detection and confidence together *)

Lemma In_levels (q : Q) :
  existsb (fun l => Qeq_bool l q && (Qnum l =? Qnum q) && (Z.pos (Qden l) =? Z.pos (Qden q)))
          Confidence.levels = true ->
  In q Confidence.levels.
Proof.
  intros H. apply existsb_exists in H as (l & Hin & Hl).
  apply andb_true_iff in Hl as [Hl Hd]. apply andb_true_iff in Hl as [_ Hn].
  apply Z.eqb_eq in Hn, Hd. destruct l as [ln ld], q as [qn qd]. cbn in Hn, Hd.
  injection Hd as ->. subst ln. exact Hin.
Qed.

Lemma GetBrandConfidence_values (lowerRunes : string -> string)
    (sysDescr brand : string) :
  (brand = "Generic"
   /\ Confidence.GetBrandConfidence lowerRunes sysDescr brand = (50 # 100)%Q)
  \/ (brand <> "Generic"
      /\ In (Confidence.GetBrandConfidence lowerRunes sysDescr brand)
            Confidence.levels).
Proof.
  unfold Confidence.GetBrandConfidence.
  generalize (Unicode.ToLower lowerRunes sysDescr). intros d.
  destruct (String.eqb_spec brand "HP") as [->|_].
  { right. split; [discriminate|].
    destruct (Go.Contains d "hewlett packard"), (Go.Contains d "hp"),
             (Go.Contains d "laserjet"); apply In_levels; reflexivity. }
  destruct (String.eqb_spec brand "Xerox") as [->|_].
  { right. split; [discriminate|].
    destruct (Go.Contains d "xerox"), (Go.Contains d "workcentre");
      apply In_levels; reflexivity. }
  destruct (String.eqb_spec brand "Brother") as [->|_].
  { right. split; [discriminate|].
    destruct (Go.Contains d "brother"), (Go.Contains d "hl-"), (Go.Contains d "mfc-");
      apply In_levels; reflexivity. }
  destruct (String.eqb_spec brand "Ricoh") as [->|_].
  { right. split; [discriminate|].
    destruct (Go.Contains d "ricoh"), (Go.Contains d "imagio");
      apply In_levels; reflexivity. }
  destruct (String.eqb_spec brand "Canon") as [->|_].
  { right. split; [discriminate|].
    destruct (Go.Contains d "canon"), (Go.Contains d "imagerunner");
      apply In_levels; reflexivity. }
  destruct (String.eqb_spec brand "Samsung") as [->|_].
  { right. split; [discriminate|].
    destruct (Go.Contains d "samsung"), (Go.Contains d "ml-"), (Go.Contains d "clp-");
      apply In_levels; reflexivity. }
  destruct (String.eqb_spec brand "Generic") as [->|Hne].
  { left. split; reflexivity. }
  right. split; [exact Hne|]. apply In_levels. reflexivity.
Qed.

Lemma DetectBrand_cases (lowerRunes : string -> string) (sysDescr : string) :
  (Detector.DetectBrand lowerRunes sysDescr = "Generic"
   /\ Detector.matchesPatterns (Unicode.ToLower lowerRunes sysDescr)
        Confidence.allPatterns = false)
  \/ (In (Detector.DetectBrand lowerRunes sysDescr) Confidence.brands
      /\ Detector.matchesPatterns (Unicode.ToLower lowerRunes sysDescr)
           Confidence.allPatterns = true).
Proof.
  unfold Detector.DetectBrand, Confidence.allPatterns, Detector.beforeSharp.
  rewrite !matchesPatterns_app.
  generalize (Unicode.ToLower lowerRunes sysDescr). intros low.
  repeat match goal with
         | |- context [Detector.matchesPatterns low ?p] =>
             destruct (Detector.matchesPatterns low p);
               [right; split; [cbn; tauto | reflexivity]|]
         end.
  left. split; reflexivity.
Qed.

(** X14. Brand and confidence as the agent computes them for a
    descriptor: the brand is Generic exactly when none of the patterns of
    the eleven brands occurs in the descriptor as [strings.ToLower]
    returns it, and the confidence is then 0.50; otherwise the brand is
    one of the eleven and the confidence is one of 0.75, 0.85, 0.90, 0.95,
    0.96, 0.98 and 0.99, so never below 0.75.  This holds whatever the
    case tables do with the runes outside ASCII. *)
Theorem DetectBrand_and_confidence (lowerRunes : string -> string)
    (sysDescr : string) :
  let descLower := Unicode.ToLower lowerRunes sysDescr in
  let brand := Detector.DetectBrand lowerRunes sysDescr in
  let confidence := Confidence.GetBrandConfidence lowerRunes sysDescr brand in
  (brand = "Generic"
   /\ confidence = (50 # 100)%Q
   /\ Detector.matchesPatterns descLower Confidence.allPatterns = false)
  \/ (In brand Confidence.brands
      /\ In confidence Confidence.levels
      /\ (75 # 100 <= confidence)%Q
      /\ Detector.matchesPatterns descLower Confidence.allPatterns = true).
Proof.
  intros descLower brand confidence. subst descLower.
  assert (Hlevels : forall q, In q Confidence.levels -> (75 # 100 <= q)%Q).
  { intros q Hq. cbn in Hq.
    repeat (destruct Hq as [<-|Hq]; [unfold Qle; cbn; lia|]). destruct Hq. }
  assert (Hbrands : In "Generic" Confidence.brands -> False).
  { cbn. intros H. repeat (destruct H as [H|H]; [discriminate H|]). exact H. }
  destruct (DetectBrand_cases lowerRunes sysDescr) as [[Hb Hm]|[Hb Hm]];
    fold brand in Hb;
    destruct (GetBrandConfidence_values lowerRunes sysDescr brand)
      as [[Hg Hc]|[Hg Hc]];
    fold confidence in Hc.
  - left. now repeat split.
  - now exfalso.
  - exfalso. rewrite Hg in Hb. now apply Hbrands.
  - right. split; [exact Hb|]. split; [exact Hc|]. split; [now apply Hlevels | exact Hm].
Qed.
(** ** The profile store: file names, restarts and rediscovery *)

Lemma ReplaceAll_chars (s : string) (old new : ascii) :
  Go.chars (Go.ReplaceAll s old (String new EmptyString))
  = map (fun c => if Ascii.eqb c old then new else c) (Go.chars s).
Proof.
  induction s as [|c s IH]; [reflexivity|].
  cbn [Go.ReplaceAll]. destruct (Ascii.eqb c old) eqn:Hc.
  - rewrite chars_app, !chars_cons, IH. cbn [map]. now rewrite Hc.
  - rewrite !chars_cons, IH. cbn [map]. now rewrite Hc.
Qed.

Lemma fold_ReplaceAll_chars (new : ascii) (l : list ascii) :
  existsb (Ascii.eqb new) l = false ->
  forall s,
    Go.chars (fold_left (fun safeID ch => Go.ReplaceAll safeID ch (String new EmptyString))
                l s)
    = map (fun c => if existsb (Ascii.eqb c) l then new else c) (Go.chars s).
Proof.
  induction l as [|ch l IH]; intros Hnew s; cbn [fold_left].
  - cbn [existsb]. now rewrite map_id.
  - cbn [existsb] in Hnew. apply orb_false_iff in Hnew as [Hch Hl].
    rewrite IH by exact Hl. rewrite ReplaceAll_chars, map_map.
    apply map_ext. intros c. cbn [existsb].
    destruct (Ascii.eqb c ch) eqn:Hc; cbn [orb]; [now rewrite Hl | reflexivity].
Qed.

(** X15. The file name of a profile: every slash, backslash, colon,
    star, question mark, double quote, angle bracket and bar of the
    printer id is replaced by an underscore, every other byte is kept in
    its place, and the extension is appended; the stem so holds none of
    the nine characters. *)
Theorem getFileName_replaces_unsafe_chars (printerID : string) :
  Profile.getFileName printerID
  = String.append (Go.str (map Shapes.safeChar (Go.chars printerID))) ".json"
  /\ Forall (fun c => existsb (Ascii.eqb c) Profile.unsafeChars = false)
            (map Shapes.safeChar (Go.chars printerID)).
Proof.
  split.
  - unfold Profile.getFileName. f_equal. apply chars_inj.
    rewrite chars_str.
    apply (fold_ReplaceAll_chars "_"%char Profile.unsafeChars). reflexivity.
  - apply Forall_forall. intros c Hc. apply list_elem_of_In, in_map_iff in Hc.
    destruct Hc as (c0 & <- & _). unfold Shapes.safeChar.
    destruct (existsb (Ascii.eqb c0) Profile.unsafeChars) eqn:H; [reflexivity | exact H].
Qed.

(** X16. A saved profile survives a restart: when [SaveProfile] returns
    nil, a manager started later on the same directory, with nothing
    cached for the printer, gets from [GetOrDiscover] a new record that
    holds what the JSON round trip makes of the saved one. *)
Theorem SaveProfile_survives_restart
    (jsonImage : Profile.Profile -> option Profile.Profile)
    (m restarted : Profile.Manager) (l : Profile.ptr) (p : Profile.Profile) :
  Profile.heap m !! l = Some p ->
  snd (Profile.SaveProfile jsonImage m (Some l)) = None ->
  Profile.profileDir restarted = Profile.profileDir m ->
  Profile.disk restarted = Profile.disk (fst (Profile.SaveProfile jsonImage m (Some l))) ->
  Profile.cache restarted !! Profile.PrinterID p = None ->
  exists l' q,
    snd (Profile.GetOrDiscover restarted (Profile.PrinterID p)) = Some l'
    /\ Profile.heap (fst (Profile.GetOrDiscover restarted (Profile.PrinterID p))) !! l'
       = Some q
    /\ jsonImage p = Some q
    /\ Profile.heap restarted !! l' = None.
Proof.
  intros Hheap Hsaved Hdir Hdisk Hcache. revert Hsaved Hdisk.
  unfold Profile.SaveProfile. rewrite Hheap.
  destruct (String.eqb (Profile.PrinterID p) EmptyString); [discriminate|].
  unfold Profile.saveToDisk.
  destruct (jsonImage p) as [q|]; [|discriminate].
  cbn [Profile.writable].
  destruct (Profile.writable m); [|discriminate].
  cbn [fst snd Profile.disk]. intros _ Hdisk.
  unfold Profile.GetOrDiscover, Profile.loadFromDisk. rewrite Hcache, Hdisk.
  unfold Profile.filePath. cbn [Profile.profileDir]. rewrite Hdir, lookup_insert_eq.
  cbn [fst snd Profile.heap].
  exists (fresh (dom (Profile.heap restarted))), q.
  split; [reflexivity|]. split; [now rewrite lookup_insert_eq|]. split; [reflexivity|].
  apply not_elem_of_dom. apply is_fresh.
Qed.

Lemma SaveProfile_survives_restart_witness :
  exists l' q,
    snd (Profile.GetOrDiscover Samples.restartedManager "30cda7c72268") = Some l'
    /\ Profile.heap (fst (Profile.GetOrDiscover Samples.restartedManager
                            "30cda7c72268")) !! l' = Some q
    /\ Examples.exactJSON Examples.someProfile = Some q
    /\ Profile.heap Samples.restartedManager !! l' = None.
Proof.
  apply (SaveProfile_survives_restart Examples.exactJSON Examples.someManager
           Samples.restartedManager 1%positive Examples.someProfile);
    vm_compute; reflexivity.
Defined.

Lemma rate_below_threshold (attempts errors : Z) :
  0 < attempts -> attempts < 5 * errors ->
  Rediscovery.belowThreshold (inject_Z (attempts - errors) / inject_Z attempts)%Q = true.
Proof.
  intros Hpos Hlt. unfold Rediscovery.belowThreshold.
  apply negb_true_iff. destruct (Qle_bool _ _) eqn:Hle; [|reflexivity].
  exfalso. apply Qle_bool_iff in Hle.
  destruct attempts as [|pa|pa]; try lia.
  unfold Qle, Qdiv, Qmult, Qinv, inject_Z in Hle. cbn in Hle. lia.
Qed.

(** X18. Validation and rediscovery together.  After a successful
    [UpdateValidation], [NeedsRediscovery] answers no for as long as the
    discovery is at most seven days old.  After a failed one it answers
    yes at once when the attempts are fewer than five times the errors
    (so after any failure among the first three validations of a newly
    discovered profile) or when the errors in a row exceed five, however
    recent the discovery. *)
Theorem NeedsRediscovery_after_UpdateValidation
    (jsonImage : Profile.Profile -> option Profile.Profile)
    (m : Profile.Manager) (now later : Z) (printerID : string) (success : bool)
    (err : string) (l : Profile.ptr) (p : Profile.Profile) :
  Profile.cache m !! printerID = Some l ->
  Profile.heap m !! l = Some p ->
  0 < Profile.DiscoveryAttempts p < Go.int64_max ->
  0 <= Profile.ErrorCount p < Go.int64_max ->
  let m1 := fst (Profile.UpdateValidation jsonImage m now printerID success err) in
  (success = true ->
   Rediscovery.Since later (Profile.DiscoveredAt p) <= 7 * 24 * Rediscovery.Hour ->
   snd (Rediscovery.NeedsRediscovery m1 later printerID) = false)
  /\ (success = false ->
      Profile.DiscoveryAttempts p + 1 < 5 * (Profile.ErrorCount p + 1)
      \/ 5 <= Profile.ErrorCount p ->
      snd (Rediscovery.NeedsRediscovery m1 later printerID) = true).
Proof.
  intros Hcache Hheap Hda Hec m1. subst m1.
  unfold Profile.UpdateValidation. rewrite Hcache, Hheap.
  match goal with
  | |- context [Profile.saveToDisk jsonImage ?m' ?q] =>
      destruct (saveToDisk_heap jsonImage m' q) as [Hh Hc];
      set (m1 := fst (Profile.saveToDisk jsonImage m' q)) in *
  end.
  cbn [Profile.heap Profile.cache] in Hh, Hc.
  unfold Rediscovery.NeedsRediscovery, Profile.GetOrDiscover.
  rewrite Hc, Hcache, Hh, lookup_insert_eq. cbn [snd].
  assert (Hwa : Go.wrap64 (Profile.DiscoveryAttempts p + 1)
                = Profile.DiscoveryAttempts p + 1)
    by (apply wrap64_in_range; unfold Go.int64_min, Go.int64_max in *; lia).
  assert (Hwe : Go.wrap64 (Profile.ErrorCount p + 1) = Profile.ErrorCount p + 1)
    by (apply wrap64_in_range; unfold Go.int64_min, Go.int64_max in *; lia).
  clearbody m1. clear Hh Hc. unfold Profile.validate. split.
  - intros -> Hage. cbn [Profile.setValidation Profile.DiscoveredAt
                          Profile.SuccessRate Profile.ErrorCount].
    apply Z.ltb_ge in Hage. rewrite Hage. reflexivity.
  - intros -> Hbad. rewrite Hwa, Hwe.
    cbn [Profile.setValidation Profile.DiscoveredAt Profile.SuccessRate
           Profile.ErrorCount].
    destruct (7 * 24 * Rediscovery.Hour <? _); [reflexivity|].
    assert (Hpos : (0 <? Profile.DiscoveryAttempts p + 1) = true)
      by (apply Z.ltb_lt; lia).
    rewrite Hpos.
    destruct (Z_lt_dec (Profile.DiscoveryAttempts p + 1)
                       (5 * (Profile.ErrorCount p + 1))) as [Hfew|Hmany].
    + assert (Hwd : Go.wrap64 (Profile.DiscoveryAttempts p + 1
                               - (Profile.ErrorCount p + 1))
                    = Profile.DiscoveryAttempts p + 1 - (Profile.ErrorCount p + 1))
        by (apply wrap64_in_range; unfold Go.int64_min, Go.int64_max in *; lia).
      rewrite Hwd, rate_below_threshold by lia. reflexivity.
    + destruct (Rediscovery.belowThreshold _); [reflexivity|].
      assert (Hfive : (5 <? Profile.ErrorCount p + 1) = true)
        by (apply Z.ltb_lt; lia).
      now rewrite Hfive.
Qed.

Lemma NeedsRediscovery_after_UpdateValidation_witness :
  let m1 := fst (Profile.UpdateValidation Examples.exactJSON Examples.someManager
                   1700003600 "30cda7c72268" false "no response") in
  (false = true ->
   Rediscovery.Since 1700007200 (Profile.DiscoveredAt Examples.someProfile)
   <= 7 * 24 * Rediscovery.Hour ->
   snd (Rediscovery.NeedsRediscovery m1 1700007200 "30cda7c72268") = false)
  /\ (false = false ->
      Profile.DiscoveryAttempts Examples.someProfile + 1
      < 5 * (Profile.ErrorCount Examples.someProfile + 1)
      \/ 5 <= Profile.ErrorCount Examples.someProfile ->
      snd (Rediscovery.NeedsRediscovery m1 1700007200 "30cda7c72268") = true).
Proof.
  apply (NeedsRediscovery_after_UpdateValidation Examples.exactJSON
           Examples.someManager 1700003600 1700007200 "30cda7c72268" false
           "no response" 1%positive Examples.someProfile).
  - vm_compute. reflexivity.
  - vm_compute. reflexivity.
  - vm_compute. split; reflexivity.
  - vm_compute. split; [discriminate | reflexivity].
Defined.
(** ** The mapping of walked counters by value *)

Lemma maxEntry_fold_spec (entries : list (string * Z)) :
  (forall e, e ∈ entries -> 0 < snd e) ->
  Shapes.maxInv entries (foldl Collector.maxEntry (0, EmptyString, 0, EmptyString) entries).
Proof.
  induction entries as [|[oid val] entries IH] using rev_ind; intros Hpos.
  - cbn. split; [lia|]. split; [right; now repeat split|].
    split; [lia|]. split; [intros e He; inversion He|].
    split; [lia|]. intros e He. inversion He.
  - rewrite foldl_snoc.
    assert (Hval : 0 < val).
    { apply (Hpos (oid, val)). apply elem_of_app. right. now left. }
    assert (IH' : Shapes.maxInv entries
                    (foldl Collector.maxEntry (0, EmptyString, 0, EmptyString) entries)).
    { apply IH. intros e He. apply Hpos. apply elem_of_app. now left. }
    clear IH Hpos.
    destruct (foldl Collector.maxEntry _ entries) as [[[m mo] s] so].
    unfold Shapes.maxInv in IH'. destruct IH' as (Hs & Hsm & Hm & Hle & Hse & Hbelow).
    assert (Hin : forall e, e ∈ (entries ++ [(oid, val)])%list ->
                            e ∈ entries \/ e = (oid, val)).
    { intros e He. apply elem_of_app in He as [He|He]; [now left|].
      right. now apply list_elem_of_singleton in He. }
    assert (Hold : forall e, e ∈ entries -> e ∈ (entries ++ [(oid, val)])%list)
      by (intros e He; apply elem_of_app; now left).
    assert (Hnew : (oid, val) ∈ (entries ++ [(oid, val)])%list)
      by (apply elem_of_app; right; now left).
    unfold Collector.maxEntry.
    destruct (m <? val) eqn:Hmv.
    + apply Z.ltb_lt in Hmv. unfold Shapes.maxInv.
      split; [lia|]. split; [left; lia|]. split; [intros _; now exists (oid, val)|].
      split.
      { intros e He. destruct (Hin e He) as [He'| ->]; [|cbn; lia].
        specialize (Hle e He'). lia. }
      split.
      { intros Hm0. destruct (Hm Hm0) as (e & He & Hev). exists e. split; [auto | exact Hev]. }
      intros e He Hlt. destruct (Hin e He) as [He'| ->]; [now apply Hle | cbn in Hlt; lia].
    + apply Z.ltb_ge in Hmv.
      destruct ((s <? val) && negb (val =? m)) eqn:Hsv.
      * apply andb_true_iff in Hsv as [Hsv Hne]. apply Z.ltb_lt in Hsv.
        apply negb_true_iff, Z.eqb_neq in Hne. unfold Shapes.maxInv.
        split; [lia|]. split; [left; lia|]. split.
        { intros Hm0. destruct (Hm Hm0) as (e & He & Hev). exists e. split; [auto | exact Hev]. }
        split.
        { intros e He. destruct (Hin e He) as [He'| ->]; [now apply Hle | cbn; lia]. }
        split; [intros _; now exists (oid, val)|].
        intros e He Hlt. destruct (Hin e He) as [He'| ->]; [|cbn; lia].
        specialize (Hbelow e He' Hlt). lia.
      * unfold Shapes.maxInv. split; [exact Hs|]. split.
        { destruct Hsm as [Hsm|(-> & -> & ->)]; [now left|]. lia. }
        split.
        { intros Hm0. destruct (Hm Hm0) as (e & He & Hev). exists e. split; [auto | exact Hev]. }
        split.
        { intros e He. destruct (Hin e He) as [He'| ->]; [now apply Hle | cbn; lia]. }
        split.
        { intros Hs0. destruct (Hse Hs0) as (e & He & Hev). exists e. split; [auto | exact Hev]. }
        intros e He Hlt. destruct (Hin e He) as [He'| ->]; [now apply Hbelow|].
        cbn in Hlt |- *. apply andb_false_iff in Hsv as [Hsv|Hsv].
        -- now apply Z.ltb_ge in Hsv.
        -- apply negb_false_iff, Z.eqb_eq in Hsv. lia.
Qed.

Lemma counter_key_not_total (rest : string) :
  String.append "counter_" rest <> "total_pages"
  /\ String.append "counter_" rest <> "color_pages".
Proof. split; intros H; cbn [String.append] in H; discriminate H. Qed.

(** X19. Without a profile the walked counters are told apart by size
    alone: [mapCountersFromWalk] stores the largest of the values as
    total_pages, whatever its OID, and the largest value below it, if
    there is one, as color_pages. *)
Theorem mapCountersFromWalk_total_is_maximum
    (data : Collector.PrinterData) (allCounters : gmap string Z) :
  (forall k n, allCounters !! k = Some n -> 0 < n) ->
  allCounters <> ∅ ->
  let nc := Collector.NormalizedCounters (Collector.mapCountersFromWalk data allCounters) in
  exists m,
    nc !! "total_pages" = Some (Dyn.VInt64 m)
    /\ (exists k, allCounters !! k = Some m)
    /\ (forall k n, allCounters !! k = Some n -> n <= m)
    /\ ((nc !! "color_pages" = Collector.NormalizedCounters data !! "color_pages"
         /\ forall k n, allCounters !! k = Some n -> n = m)
        \/ exists s,
             nc !! "color_pages" = Some (Dyn.VInt64 s)
             /\ s < m
             /\ (exists k, allCounters !! k = Some s)
             /\ forall k n, allCounters !! k = Some n -> n < m -> n <= s).
Proof.
  intros Hpos Hne nc. subst nc. unfold Collector.mapCountersFromWalk.
  assert (Hentries : forall e, e ∈ Dyn.range allCounters -> 0 < snd e).
  { intros [k n] He. apply elem_of_map_to_list in He. now apply (Hpos k). }
  pose proof (maxEntry_fold_spec _ Hentries) as Hinv.
  destruct (foldl Collector.maxEntry _ _) as [[[m mo] s] so].
  unfold Shapes.maxInv in Hinv. destruct Hinv as (Hs & Hsm & Hm & Hle & Hse & Hbelow).
  assert (Hmpos : 0 < m).
  { destruct (map_to_list allCounters) as [|e l] eqn:Hl.
    - exfalso. apply Hne. now apply map_to_list_empty_iff.
    - assert (He : e ∈ Dyn.range allCounters) by (unfold Dyn.range; rewrite Hl; now left).
      specialize (Hle e He). specialize (Hentries e He). lia. }
  assert (Hsm' : s < m) by (destruct Hsm as [H|(H & _)]; lia).
  fields.
  match goal with
  | |- context [foldl ?f ?nc2 (Dyn.range allCounters)] =>
      assert (Hkeep : foldl f nc2 (Dyn.range allCounters) !! "total_pages"
                      = nc2 !! "total_pages"
                      /\ foldl f nc2 (Dyn.range allCounters) !! "color_pages"
                         = nc2 !! "color_pages");
      [apply (foldl_invariant
                (fun nc : Dyn.Bucket => nc !! "total_pages" = nc2 !! "total_pages"
                                        /\ nc !! "color_pages" = nc2 !! "color_pages"));
       [now split|
        intros nc [oid val] [H1 H2] _;
        destruct ((val =? m) || (val =? s)); [now split|];
        destruct ((0 <? val) && (val <? 10000)); [|now split];
        rewrite !lookup_insert_ne by apply counter_key_not_total; now split]
      | destruct Hkeep as [Ht Hc]; rewrite Ht, Hc; clear Ht Hc]
  end.
  apply Z.ltb_lt in Hmpos as Hmb. rewrite Hmb.
  exists m. split.
  { destruct ((0 <? s) && negb (s =? m));
      [rewrite lookup_insert_ne by discriminate|]; apply lookup_insert_eq. }
  split.
  { destruct (Hm Hmpos) as ([k n] & He & Hev). cbn in Hev. subst n.
    exists k. now apply elem_of_map_to_list. }
  split.
  { intros k n Hk. apply (Hle (k, n)). now apply elem_of_map_to_list. }
  destruct (0 <? s) eqn:Hs0.
  - apply Z.ltb_lt in Hs0.
    assert (Hsne : (s =? m) = false) by (apply Z.eqb_neq; lia).
    rewrite Hsne. cbn [andb negb]. right. exists s.
    split; [apply lookup_insert_eq|]. split; [exact Hsm'|]. split.
    + destruct (Hse Hs0) as ([k n] & He & Hev). cbn in Hev. subst n.
      exists k. now apply elem_of_map_to_list.
    + intros k n Hk. apply (Hbelow (k, n)). now apply elem_of_map_to_list.
  - apply Z.ltb_ge in Hs0. cbn [andb]. left. split.
    + now rewrite lookup_insert_ne by discriminate.
    + intros k n Hk.
      assert (He : (k, n) ∈ Dyn.range allCounters) by now apply elem_of_map_to_list.
      pose proof (Hle _ He) as H1. cbn in H1.
      destruct (Z.eq_dec n m) as [Heq|Hneq]; [exact Heq|].
      assert (Hlt : n < m) by lia.
      pose proof (Hbelow _ He Hlt) as H2. pose proof (Hpos k n Hk). cbn in H2. lia.
Qed.

Lemma mapCountersFromWalk_total_is_maximum_witness :
  let nc := Collector.NormalizedCounters
              (Collector.mapCountersFromWalk Examples.blankData Samples.walkedCounters) in
  exists m,
    nc !! "total_pages" = Some (Dyn.VInt64 m)
    /\ (exists k, Samples.walkedCounters !! k = Some m)
    /\ (forall k n, Samples.walkedCounters !! k = Some n -> n <= m)
    /\ ((nc !! "color_pages"
         = Collector.NormalizedCounters Examples.blankData !! "color_pages"
         /\ forall k n, Samples.walkedCounters !! k = Some n -> n = m)
        \/ exists s,
             nc !! "color_pages" = Some (Dyn.VInt64 s)
             /\ s < m
             /\ (exists k, Samples.walkedCounters !! k = Some s)
             /\ forall k n, Samples.walkedCounters !! k = Some n -> n < m -> n <= s).
Proof.
  apply (mapCountersFromWalk_total_is_maximum Examples.blankData Samples.walkedCounters).
  - intros k n Hk. unfold Samples.walkedCounters in Hk.
    apply lookup_insert_Some in Hk as [[_ <-]|[_ Hk]]; [lia|].
    apply lookup_insert_Some in Hk as [[_ <-]|[_ Hk]]; [lia|].
    apply lookup_singleton_Some in Hk as [_ <-]. lia.
  - intros H. apply (f_equal (fun m : gmap string Z => m !! "1.3.6.1.2.1.43.10.2.1.4.1.1")) in H.
    vm_compute in H. discriminate H.
Defined.

(** ** The sentinel test *)

Lemma land_pred_zero (v : Z) :
  0 < v -> Z.land v (v - 1) = 0 -> v = 2 ^ Z.log2 v.
Proof.
  intros Hv Hland. pose proof (Z.log2_spec v Hv) as [Hlo Hhi].
  pose proof (Z.log2_nonneg v) as Hk.
  destruct (Z.eq_dec v (2 ^ Z.log2 v)) as [Heq|Hne]; [exact Heq|exfalso].
  assert (Hpow : 0 < 2 ^ Z.log2 v) by (apply Z.pow_pos_nonneg; lia).
  assert (Hlog : Z.log2 (v - 1) = Z.log2 v) by (apply Z.log2_unique; lia).
  assert (Hb1 : Z.testbit v (Z.log2 v) = true) by (apply Z.bit_log2; lia).
  assert (Hb2 : Z.testbit (v - 1) (Z.log2 v) = true)
    by (rewrite <- Hlog; apply Z.bit_log2; lia).
  assert (Hb : Z.testbit (Z.land v (v - 1)) (Z.log2 v) = true)
    by (rewrite Z.land_spec, Hb1, Hb2; reflexivity).
  rewrite Hland, Z.bits_0 in Hb. discriminate.
Qed.

(** X20. What [isSuspiciousValue] rejects: the fourteen values of its
    table and every power of two above 1000, and nothing else.  A device
    whose page count stands at 1024, 2048, 4096 and so on is therefore
    taken for a sentinel, while no count up to 1000 ever is. *)
Theorem isSuspiciousValue_iff (val : Z) :
  Collector.isSuspiciousValue val = true
  <-> In val Collector.suspiciousValues
      \/ (1000 < val /\ exists k, 0 <= k /\ val = 2 ^ k).
Proof.
  split.
  - unfold Collector.isSuspiciousValue.
    destruct (existsb (Z.eqb val) Collector.suspiciousValues) eqn:Htable.
    + intros _. left. apply existsb_exists in Htable as (x & Hin & Hx).
      apply Z.eqb_eq in Hx. now subst x.
    + destruct ((1000 <? val) && (Z.land val (val - 1) =? 0)) eqn:Hpow; [|discriminate].
      intros _. right. apply andb_true_iff in Hpow as [Hbig Hland].
      apply Z.ltb_lt in Hbig. apply Z.eqb_eq in Hland. split; [exact Hbig|].
      exists (Z.log2 val). split; [apply Z.log2_nonneg|].
      apply land_pred_zero; [lia | exact Hland].
  - intros [Hin | (Hbig & k & Hk & ->)].
    + unfold Collector.isSuspiciousValue.
      assert (Htable : existsb (Z.eqb val) Collector.suspiciousValues = true).
      { apply existsb_exists. exists val. split; [exact Hin | apply Z.eqb_refl]. }
      now rewrite Htable.
    + now apply isSuspiciousValue_power_of_two.
Qed.

(** ** Discovery of additional data *)

Lemma has_key_false {A} (m : gmap string A) (k : string) :
  Collector.has_key m k = false -> m !! k = None.
Proof. unfold Collector.has_key. destruct (m !! k); [discriminate | reflexivity]. Qed.

Lemma discoverEntry_extends (groupName : string) (data : Collector.PrinterData)
    (res : Collector.WalkResult) :
  let data' := Collector.discoverEntry groupName data res in
  Collector.Identification data ⊆ Collector.Identification data'
  /\ Collector.Status data ⊆ Collector.Status data'
  /\ Collector.Counters data ⊆ Collector.Counters data'
  /\ Collector.Supplies data ⊆ Collector.Supplies data'
  /\ Collector.NormalizedCounters data' = Collector.NormalizedCounters data
  /\ Collector.MissingSections data' = Collector.MissingSections data.
Proof.
  unfold Collector.discoverEntry.
  destruct (_ || _ || _); [now repeat split|].
  match goal with
  | |- context [Collector.has_key (Collector.Identification data) ?k] => set (key := k)
  end.
  destruct (Collector.has_key (Collector.Identification data) key) eqn:H1;
    [now repeat split|].
  destruct (Collector.has_key (Collector.Status data) key) eqn:H2; [now repeat split|].
  destruct (Collector.has_key (Collector.Counters data) key) eqn:H3; [now repeat split|].
  destruct (Collector.has_key (Collector.Supplies data) key) eqn:H4; [now repeat split|].
  apply has_key_false in H1, H2, H3, H4. cbn [negb andb].
  repeat match goal with
         | |- context [if ?c then _ else _] => destruct c
         end; fields; repeat split; try reflexivity; now apply insert_subseteq.
Qed.

Lemma discoverAdditionalData_extends
    (data : Collector.PrinterData) (client : Collector.SNMPClient) :
  let data' := Collector.discoverAdditionalData data client in
  Collector.Identification data ⊆ Collector.Identification data'
  /\ Collector.Status data ⊆ Collector.Status data'
  /\ Collector.Counters data ⊆ Collector.Counters data'
  /\ Collector.Supplies data ⊆ Collector.Supplies data'
  /\ Collector.NormalizedCounters data' = Collector.NormalizedCounters data
  /\ Collector.MissingSections data' = Collector.MissingSections data.
Proof.
  unfold Collector.discoverAdditionalData.
  set (P := fun d : Collector.PrinterData =>
              Collector.Identification data ⊆ Collector.Identification d
              /\ Collector.Status data ⊆ Collector.Status d
              /\ Collector.Counters data ⊆ Collector.Counters d
              /\ Collector.Supplies data ⊆ Collector.Supplies d
              /\ Collector.NormalizedCounters d = Collector.NormalizedCounters data
              /\ Collector.MissingSections d = Collector.MissingSections data).
  apply (foldl_invariant P).
  - now repeat split.
  - intros d [groupName basOID] Hd _.
    destruct (Collector.Walk client basOID) as [results|]; [|exact Hd].
    apply (foldl_invariant P); [exact Hd|].
    intros d' res (I1 & I2 & I3 & I4 & I5 & I6) _.
    destruct (discoverEntry_extends groupName d' res) as (E1 & E2 & E3 & E4 & E5 & E6).
    unfold P. repeat split.
    + now transitivity (Collector.Identification d').
    + now transitivity (Collector.Status d').
    + now transitivity (Collector.Counters d').
    + now transitivity (Collector.Supplies d').
    + now rewrite E5.
    + now rewrite E6.
Qed.

(** X21. The discovery WALKs only add: every entry the identification,
    status, counters and supplies buckets held before
    [discoverAdditionalData] is still there afterwards with the value it
    had, and the normalised counters are not touched. *)
Theorem discoverAdditionalData_never_overwrites
    (data : Collector.PrinterData) (client : Collector.SNMPClient) :
  let data' := Collector.discoverAdditionalData data client in
  Collector.Identification data ⊆ Collector.Identification data'
  /\ Collector.Status data ⊆ Collector.Status data'
  /\ Collector.Counters data ⊆ Collector.Counters data'
  /\ Collector.Supplies data ⊆ Collector.Supplies data'
  /\ Collector.NormalizedCounters data' = Collector.NormalizedCounters data
  /\ Collector.MissingSections data' = Collector.MissingSections data.
Proof. exact (discoverAdditionalData_extends data client). Qed.
(** ** The exchange sort *)

Section SortSorts.
Context {A : Type} (value : A -> Z).

Lemma rearrangedFrom_refl (a : list A) (i : nat) : Shapes.rearrangedFrom a a i.
Proof. repeat split; eauto. Qed.

Lemma rearrangedFrom_trans (a b c : list A) (i : nat) :
  Shapes.rearrangedFrom a b i -> Shapes.rearrangedFrom b c i -> Shapes.rearrangedFrom a c i.
Proof.
  intros (L1 & B1 & T1 & P1) (L2 & B2 & T2 & P2). repeat split.
  - congruence.
  - intros p Hp. rewrite B2, B1 by exact Hp. reflexivity.
  - intros q z Hq Hz. destruct (T2 q z Hq Hz) as (q' & Hq' & Hz'). eauto.
  - now rewrite P2.
Qed.

Lemma exchange_step (a : list A) (i j : nat) :
  (i < j)%nat -> (j < length a)%nat ->
  Shapes.rearrangedFrom a (Collector.exchange value a i j) i
  /\ (Shapes.leads value a i j -> Shapes.leads value (Collector.exchange value a i j) i (S j)).
Proof.
  intros Hij Hj. unfold Collector.exchange.
  destruct (lookup_lt_is_Some_2 a i ltac:(lia)) as [x Hx].
  destruct (lookup_lt_is_Some_2 a j Hj) as [y Hy].
  rewrite Hx, Hy. destruct (value x <? value y) eqn:Hlt.
  - apply Z.ltb_lt in Hlt. split.
    + repeat split.
      * now rewrite !length_insert.
      * intros p Hp. rewrite !list_lookup_insert_ne by lia. reflexivity.
      * intros q z Hq Hz. destruct (decide (q = j)) as [->|Hqj].
        -- rewrite list_lookup_insert_eq in Hz by (rewrite length_insert; lia).
           injection Hz as <-. exists i. split; [lia | exact Hx].
        -- rewrite list_lookup_insert_ne in Hz by lia.
           destruct (decide (q = i)) as [->|Hqi].
           ++ rewrite list_lookup_insert_eq in Hz by lia.
              injection Hz as <-. exists j. split; [lia | exact Hy].
           ++ rewrite list_lookup_insert_ne in Hz by lia. exists q. now split.
      * now apply Permutation_insert_swap.
    + intros Hlead k z x' Hk Hz Hx'.
      rewrite list_lookup_insert_ne in Hx' by lia.
      rewrite list_lookup_insert_eq in Hx' by lia. injection Hx' as <-.
      destruct (decide (k = j)) as [->|Hkj].
      * rewrite list_lookup_insert_eq in Hz by (rewrite length_insert; lia).
        injection Hz as <-. lia.
      * rewrite !list_lookup_insert_ne in Hz by lia.
        specialize (Hlead k z x ltac:(lia) Hz Hx). lia.
  - apply Z.ltb_ge in Hlt. split; [apply rearrangedFrom_refl|].
    intros Hlead k z x' Hk Hz Hx'. rewrite Hx in Hx'. injection Hx' as <-.
    destruct (decide (k = j)) as [->|Hkj].
    + rewrite Hy in Hz. injection Hz as <-. exact Hlt.
    + apply (Hlead k z x); [lia | exact Hz | exact Hx].
Qed.

Lemma innerLoop_spec (i : nat) :
  forall (fuel j : nat) (a : list A),
    (i < j)%nat -> (length a - j <= fuel)%nat -> Shapes.leads value a i j ->
    Shapes.rearrangedFrom a (Collector.innerLoop value fuel i j a) i
    /\ Shapes.leads value (Collector.innerLoop value fuel i j a) i (length a).
Proof.
  induction fuel as [|fuel IH]; intros j a Hij Hfuel Hlead; cbn [Collector.innerLoop].
  - split; [apply rearrangedFrom_refl|].
    intros k z x Hk Hz Hx. apply (Hlead k z x); [|exact Hz | exact Hx]. lia.
  - destruct (j <? length a)%nat eqn:Hj.
    + apply Nat.ltb_lt in Hj.
      destruct (exchange_step a i j Hij Hj) as [Hre Hstep].
      pose proof Hre as (Hlen & _).
      destruct (IH (S j) (Collector.exchange value a i j)) as [Hre' Hlead'];
        [lia | lia | now apply Hstep |].
      split; [now apply (rearrangedFrom_trans _ _ _ _ Hre)|].
      now rewrite <- Hlen.
    + apply Nat.ltb_ge in Hj. split; [apply rearrangedFrom_refl|].
      intros k z x Hk Hz Hx. apply (Hlead k z x); [|exact Hz | exact Hx]. lia.
Qed.

Lemma outerLoop_spec :
  forall (fuel i : nat) (a : list A),
    (length a - i <= fuel)%nat -> Shapes.settled value a i ->
    Collector.outerLoop value fuel i a ≡ₚ a
    /\ Shapes.settled value (Collector.outerLoop value fuel i a)
               (length (Collector.outerLoop value fuel i a)).
Proof.
  induction fuel as [|fuel IH]; intros i a Hfuel Hset; cbn [Collector.outerLoop].
  - split; [reflexivity|]. intros p q x z Hp Hpq Hx Hz.
    apply (Hset p q x z); [lia | exact Hpq | exact Hx | exact Hz].
  - destruct (i <? length a)%nat eqn:Hi.
    + apply Nat.ltb_lt in Hi.
      destruct (innerLoop_spec i (length a) (S i) a) as [(Hlen & Hlow & Htail & Hperm) Hlead];
        [lia | lia | intros k z x Hk; lia |].
      set (a1 := Collector.innerLoop value (length a) i (S i) a) in *.
      destruct (IH (S i) a1) as [Hperm' Hset']; [lia | |].
      * intros p q x z Hp Hpq Hx Hz.
        destruct (decide (p = i)) as [->|Hpi].
        -- apply (Hlead q z x); [|exact Hz | exact Hx].
           split; [lia|]. rewrite <- Hlen. now apply lookup_lt_Some in Hz.
        -- rewrite Hlow in Hx by lia.
           destruct (decide (q < i)%nat) as [Hqi|Hqi].
           ++ rewrite Hlow in Hz by lia. apply (Hset p q x z); [lia | lia | exact Hx | exact Hz].
           ++ destruct (Htail q z ltac:(lia) Hz) as (q' & Hq' & Hz').
              apply (Hset p q' x z); [lia | lia | exact Hx | exact Hz'].
      * split; [now rewrite Hperm' | exact Hset'].
    + apply Nat.ltb_ge in Hi. split; [reflexivity|].
      intros p q x z Hp Hpq Hx Hz.
      apply (Hset p q x z); [lia | exact Hpq | exact Hx | exact Hz].
Qed.

End SortSorts.

(** X22. The exchange sort of the two vendor mappings sorts: its result
    holds the values it was given, each as often as before, and no value
    at a later position is larger than one at an earlier position. *)
Theorem sortDescending_sorts {A : Type} (value : A -> Z) (a : list A) :
  Collector.sortDescending value a ≡ₚ a
  /\ forall p q x z,
       (p < q)%nat ->
       Collector.sortDescending value a !! p = Some x ->
       Collector.sortDescending value a !! q = Some z ->
       value z <= value x.
Proof.
  unfold Collector.sortDescending.
  destruct (outerLoop_spec value (length a) 0 a) as [Hperm Hset];
    [lia | intros p q x z Hp; lia |].
  split; [exact Hperm|].
  intros p q x z Hpq Hx Hz. apply (Hset p q x z); [|exact Hpq | exact Hx | exact Hz].
  now apply lookup_lt_Some in Hx.
Qed.
(** ** The state of the device *)

Lemma statusEntry_other (status : Dyn.Bucket) (oid val : string) :
  oid <> Shapes.hrDeviceStatus ->
  Collector.statusEntry status (oid, val) !! "state" = status !! "state".
Proof.
  intros Hoid. unfold Collector.statusEntry.
  destruct (_ || _); [reflexivity|].
  destruct (String.eqb_spec oid "1.3.6.1.2.1.25.3.2.1.5.1") as [->|_];
    [now exfalso|].
  repeat match goal with
         | |- context [if ?c then _ else _] => destruct c
         | |- context [match Go.ParseInt ?x with _ => _ end] =>
             destruct (Go.ParseInt x)
         end;
    rewrite ?lookup_insert_ne by discriminate; reflexivity.
Qed.

Lemma statusEntry_hrDeviceStatus (status : Dyn.Bucket) (val : string) :
  Collector.statusEntry status (Shapes.hrDeviceStatus, val) !! "state"
  = match Shapes.stateOf val with
    | Some state => Some (Dyn.VString state)
    | None => status !! "state"
    end.
Proof.
  unfold Collector.statusEntry, Shapes.stateOf, Shapes.hrDeviceStatus.
  destruct (_ || _); [reflexivity|].
  rewrite String.eqb_refl.
  rewrite lookup_insert_ne by discriminate. now rewrite lookup_insert_eq.
Qed.

Lemma statusLoop_absent (l : list (string * string)) :
  forall status : Dyn.Bucket,
    Shapes.hrDeviceStatus ∉ l.*1 ->
    foldl Collector.statusEntry status l !! "state" = status !! "state".
Proof.
  induction l as [|[oid val] l IH]; intros status Hl; [reflexivity|].
  cbn [foldl]. cbn in Hl. apply not_elem_of_cons in Hl as [Hne Hl].
  rewrite IH by exact Hl. apply statusEntry_other. congruence.
Qed.

Lemma statusLoop_present (l : list (string * string)) (val : string) :
  forall status : Dyn.Bucket,
    NoDup l.*1 -> (Shapes.hrDeviceStatus, val) ∈ l ->
    foldl Collector.statusEntry status l !! "state"
    = match Shapes.stateOf val with
      | Some state => Some (Dyn.VString state)
      | None => status !! "state"
      end.
Proof.
  induction l as [|[oid v] l IH]; intros status Hnd Hin; [inversion Hin|].
  cbn [foldl]. cbn in Hnd. apply NoDup_cons in Hnd as [Hfresh Hnd].
  apply elem_of_cons in Hin as [Heq|Hin].
  - injection Heq as <- <-. rewrite statusLoop_absent by exact Hfresh.
    apply statusEntry_hrDeviceStatus.
  - rewrite IH by assumption.
    assert (Hne : oid <> Shapes.hrDeviceStatus).
    { intros ->. apply Hfresh. apply list_elem_of_fmap.
      exists (Shapes.hrDeviceStatus, val). now split. }
    now rewrite statusEntry_other.
Qed.

(** X23. The state [collectStatus] reports depends on the answer to
    hrDeviceStatus alone, in whatever order the answers are visited: 1,
    2 and 3 give idle, offline and testing, and a missing, empty or zero
    answer, like any other value, gives unknown.  When the GET fails the
    record is left as it was. *)
Theorem collectStatus_state (data : Collector.PrinterData) (client : Collector.SNMPClient) :
  Collector.Status data !! "state" = None ->
  match Collector.GetMultiple client Collector.statusOIDs with
  | Ok results =>
      Collector.Status (Collector.collectStatus data client) !! "state"
      = Some (Dyn.VString
                (default "unknown" (results !! Shapes.hrDeviceStatus ≫= Shapes.stateOf)))
  | Err _ => Collector.collectStatus data client = data
  end.
Proof.
  intros Hstate. unfold Collector.collectStatus.
  destruct (Collector.GetMultiple client Collector.statusOIDs) as [results|];
    [|reflexivity].
  assert (Hfold : foldl Collector.statusEntry (Collector.Status data) (Dyn.range results)
                    !! "state"
                  = (results !! Shapes.hrDeviceStatus ≫= Shapes.stateOf)
                      ≫= (fun state => Some (Dyn.VString state))).
  { destruct (results !! Shapes.hrDeviceStatus) as [val|] eqn:Hhr.
    - rewrite (statusLoop_present _ val).
      + cbn. destruct (Shapes.stateOf val); [reflexivity | exact Hstate].
      + apply NoDup_fst_map_to_list.
      + now apply elem_of_map_to_list.
    - rewrite statusLoop_absent; [exact Hstate|].
      intros Hin. apply list_elem_of_fmap in Hin as ([oid val] & Hoid & Hin).
      cbn in Hoid. subst oid. apply elem_of_map_to_list in Hin. congruence. }
  unfold Collector.has_key. rewrite Hfold.
  destruct (results !! Shapes.hrDeviceStatus ≫= Shapes.stateOf) as [state|]; cbn.
  - now rewrite Hfold.
  - now rewrite lookup_insert_eq.
Qed.

Lemma collectStatus_state_witness :
  match Collector.GetMultiple Samples.idleClient Collector.statusOIDs with
  | Ok results =>
      Collector.Status (Collector.collectStatus Examples.blankData Samples.idleClient)
        !! "state"
      = Some (Dyn.VString
                (default "unknown" (results !! Shapes.hrDeviceStatus ≫= Shapes.stateOf)))
  | Err _ => Collector.collectStatus Examples.blankData Samples.idleClient
             = Examples.blankData
  end.
Proof.
  apply (collectStatus_state Examples.blankData Samples.idleClient). reflexivity.
Defined.

(** White space is trimmed as [strings.TrimSpace] does it, a no-break
    space included: a status answer padded with one still reads as 1. *)
Lemma collectStatus_trims_no_break_space :
  Shapes.stateOf (String.append Examples.nbsp (String.append "1" "  ")) = Some "idle"
  /\ Collector.Status (Collector.collectStatus Examples.blankData Examples.paddingClient)
       !! "state" = Some (Dyn.VString "idle").
Proof. split; vm_compute; reflexivity. Qed.

(** ** The sections reported missing *)

Lemma collectStatus_keeps (data : Collector.PrinterData) (client : Collector.SNMPClient) :
  Collector.MissingSections (Collector.collectStatus data client)
    = Collector.MissingSections data
  /\ Collector.Supplies (Collector.collectStatus data client) = Collector.Supplies data.
Proof.
  unfold Collector.collectStatus.
  destruct (Collector.GetMultiple client Collector.statusOIDs); [|now split].
  destruct (Collector.has_key _ "state"); now split.
Qed.

Lemma mapCounters_keeps (data : Collector.PrinterData) (client : Collector.SNMPClient)
    (prof : option Profile.Profile) :
  Collector.MissingSections (Collector.mapCounters data client prof)
    = Collector.MissingSections data
  /\ Collector.Supplies (Collector.mapCounters data client prof)
     = Collector.Supplies data.
Proof.
  unfold Collector.mapCounters.
  destruct (foldl Collector.walkEntry _ _) as [allCounters counters].
  assert (Hwalk : forall d all,
            Collector.MissingSections (Collector.mapCountersFromWalk d all)
              = Collector.MissingSections d
            /\ Collector.Supplies (Collector.mapCountersFromWalk d all)
               = Collector.Supplies d).
  { intros d all. unfold Collector.mapCountersFromWalk.
    destruct (foldl Collector.maxEntry _ _) as [[[m mo] s] so]. now split. }
  assert (Hprof : forall d p,
            Collector.MissingSections (Collector.collectCountersFromProfile d client p)
              = Collector.MissingSections d
            /\ Collector.Supplies (Collector.collectCountersFromProfile d client p)
               = Collector.Supplies d).
  { intros d p. unfold Collector.collectCountersFromProfile.
    destruct (default [] (Profile.OIDs p !! "counters")); [now split|].
    destruct (Collector.GetMultiple client _); now split. }
  assert (Hvendor : forall d,
            Collector.MissingSections (Collector.collectCountersVendorSpecific d client)
              = Collector.MissingSections d
            /\ Collector.Supplies (Collector.collectCountersVendorSpecific d client)
               = Collector.Supplies d).
  { intros d. unfold Collector.collectCountersVendorSpecific.
    destruct (Collector.vendorOIDsOf (Collector.Brand d)); [now split|].
    destruct (Collector.GetMultiple client _); now split. }
  match goal with
  | |- context [if _ then Collector.collectCountersVendorSpecific ?d client else _] =>
      assert (Hd : Collector.MissingSections d = Collector.MissingSections data
                   /\ Collector.Supplies d = Collector.Supplies data);
      [|destruct Hd as (H1 & H2);
        destruct (Collector.is_empty (Collector.NormalizedCounters d)
                  || Collector.total_is_nil (Collector.NormalizedCounters d));
        [destruct (Hvendor d) as (F1 & F2); rewrite F1, F2|]; now split]
  end.
  destruct prof as [p|].
  - destruct (default [] (Profile.OIDs p !! "counters")).
    + destruct (Hwalk (Collector.with_Counters data counters) allCounters) as (F1 & F2).
      rewrite F1, F2. now split.
    + destruct (Hprof (Collector.with_Counters data counters) p) as (F1 & F2).
      rewrite F1, F2. now split.
  - destruct (Hwalk (Collector.with_Counters data counters) allCounters) as (F1 & F2).
    rewrite F1, F2. now split.
Qed.

Lemma pageCountFallback_keeps (data : Collector.PrinterData) :
  Collector.MissingSections (Collector.pageCountFallback data)
    = Collector.MissingSections data
  /\ Collector.Supplies (Collector.pageCountFallback data) = Collector.Supplies data.
Proof.
  unfold Collector.pageCountFallback.
  match goal with |- context [if ?c then _ else _] => destruct c end; now split.
Qed.

Lemma promoteEntry_keeps_sections (printOther : Dyn.Any -> string)
    (data : Collector.PrinterData) (entry : string * string) :
  let data' := Collector.promoteEntry printOther data entry in
  Collector.MissingSections data' = Collector.MissingSections data
  /\ Collector.Status data' = Collector.Status data
  /\ Collector.Supplies data' = Collector.Supplies data
  /\ (Collector.Counters data' = ∅ -> Collector.Counters data = ∅).
Proof.
  destruct entry as [oid counterName]. unfold Collector.promoteEntry.
  destruct (Collector.Supplies data !! oid) as [val|]; [|now repeat split].
  match goal with |- context [if ?c then _ else _] => destruct c end;
    fields; [|now repeat split].
  repeat split. intros H. now apply insert_non_empty in H.
Qed.

Lemma extractPageCountersFromSupplies_keeps_sections (printOther : Dyn.Any -> string)
    (data : Collector.PrinterData) :
  let data' := Collector.extractPageCountersFromSupplies printOther data in
  Collector.MissingSections data' = Collector.MissingSections data
  /\ Collector.Status data' = Collector.Status data
  /\ Collector.Supplies data' = Collector.Supplies data
  /\ (Collector.Counters data' = ∅ -> Collector.Counters data = ∅).
Proof.
  unfold Collector.extractPageCountersFromSupplies. rewrite <- foldl_app.
  apply (foldl_invariant
           (fun d => Collector.MissingSections d = Collector.MissingSections data
                     /\ Collector.Status d = Collector.Status data
                     /\ Collector.Supplies d = Collector.Supplies data
                     /\ (Collector.Counters d = ∅ -> Collector.Counters data = ∅))).
  - now repeat split.
  - intros d entry (I1 & I2 & I3 & I4) _.
    destruct (promoteEntry_keeps_sections printOther d entry) as (E1 & E2 & E3 & E4).
    repeat split; [congruence | congruence | congruence | auto].
Qed.

Lemma subseteq_of_empty (small big : Dyn.Bucket) :
  small ⊆ big -> big = ∅ -> small = ∅.
Proof.
  intros Hsub ->. apply map_empty. intros k.
  destruct (small !! k) as [v|] eqn:Hk; [|reflexivity].
  apply (lookup_weaken _ _ _ _ Hk) in Hsub. now rewrite lookup_empty in Hsub.
Qed.

(** X24. The sections reported missing by steps 5 to 8 of
    [collectFromDevice], for a record that reaches step 5 without
    counters: to what was reported before are added, in order, counters
    when the counter WALK stored nothing, then status, supplies and
    counters for each of these buckets that is empty at the end.  So a
    device from which no counter at all was collected has counters in
    the list twice. *)
Theorem collection_reports_missing_sections
    (printOther : Dyn.Any -> string) (data : Collector.PrinterData)
    (client : Collector.SNMPClient) (prof : option Profile.Profile) (elapsed : Z) :
  Collector.Counters data = ∅ ->
  let collected :=
    Collector.finishCollection printOther
      (Collector.collectCounters data client prof) client elapsed in
  let walked := snd (foldl Collector.walkEntry (∅, ∅) (Collector.walkCounters client)) in
  Collector.MissingSections collected
  = (Collector.MissingSections data
     ++ Shapes.missingIfEmpty walked "counters"
     ++ Shapes.missingIfEmpty (Collector.Status collected) "status"
     ++ Shapes.missingIfEmpty (Collector.Supplies collected) "supplies"
     ++ Shapes.missingIfEmpty (Collector.Counters collected) "counters")%list
  /\ (Collector.Counters collected = ∅ ->
      exists between,
        Collector.MissingSections collected
        = (Collector.MissingSections data
           ++ "counters" :: between ++ ["counters"])%list).
Proof.
  intros Hcs2 collected walked.
  assert (Hlist : Collector.MissingSections collected
                  = (Collector.MissingSections data
                     ++ Shapes.missingIfEmpty walked "counters"
                     ++ Shapes.missingIfEmpty (Collector.Status collected) "status"
                     ++ Shapes.missingIfEmpty (Collector.Supplies collected) "supplies"
                     ++ Shapes.missingIfEmpty (Collector.Counters collected) "counters")%list
                  /\ (Collector.Counters collected = ∅ -> walked = ∅)).
  { subst collected walked.
    destruct (mapCounters_frame data client prof) as (_ & M2 & _).
    destruct (mapCounters_keeps data client prof) as (M3 & _).
    destruct (pageCountFallback_frame (Collector.mapCounters data client prof))
      as (_ & P2).
    destruct (pageCountFallback_keeps (Collector.mapCounters data client prof))
      as (P3 & _).
    assert (Hdata3 : Collector.MissingSections (Collector.collectCounters data client prof)
                     = (Collector.MissingSections data
                        ++ Shapes.missingIfEmpty
                             (snd (foldl Collector.walkEntry (∅, ∅)
                                         (Collector.walkCounters client))) "counters")%list
                     /\ Collector.Counters (Collector.collectCounters data client prof)
                        = snd (foldl Collector.walkEntry (∅, ∅)
                                     (Collector.walkCounters client))).
    { unfold Collector.collectCounters, Shapes.missingIfEmpty.
      rewrite P2, M2, Hcs2.
      destruct (Collector.is_empty _); fields; rewrite P3, M3, P2, M2, Hcs2;
        rewrite ?app_nil_r; now split. }
    destruct Hdata3 as [Hms3 Hcs3].
    set (data3 := Collector.collectCounters data client prof) in *.
    unfold Collector.finishCollection.
    destruct (discoverAdditionalData_extends data3 client) as (_ & _ & D3 & _ & _ & D6).
    set (dA := Collector.discoverAdditionalData data3 client) in *.
    destruct (extractPageCountersFromSupplies_keeps_sections printOther dA)
      as (E1 & _ & _ & E4).
    set (dB := Collector.extractPageCountersFromSupplies printOther dA) in *.
    assert (Hc : Collector.MissingSections (Collector.normalizeData printOther dB)
                 = Collector.MissingSections dB
                 /\ Collector.Counters (Collector.normalizeData printOther dB)
                    = Collector.Counters dB).
    { unfold Collector.normalizeData. destruct (Collector.is_empty _); now split. }
    destruct Hc as [N1 N2].
    set (dC := Collector.normalizeData printOther dB) in *.
    assert (Hms : Collector.MissingSections dC
                  = (Collector.MissingSections data
                     ++ Shapes.missingIfEmpty
                          (snd (foldl Collector.walkEntry (∅, ∅)
                                      (Collector.walkCounters client))) "counters")%list)
      by (rewrite N1, E1, D6; exact Hms3).
    assert (Hempty : Collector.Counters dC = ∅ ->
                     snd (foldl Collector.walkEntry (∅, ∅)
                                (Collector.walkCounters client)) = ∅).
    { intros H. rewrite N2 in H. apply E4 in H. rewrite <- Hcs3.
      now apply (subseteq_of_empty _ _ D3). }
    clearbody dC. clear - Hms Hempty.
    unfold Shapes.missingIfEmpty in *.
    destruct (Collector.is_empty (Collector.Status (Collector.with_ResponseTime dC elapsed)))
      eqn:T1; fields;
    destruct (Collector.is_empty (Collector.Supplies dC)) eqn:T2; fields;
    destruct (Collector.is_empty (Collector.Counters dC)) eqn:T3; fields;
      rewrite ?T1, ?T2, ?T3, Hms; (split; [|exact Hempty]);
      rewrite <- ?app_assoc; cbn [app]; rewrite ?app_nil_r; reflexivity. }
  destruct Hlist as [Hlist Hnone]. split; [exact Hlist|].
  intros Hempty. rewrite Hlist. rewrite (Hnone Hempty), Hempty.
  unfold Shapes.missingIfEmpty at 1 4.
  replace (Collector.is_empty (∅ : Dyn.Bucket)) with true by reflexivity.
  exists (Shapes.missingIfEmpty (Collector.Status collected) "status"
          ++ Shapes.missingIfEmpty (Collector.Supplies collected) "supplies")%list.
  cbn [app]. now rewrite <- app_assoc.
Qed.

Lemma collection_reports_missing_sections_witness :
  let collected :=
    Collector.finishCollection Examples.printQuestion
      (Collector.collectCounters Samples.unidentified Samples.silentClient None)
      Samples.silentClient 5 in
  let walked :=
    snd (foldl Collector.walkEntry (∅, ∅) (Collector.walkCounters Samples.silentClient)) in
  Collector.MissingSections collected
  = (Collector.MissingSections Samples.unidentified
     ++ Shapes.missingIfEmpty walked "counters"
     ++ Shapes.missingIfEmpty (Collector.Status collected) "status"
     ++ Shapes.missingIfEmpty (Collector.Supplies collected) "supplies"
     ++ Shapes.missingIfEmpty (Collector.Counters collected) "counters")%list
  /\ (Collector.Counters collected = ∅ ->
      exists between,
        Collector.MissingSections collected
        = (Collector.MissingSections Samples.unidentified
           ++ "counters" :: between ++ ["counters"])%list).
Proof.
  apply (collection_reports_missing_sections Examples.printQuestion
           Samples.unidentified Samples.silentClient None 5).
  reflexivity.
Defined.
(** ** The counters the agent stores and the counters it sends *)

Lemma collectFromDevice_named
    (printOther : Dyn.Any -> string) (client : Collector.SNMPClient)
    (devInfo : Collector.DeviceInfo) (prof : option Profile.Profile)
    (now elapsed : Z) (identification networkInfo consumibles : Dyn.Bucket)
    (errors missing : list string) :
  let data := Collector.collectFromDevice printOther client devInfo prof now elapsed
                identification networkInfo consumibles errors missing in
  Bounds.namedBounded (Collector.NormalizedCounters data)
  /\ Bounds.namedBounded (Collector.Counters data).
Proof.
  unfold Collector.collectFromDevice.
  match goal with
  | |- context [Collector.collectStatus ?d0 client] => set (data0 := d0)
  end.
  destruct (collectStatus_frame data0 client) as (S1 & S2 & S3).
  set (data1 := Collector.collectStatus data0 client) in *.
  match goal with
  | |- context [Collector.collectCounters ?d client prof] => set (data2 := d)
  end.
  destruct (collectCounters_frame data2 client prof) as (C1 & C2 & C3).
  destruct (mapCounters_frame data2 client prof) as (M1 & _ & _).
  set (data3 := Collector.collectCounters data2 client prof) in *.
  assert (Hnc : Bounds.allBounded (Collector.NormalizedCounters data3)).
  { rewrite C1. apply pageCountFallback_bounded.
    - apply mapCounters_bounded. subst data2. fields. rewrite S3.
      subst data0. fields. apply allBounded_empty.
    - rewrite M1. subst data2. fields. unfold Collector.getPageCountFromStatus.
      rewrite S1 by (subst data0; fields; apply lookup_empty).
      unfold Collector.counterLimit. lia. }
  assert (Hcs : Bounds.allBounded (Collector.Counters data3)).
  { rewrite C2. subst data2. fields. rewrite S2. subst data0. fields.
    destruct (walkLoop_spec (Collector.walkCounters client) ∅ ∅) as (_ & Hfrom & _).
    intros k val Hk.
    destruct (Hfrom k val Hk) as [H | (res & v & _ & _ & [_ Hrange] & ->)];
      [now rewrite lookup_empty in H|].
    now exists v. }
  exact (finishCollection_named printOther data3 client elapsed
           (allBounded_named _ Hnc) (allBounded_named _ Hcs)).
Qed.

Lemma extractCounterInt64_named (b : Dyn.Bucket) (k : string) :
  Bounds.namedBounded b -> In k Collector.counterNames ->
  Agent.extractCounterInt64 b k = Telemetry.extractCounter b [k].
Proof.
  intros Hb Hk. unfold Agent.extractCounterInt64. cbn [Telemetry.extractCounter].
  destruct (b !! k) as [val|] eqn:Hlook; [|reflexivity].
  destruct (Hb k val Hk Hlook) as (n & -> & _). reflexivity.
Qed.

(** X25. For a collected device the counters the agent hands to the
    state store are the absolute counters of the event it builds, field
    by field, and the store is left alone exactly when the event has no
    counters.  (The two are read by different functions, which differ on
    strings; the collector leaves integers under the six names.) *)
Theorem stored_counters_are_event_counters
    (printOther : Dyn.Any -> string) (client : Collector.SNMPClient)
    (devInfo : Collector.DeviceInfo) (prof : option Profile.Profile)
    (now elapsed : Z) (identification networkInfo consumibles : Dyn.Bucket)
    (errors missing : list string) (delta : option State.CountersDiff)
    (resetDetected : bool) :
  let data := Collector.collectFromDevice printOther client devInfo prof now elapsed
                identification networkInfo consumibles errors missing in
  Agent.currentCounters data
  = State.Absolute <$> Telemetry.buildCounters data delta resetDetected.
Proof.
  intros data.
  destruct (collectFromDevice_named printOther client devInfo prof now elapsed
              identification networkInfo consumibles errors missing) as [Hnc Hcs].
  fold data in Hnc, Hcs. clearbody data.
  unfold Agent.currentCounters, Telemetry.buildCounters.
  set (countersToUse := if Collector.is_empty (Collector.NormalizedCounters data)
                        then Collector.Counters data
                        else Collector.NormalizedCounters data).
  assert (Huse : Bounds.namedBounded countersToUse)
    by (subst countersToUse; destruct (Collector.is_empty _); assumption).
  assert (Hsame : negb (Collector.is_empty (Collector.NormalizedCounters data))
                  || negb (Collector.is_empty (Collector.Counters data))
                  = negb (Collector.is_empty countersToUse)).
  { subst countersToUse.
    destruct (Collector.is_empty (Collector.NormalizedCounters data)) eqn:H1;
      [reflexivity|]. now rewrite H1. }
  rewrite Hsame. destruct (Collector.is_empty countersToUse); [reflexivity|].
  cbn [negb fmap option_fmap option_map State.Absolute].
  rewrite !(extractCounterInt64_named countersToUse)
    by (try exact Huse; unfold Collector.counterNames; cbn [In]; tauto).
  reflexivity.
Qed.
(** ** Alerts and supplies *)

(** X26. The alerts of an event follow the status of its supplies.  For
    a collected supply that carries no status of its own (none, an empty
    one or unknown) and that [buildSupplies] emits, the loop of
    [buildAlerts] raises an alert exactly when the emitted status is
    critical or low, with severity critical for the first and warning
    for the second. *)
Theorem buildAlert_follows_supply_status
    (scanFloat : string -> option Z) (timestamp : Z) (supply : Dyn.Any)
    (info : Telemetry.SupplyInfo) :
  (forall m status, supply = Dyn.Map m -> m !! "status" = Some (Dyn.SString status) ->
                    status = EmptyString \/ status = "unknown") ->
  Telemetry.buildSupply scanFloat supply = Some info ->
  match Alerts.buildAlert scanFloat timestamp supply with
  | Some alert =>
      (Telemetry.Status info = "critical" /\ Alerts.Severity alert = "critical")
      \/ (Telemetry.Status info = "low" /\ Alerts.Severity alert = "warning")
  | None => Telemetry.Status info = "ok" \/ Telemetry.Status info = "good"
  end.
Proof.
  intros Hown Hbuild.
  pose proof (buildSupply_fields scanFloat supply info Hbuild) as (_ & _ & Hpct & Hstatus).
  assert (Hsame : Alerts.extractSupplyStatus scanFloat supply = Telemetry.Status info).
  { rewrite Hstatus, Hpct. unfold Alerts.extractSupplyStatus.
    destruct supply as [s|m].
    { unfold Telemetry.buildSupply in Hbuild. cbn in Hbuild. discriminate Hbuild. }
    assert (Hded : Telemetry.deduceSupplyStatus
                     (if Telemetry.extractFieldAsInt scanFloat (Dyn.Map m)
                           ["percentage"; "percent"] =? 0
                      then if (0 <? Telemetry.extractFieldAsInt scanFloat (Dyn.Map m)
                                      ["maxLevel"; "max"])
                              && (0 <? Telemetry.extractFieldAsInt scanFloat (Dyn.Map m)
                                         ["level"; "current"])
                           then Z.quot (Go.wrap64
                                          (Telemetry.extractFieldAsInt scanFloat (Dyn.Map m)
                                             ["level"; "current"] * 100))
                                       (Telemetry.extractFieldAsInt scanFloat (Dyn.Map m)
                                          ["maxLevel"; "max"])
                           else Telemetry.extractFieldAsInt scanFloat (Dyn.Map m)
                                  ["percentage"; "percent"]
                      else Telemetry.extractFieldAsInt scanFloat (Dyn.Map m)
                             ["percentage"; "percent"])
                   = Telemetry.deduceSupplyStatus
                       (Telemetry.calculatePercentage
                          (Telemetry.extractFieldAsInt scanFloat (Dyn.Map m)
                             ["percentage"; "percent"])
                          (Telemetry.extractFieldAsInt scanFloat (Dyn.Map m)
                             ["level"; "current"])
                          (Telemetry.extractFieldAsInt scanFloat (Dyn.Map m)
                             ["maxLevel"; "max"]))).
    { unfold Telemetry.calculatePercentage.
      destruct (_ =? 0); [|reflexivity]. cbn [andb].
      destruct (0 <? _); destruct (0 <? _); reflexivity. }
    destruct (m !! "status") as [[| | | |status|]|] eqn:Hst; try exact Hded.
    destruct (Hown m status eq_refl Hst) as [-> | ->]; exact Hded. }
  unfold Alerts.buildAlert. rewrite Hsame.
  pose proof (deduceSupplyStatus_bands (Telemetry.Percentage info)) as Hband.
  rewrite <- Hstatus in Hband. cbn [In] in Hband.
  destruct Hband as [<- | [<- | [<- | [<- | []]]]]; cbn; tauto.
Qed.

Lemma buildAlert_follows_supply_status_witness :
  match Alerts.buildAlert Examples.noFloat 1700000000 Samples.lowToner with
  | Some alert =>
      (Telemetry.Status Samples.lowEntry = "critical"
       /\ Alerts.Severity alert = "critical")
      \/ (Telemetry.Status Samples.lowEntry = "low"
          /\ Alerts.Severity alert = "warning")
  | None => Telemetry.Status Samples.lowEntry = "ok"
            \/ Telemetry.Status Samples.lowEntry = "good"
  end.
Proof.
  apply (buildAlert_follows_supply_status Examples.noFloat 1700000000
           Samples.lowToner Samples.lowEntry).
  - intros m status Hm Hst. injection Hm as <-. vm_compute in Hst. discriminate Hst.
  - vm_compute. reflexivity.
Defined.
(** ** The classification of discovered OIDs *)

Lemma prefix_app_r (p a s : string) :
  String.prefix p a = true -> String.prefix p (String.append a s) = true.
Proof.
  revert a. induction p as [|c p IH]; intros a H;
    [destruct (String.append a s); reflexivity|].
  destruct a as [|d a]; [discriminate H|]. cbn [String.prefix] in *.
  change (String.append (String d a) s) with (String d (String.append a s)).
  cbn [String.prefix]. destruct (ascii_dec c d); [now apply IH | discriminate H].
Qed.

Lemma Contains_app_l (a s p : string) :
  Go.Contains a p = true -> Go.Contains (String.append a s) p = true.
Proof.
  induction a as [|c a IH]; intros H.
  - cbn [Go.Contains] in H. unfold Go.HasPrefix in H.
    destruct (String.prefix p EmptyString) eqn:Hp; [|discriminate H].
    destruct p; [|discriminate Hp]. destruct s; reflexivity.
  - change (String.append (String c a) s) with (String c (String.append a s)).
    cbn [Go.Contains] in *. unfold Go.HasPrefix in *.
    destruct (String.prefix p (String c a)) eqn:Hp.
    + change (String c (String.append a s)) with (String.append (String c a) s).
      now rewrite (prefix_app_r _ _ _ Hp).
    + destruct (String.prefix p (String c (String.append a s))); [reflexivity|].
      now apply IH.
Qed.

Lemma Contains_app_r (pre a p : string) :
  Go.Contains a p = true -> Go.Contains (String.append pre a) p = true.
Proof.
  intros H. induction pre as [|c pre IH]; [exact H|].
  change (String.append (String c pre) a) with (String c (String.append pre a)).
  cbn [Go.Contains]. destruct (Go.HasPrefix _ p); [reflexivity | exact IH].
Qed.

Lemma Contains_inside (pre a s p : string) :
  Go.Contains a p = true ->
  Go.Contains (String.append pre (String.append a s)) p = true.
Proof. intros H. now apply Contains_app_r, Contains_app_l. Qed.

Lemma ToLower_app (a b : string) :
  Go.ToLower (String.append a b) = String.append (Go.ToLower a) (Go.ToLower b).
Proof.
  induction a as [|c a IH]; [reflexivity|].
  change (String.append (String c a) b) with (String c (String.append a b)).
  cbn [Go.ToLower]. now rewrite IH.
Qed.

Lemma prefix_shorter (p q s : string) :
  String.prefix (String.append p q) s = true -> String.prefix p s = true.
Proof.
  revert s. induction p as [|c p IH]; intros s H; [destruct s; reflexivity|].
  change (String.append (String c p) q) with (String c (String.append p q)) in H.
  destruct s as [|d s]; [discriminate H|]. cbn [String.prefix] in *.
  destruct (ascii_dec c d); [now apply IH | discriminate H].
Qed.

Lemma Contains_shorter (s p q : string) :
  Go.Contains s (String.append p q) = true -> Go.Contains s p = true.
Proof.
  induction s as [|c s IH]; cbn [Go.Contains]; unfold Go.HasPrefix; intros H.
  - destruct (String.prefix (String.append p q) EmptyString) eqn:Hp; [|discriminate H].
    now rewrite (prefix_shorter _ _ _ Hp).
  - destruct (String.prefix (String.append p q) (String c s)) eqn:Hp.
    + now rewrite (prefix_shorter _ _ _ Hp).
    + destruct (String.prefix p (String c s)); [reflexivity | now apply IH].
Qed.

Lemma classified_by_network (oid : string) :
  Go.Contains (Go.ToLower oid) ".2.1.4" = true
  \/ Go.Contains (Go.ToLower oid) ".2.1.2" = true ->
  In (Discoverer.ClassifyOID oid)
     [Discoverer.CatSupplies; Discoverer.CatCounters; Discoverer.CatStatus;
      Discoverer.CatNetwork].
Proof.
  intros H. unfold Discoverer.ClassifyOID.
  generalize dependent (Go.ToLower oid). intros low H.
  destruct (_ || _ || _ || _ || _); [cbn; tauto|].
  destruct (_ || _ || _ || _ || _); [cbn; tauto|].
  destruct (_ || _ || _ || _); [cbn; tauto|].
  destruct H as [H|H]; rewrite H; rewrite ?orb_true_r; cbn; tauto.
Qed.

(** X27. No object of the Printer MIB (1.3.6.1.2.1.43) and none of the
    Host Resources MIB (1.3.6.1.2.1.25) is classified as system or
    vendor: the text of such an OID contains .2.1.4 or .2.1.2, so what
    the supplies, counters and status patterns do not claim is taken for
    a network object. *)
Theorem ClassifyOID_printer_mib_objects (leading suffix : string) :
  In (Discoverer.ClassifyOID
        (String.append leading (String.append "1.3.6.1.2.1.43" suffix)))
     [Discoverer.CatSupplies; Discoverer.CatCounters; Discoverer.CatStatus;
      Discoverer.CatNetwork]
  /\ In (Discoverer.ClassifyOID
           (String.append leading (String.append "1.3.6.1.2.1.25" suffix)))
        [Discoverer.CatSupplies; Discoverer.CatCounters; Discoverer.CatStatus;
         Discoverer.CatNetwork].
Proof.
  split; apply classified_by_network; rewrite !ToLower_app.
  - left. apply Contains_inside. reflexivity.
  - right. apply Contains_inside. reflexivity.
Qed.

(** X28. The last status pattern of [ClassifyOID] never decides: an OID
    that contains .11.2.3.9.4.2.1.5 also contains the counters pattern
    .11.2.3.9.4.2, which is tried first, so the status objects of the HP
    enterprise tree are classified as counters (or as supplies). *)
Theorem ClassifyOID_hp_status_is_shadowed (oid : string) :
  Go.Contains (Go.ToLower oid) ".11.2.3.9.4.2.1.5" = true ->
  In (Discoverer.ClassifyOID oid) [Discoverer.CatSupplies; Discoverer.CatCounters].
Proof.
  intros H. unfold Discoverer.ClassifyOID.
  generalize dependent (Go.ToLower oid). intros low H.
  apply (Contains_shorter low ".11.2.3.9.4.2" ".1.5") in H.
  destruct (_ || _ || _ || _ || _); [cbn; tauto|].
  rewrite H, ?orb_true_r. cbn. tauto.
Qed.

Lemma ClassifyOID_hp_status_is_shadowed_witness :
  In (Discoverer.ClassifyOID "1.3.6.1.4.1.11.2.3.9.4.2.1.5.1.0")
     [Discoverer.CatSupplies; Discoverer.CatCounters].
Proof.
  apply (ClassifyOID_hp_status_is_shadowed "1.3.6.1.4.1.11.2.3.9.4.2.1.5.1.0").
  vm_compute. reflexivity.
Defined.
Lemma contains_spec (slice : list string) (item : string) :
  Discoverer.contains slice item = true <-> item ∈ slice.
Proof.
  induction slice as [|s slice IH]; cbn [Discoverer.contains].
  - split; [discriminate | intros H; inversion H].
  - destruct (String.eqb_spec s item) as [->|Hne].
    + split; [intros _; now left | reflexivity].
    + rewrite IH. split; [intros H; now right|].
      intros H. apply elem_of_cons in H as [H|H]; [congruence | exact H].
Qed.

Lemma classifyResult_step (seen : list Collector.WalkResult)
    (byCat : gmap string (list string)) (res : Collector.WalkResult) :
  Discoverer.classified seen byCat ->
  Discoverer.classified (seen ++ [res])%list (Discoverer.classifyResult byCat res).
Proof.
  intros [Hlisted Hall].
  assert (Hold : forall r, r ∈ seen -> r ∈ (seen ++ [res])%list)
    by (intros r Hr; apply elem_of_app; now left).
  assert (Hnew : res ∈ (seen ++ [res])%list)
    by (apply elem_of_app; right; now left).
  assert (Hweak : forall category listed,
            byCat !! category = Some listed ->
            listed <> [] /\ NoDup listed
            /\ forall oid, oid ∈ listed ->
                 Discoverer.ClassifyOID oid = category
                 /\ exists result, result ∈ (seen ++ [res])%list
                                   /\ Collector.OID result = oid
                                   /\ Discoverer.isUsefulOID (Collector.OID result)
                                        (Collector.Value result) = true).
  { intros category listed Hc. destruct (Hlisted category listed Hc) as (H1 & H2 & H3).
    split; [exact H1|]. split; [exact H2|]. intros oid Hoid.
    destruct (H3 oid Hoid) as (H4 & r & Hr & Hro & Hru).
    split; [exact H4|]. exists r. now repeat split; auto. }
  unfold Discoverer.classifyResult.
  destruct (Discoverer.isUsefulOID (Collector.OID res) (Collector.Value res)) eqn:Huse;
    cbn [negb].
  2:{ split; [exact Hweak|]. intros r Hr Hru.
      apply elem_of_app in Hr as [Hr|Hr]; [now apply Hall|].
      apply list_elem_of_singleton in Hr. subst r. congruence. }
  set (category := Discoverer.ClassifyOID (Collector.OID res)).
  set (listed := default [] (byCat !! category)).
  destruct (Discoverer.contains listed (Collector.OID res)) eqn:Hcont; cbn [negb].
  - apply contains_spec in Hcont. split; [exact Hweak|]. intros r Hr Hru.
    apply elem_of_app in Hr as [Hr|Hr]; [now apply Hall|].
    apply list_elem_of_singleton in Hr. subst r. fold category.
    subst listed. destruct (byCat !! category) as [l|] eqn:Hl; [|inversion Hcont].
    exists l. now split.
  - assert (Hfresh : Collector.OID res ∉ listed).
    { intros H. apply contains_spec in H. congruence. }
    assert (Hprev : listed = [] \/ byCat !! category = Some listed).
    { subst listed. destruct (byCat !! category); [now right | now left]. }
    split.
    + intros c l Hc. destruct (decide (category = c)) as [<-|Hne].
      * rewrite lookup_insert_eq in Hc. injection Hc as <-.
        split; [intros H; now apply app_eq_nil in H as [_ H]|].
        split.
        { apply NoDup_app. split; [|split].
          - destruct Hprev as [-> | Hp]; [constructor|].
            now destruct (Hlisted _ _ Hp) as (_ & H & _).
          - intros x Hx Hx'. apply list_elem_of_singleton in Hx'. now subst x.
          - apply NoDup_singleton. }
        intros oid Hoid. apply elem_of_app in Hoid as [Hoid|Hoid].
        -- destruct Hprev as [Hp | Hp]; [rewrite Hp in Hoid; inversion Hoid|].
           now apply (Hweak _ _ Hp).
        -- apply list_elem_of_singleton in Hoid. subst oid.
           split; [reflexivity|]. exists res. now repeat split.
      * rewrite lookup_insert_ne in Hc by exact Hne. now apply Hweak.
    + intros r Hr Hru.
      destruct (decide (category = Discoverer.ClassifyOID (Collector.OID r))) as [Heq|Hne].
      * rewrite <- Heq, lookup_insert_eq. eexists. split; [reflexivity|].
        apply elem_of_app in Hr as [Hr|Hr].
        -- destruct (Hall r Hr Hru) as (l & Hl & Hin). rewrite <- Heq in Hl.
           apply elem_of_app. left. subst listed. now rewrite Hl.
        -- apply list_elem_of_singleton in Hr. subst r. apply elem_of_app. right. now left.
      * rewrite lookup_insert_ne by exact Hne.
        apply elem_of_app in Hr as [Hr|Hr]; [now apply Hall|].
        apply list_elem_of_singleton in Hr. subst r. now exfalso.
Qed.

Lemma classifyLoop_spec (l : list Collector.WalkResult) :
  forall seen byCat,
    Discoverer.classified seen byCat ->
    Discoverer.classified (seen ++ l)%list (foldl Discoverer.classifyResult byCat l).
Proof.
  induction l as [|res l IH]; intros seen byCat H; cbn [foldl].
  - now rewrite app_nil_r.
  - replace (seen ++ res :: l)%list with ((seen ++ [res]) ++ l)%list
      by (now rewrite <- app_assoc).
    apply IH. now apply classifyResult_step.
Qed.

Lemma classifyTrees_spec (trees : list (string * list Collector.WalkResult)) :
  forall seen byCat,
    Discoverer.classified seen byCat ->
    Discoverer.classified
      (seen ++ concat (snd <$> trees))%list
      (foldl (fun oidsByCategory '(_, walkList) =>
                foldl Discoverer.classifyResult oidsByCategory walkList)
             byCat trees).
Proof.
  induction trees as [|[name walkList] trees IH]; intros seen byCat H;
    cbn [foldl fmap list_fmap concat snd].
  - now rewrite app_nil_r.
  - rewrite app_assoc. apply IH. now apply classifyLoop_spec.
Qed.

Lemma classifyAll_spec (allResults : gmap string (list Collector.WalkResult)) :
  Discoverer.classified (Discoverer.walked allResults) (Discoverer.classifyAll allResults).
Proof.
  unfold Discoverer.classifyAll, Discoverer.walked.
  apply (classifyTrees_spec (Dyn.range allResults) [] ∅).
  split.
  - intros c l Hc. now rewrite lookup_empty in Hc.
  - intros r Hr. inversion Hr.
Qed.

Lemma walked_spec (allResults : gmap string (list Collector.WalkResult))
    (res : Collector.WalkResult) :
  res ∈ Discoverer.walked allResults
  <-> exists name walkList, allResults !! name = Some walkList /\ res ∈ walkList.
Proof.
  unfold Discoverer.walked. rewrite list_elem_of_In, in_concat. split.
  - intros (wl & Hwl & Hres). apply list_elem_of_In in Hwl, Hres.
    apply list_elem_of_fmap in Hwl as ([name wl'] & -> & Hin).
    apply elem_of_map_to_list in Hin. now exists name, wl'.
  - intros (name & wl & Hl & Hres). exists wl.
    split; [|now apply list_elem_of_In].
    apply list_elem_of_In, list_elem_of_fmap. exists (name, wl).
    split; [reflexivity|]. now apply elem_of_map_to_list.
Qed.

Lemma copyLoop_lookup (l : list (string * list string)) :
  NoDup l.*1 ->
  (forall entry, entry ∈ l -> snd entry <> []) ->
  forall (oids : gmap string (list string)) (k : string),
    foldl (fun (oids : gmap string (list string)) '(category, listed) =>
             if (0 <? length listed)%nat then <[category := listed]> oids else oids)
          oids l !! k
    = ((list_to_map l : gmap string (list string)) ∪ oids) !! k.
Proof.
  induction l as [|[c o] l IH]; intros Hnd Hne oids k; cbn [foldl].
  - now rewrite list_to_map_nil, (left_id ∅ (∪)).
  - cbn in Hnd. apply NoDup_cons in Hnd as [Hfresh Hnd].
    assert (Ho : (0 <? length o)%nat = true).
    { apply Nat.ltb_lt. specialize (Hne (c, o) ltac:(now left)). cbn in Hne.
      destruct o; [congruence | cbn; lia]. }
    rewrite Ho, IH; [|exact Hnd | intros e He; apply Hne; now right].
    assert (Hc : (list_to_map l : gmap string (list string)) !! c = None)
      by now apply not_elem_of_list_to_map_1.
    rewrite list_to_map_cons, !lookup_union.
    destruct (decide (c = k)) as [<-|Hck].
    + rewrite Hc, !lookup_insert_eq. cbn. now destruct (oids !! c).
    + now rewrite !lookup_insert_ne by exact Hck.
Qed.

Lemma classifyOIDs_fresh (allResults : gmap string (list Collector.WalkResult)) :
  Discoverer.classifyOIDs ∅ allResults = Discoverer.classifyAll allResults.
Proof.
  apply map_eq. intros k. unfold Discoverer.classifyOIDs.
  rewrite copyLoop_lookup.
  - unfold Dyn.range. now rewrite list_to_map_to_list, (right_id ∅ (∪)).
  - apply NoDup_fst_map_to_list.
  - intros [c l] Hin. apply elem_of_map_to_list in Hin.
    destruct (classifyAll_spec allResults) as [Hlisted _].
    now destruct (Hlisted c l Hin) as (H & _).
Qed.

(** X29. The lists [classifyOIDs] leaves in a new profile sort the walked
    OIDs that came with a useful value by their category: no list is
    empty, none holds an OID twice, every OID stands in the list of the
    category [ClassifyOID] gives it and in no other, and no such OID is
    left out, whatever the order in which the trees are visited. *)
Theorem classifyOIDs_sorts_by_category
    (allResults : gmap string (list Collector.WalkResult)) :
  let oids := Discoverer.classifyOIDs ∅ allResults in
  (forall category listed,
     oids !! category = Some listed ->
     listed <> []
     /\ NoDup listed
     /\ forall oid, oid ∈ listed ->
          Discoverer.ClassifyOID oid = category
          /\ exists name walkList result,
               allResults !! name = Some walkList
               /\ result ∈ walkList
               /\ Collector.OID result = oid
               /\ Discoverer.isUsefulOID (Collector.OID result)
                    (Collector.Value result) = true)
  /\ (forall name walkList result,
        allResults !! name = Some walkList ->
        result ∈ walkList ->
        Discoverer.isUsefulOID (Collector.OID result) (Collector.Value result) = true ->
        exists listed,
          oids !! Discoverer.ClassifyOID (Collector.OID result) = Some listed
          /\ Collector.OID result ∈ listed).
Proof.
  intros oids. subst oids. rewrite classifyOIDs_fresh.
  destruct (classifyAll_spec allResults) as [Hlisted Hall]. split.
  - intros category listed Hc. destruct (Hlisted category listed Hc) as (H1 & H2 & H3).
    split; [exact H1|]. split; [exact H2|]. intros oid Hoid.
    destruct (H3 oid Hoid) as (H4 & r & Hr & Hro & Hru). split; [exact H4|].
    apply walked_spec in Hr as (name & wl & Hl & Hin). now exists name, wl, r.
  - intros name wl r Hl Hin Hu. apply Hall; [|exact Hu].
    apply walked_spec. now exists name, wl.
Qed.

(** X30. The capabilities of a new profile: counters, supplies, status
    and network are set exactly when some walked OID with a useful value
    falls in that category, while colour and duplex are set for every
    device, whatever was discovered. *)
Theorem detectCapabilities_of_new_profile
    (allResults : gmap string (list Collector.WalkResult))
    (capabilities : Profile.CapabilityMap) :
  let caps := Discoverer.detectCapabilities
                (Discoverer.classifyOIDs ∅ allResults) capabilities in
  let found category :=
    exists name walkList result,
      allResults !! name = Some walkList
      /\ result ∈ walkList
      /\ Discoverer.isUsefulOID (Collector.OID result) (Collector.Value result) = true
      /\ Discoverer.ClassifyOID (Collector.OID result) = category in
  Profile.Color caps = true
  /\ Profile.Duplex caps = true
  /\ (Profile.Counters caps = true <-> found Discoverer.CatCounters)
  /\ (Profile.Supplies caps = true <-> found Discoverer.CatSupplies)
  /\ (Profile.Status caps = true <-> found Discoverer.CatStatus)
  /\ (Profile.Network caps = true <-> found Discoverer.CatNetwork).
Proof.
  intros caps found. subst caps.
  assert (Hcat : forall category,
            (0 <? length (default [] (Discoverer.classifyOIDs ∅ allResults !! category)))%nat
            = true <-> found category).
  { intros category. rewrite classifyOIDs_fresh.
    destruct (classifyAll_spec allResults) as [Hlisted Hall]. split.
    - intros Hlen. destruct (Discoverer.classifyAll allResults !! category)
        as [listed|] eqn:Hc; [|discriminate Hlen].
      destruct (Hlisted category listed Hc) as (Hne & _ & Hoids).
      destruct listed as [|oid listed]; [congruence|].
      destruct (Hoids oid ltac:(now left)) as (Hclass & r & Hr & Hro & Hru).
      apply walked_spec in Hr as (name & wl & Hl & Hin).
      exists name, wl, r. subst oid. now repeat split.
    - intros (name & wl & r & Hl & Hin & Hu & Hclass).
      destruct (Hall r) as (listed & Hc & Hoid);
        [apply walked_spec; now exists name, wl | exact Hu |].
      rewrite Hclass in Hc. rewrite Hc. cbn [default].
      destruct listed; [inversion Hoid | reflexivity]. }
  unfold Discoverer.detectCapabilities.
  cbn [Profile.Color Profile.Duplex Profile.Counters Profile.Supplies
         Profile.Status Profile.Network].
  split; [reflexivity|]. split; [reflexivity|].
  repeat split; apply Hcat.
Qed.
(** ** Where discovered supplies end up *)

Lemma Contains_no_letter (pattern : string) (first : ascii) (rest : string) :
  forall s : string,
    pattern = String first rest ->
    Forall (fun c => Go.is_digit c = true \/ c = "_"%char) (Go.chars s) ->
    Go.is_digit first = false -> first <> "_"%char ->
    Go.Contains s pattern = false.
Proof.
  intros s -> Hs Hd Hu. induction s as [|c s IH]; [reflexivity|].
  rewrite chars_cons in Hs. apply Forall_cons in Hs as [Hc Hs].
  cbn [Go.Contains]. unfold Go.HasPrefix. cbn [String.prefix].
  destruct (ascii_dec first c) as [<-|_]; [|now apply IH].
  exfalso. destruct Hc as [Hc|Hc]; congruence.
Qed.

Lemma underscored_oid (oid : string) :
  Shapes.numericOID oid ->
  Forall (fun c => Go.is_digit c = true \/ c = "_"%char)
         (Go.chars (Go.ReplaceAll (Go.TrimPrefix oid ".") "."%char "_")).
Proof.
  unfold Shapes.numericOID. intros Hoid.
  assert (Htrim : Forall (fun c => Go.is_digit c = true \/ c = "."%char)
                         (Go.chars (Go.TrimPrefix oid "."))).
  { unfold Go.TrimPrefix. destruct (Go.HasPrefix oid "."); [|exact Hoid].
    destruct oid as [|c oid]; [exact Hoid|].
    rewrite chars_cons in Hoid. now apply Forall_cons in Hoid as [_ Hoid]. }
  rewrite ReplaceAll_chars. apply Forall_forall. intros c Hc.
  apply list_elem_of_In, in_map_iff in Hc as (c0 & <- & Hc0).
  rewrite Forall_forall in Htrim. apply list_elem_of_In in Hc0.
  destruct (Htrim c0 Hc0) as [Hd| ->]; [|now right].
  destruct (Ascii.eqb c0 "."); [now right | now left].
Qed.

Lemma supplies_key_has_no_supply_word (underscored : string) :
  Forall (fun c => Go.is_digit c = true \/ c = "_"%char) (Go.chars underscored) ->
  let key := String.append "supplies" (String.append "_" underscored) in
  Go.Contains key "supply" = false
  /\ Go.Contains key "consumable" = false
  /\ Go.Contains key "toner" = false.
Proof.
  intros Hu key. subst key.
  change (String.append "supplies" (String.append "_" underscored))
    with (String "s" (String "u" (String "p" (String "p" (String "l"
           (String "i" (String "e" (String "s" (String "_" underscored))))))))).
  assert (H1 : Go.Contains underscored "supply" = false)
    by (now apply (Contains_no_letter _ "s"%char "upply")).
  assert (H2 : Go.Contains underscored "consumable" = false)
    by (now apply (Contains_no_letter _ "c"%char "onsumable")).
  assert (H3 : Go.Contains underscored "toner" = false)
    by (now apply (Contains_no_letter _ "t"%char "oner")).
  cbn [Go.Contains]. unfold Go.HasPrefix. cbn [String.prefix]. cbn.
  cbn [Go.Contains] in H1, H2, H3. unfold Go.HasPrefix in H1, H2, H3.
  destruct underscored as [|c u]; cbn in *; auto.
Qed.

Lemma discoverEntry_keeps_supplies (groupName : string) (data : Collector.PrinterData)
    (res : Collector.WalkResult) :
  In groupName ["counters"; "supplies"; "status"] ->
  Shapes.numericOID (Collector.OID res) ->
  Collector.Supplies (Collector.discoverEntry groupName data res)
  = Collector.Supplies data.
Proof.
  intros Hg Hoid. pose proof (underscored_oid _ Hoid) as Hu.
  unfold Collector.discoverEntry.
  destruct (_ || _ || _); [reflexivity|].
  set (underscored := Go.ReplaceAll (Go.TrimPrefix (Collector.OID res) ".") "." "_") in *.
  destruct (negb _ && negb _ && negb _ && negb _); [|reflexivity].
  cbn [In] in Hg. destruct Hg as [<- | [<- | [<- | []]]].
  - replace (Go.Contains ("counters" ++ "_" ++ underscored) "counter") with true;
      [reflexivity|].
    symmetry.
    change ("counters" ++ "_" ++ underscored)
      with (String "c" (String "o" (String "u" (String "n" (String "t"
             (String "e" (String "r" (String "s" (String "_" underscored))))))))).
    reflexivity.
  - destruct (supplies_key_has_no_supply_word underscored Hu) as (H1 & H2 & H3).
    cbn zeta in H1, H2, H3.
    change (String.append "supplies" (String.append "_" underscored))
      with ("supplies" ++ "_" ++ underscored) in H1, H2, H3.
    rewrite H1, H2, H3. cbn [orb].
    destruct (_ || _); [reflexivity|].
    destruct (Go.Contains _ "status"); reflexivity.
  - destruct (_ || _); [reflexivity|].
    replace (Go.Contains ("status" ++ "_" ++ underscored) "status") with true;
      [reflexivity|].
    symmetry.
    change ("status" ++ "_" ++ underscored)
      with (String "s" (String "t" (String "a" (String "t" (String "u"
             (String "s" (String "_" underscored))))))).
    reflexivity.
Qed.

(** X17. [discoverAdditionalData] never adds a supply.  The entries of
    its supplies WALK get keys that begin with supplies_, a text that
    holds none of the words supply, consumable and toner the
    classification looks for, and the keys of the other two WALKs are
    claimed by the counters and by the status before the supplies are
    tried; so the supplies bucket is returned as it was given.  This
    holds for every device that names its objects by digits and dots. *)
Theorem discoverAdditionalData_adds_no_supply
    (data : Collector.PrinterData) (client : Collector.SNMPClient) :
  Shapes.numericOIDs client ->
  Collector.Supplies (Collector.discoverAdditionalData data client)
  = Collector.Supplies data.
Proof.
  intros Hnum. unfold Collector.discoverAdditionalData.
  apply (foldl_invariant
           (fun d => Collector.Supplies d = Collector.Supplies data)); [reflexivity|].
  intros d [groupName basOID] Hd Hin.
  assert (Hg : In groupName ["counters"; "supplies"; "status"]).
  { unfold Collector.oidsToWalk in Hin. cbn [In] in Hin.
    destruct Hin as [H | [H | [H | []]]]; injection H as <- _; cbn; tauto. }
  destruct (Collector.Walk client basOID) as [results|] eqn:Hwalk; [|exact Hd].
  apply (foldl_invariant
           (fun d' => Collector.Supplies d' = Collector.Supplies data)); [exact Hd|].
  intros d' res Hd' Hres.
  rewrite discoverEntry_keeps_supplies; [exact Hd' | exact Hg |].
  apply (Hnum basOID results res Hwalk). now apply list_elem_of_In.
Qed.

Lemma discoverAdditionalData_adds_no_supply_witness :
  Collector.Supplies
    (Collector.discoverAdditionalData Examples.halfData Samples.supplyWalkClient)
  = Collector.Supplies Examples.halfData.
Proof.
  apply (discoverAdditionalData_adds_no_supply Examples.halfData Samples.supplyWalkClient).
  intros baseOID results res Hwalk Hres. unfold Samples.supplyWalkClient in Hwalk.
  cbn [Collector.Walk] in Hwalk.
  destruct (String.eqb baseOID "1.3.6.1.2.1.43.11"); [|discriminate Hwalk].
  injection Hwalk as <-.
  apply list_elem_of_singleton in Hres. subst res.
  unfold Shapes.numericOID. apply Forall_forall. intros c Hc.
  vm_compute in Hc. apply list_elem_of_In in Hc. cbn [In] in Hc.
  repeat (destruct Hc as [<-|Hc]; [first [now left | now right]|]). destruct Hc.
Defined.
